(** * BudgetsCalm desktop: the data layer of [src/lib/db.ts]

    A shallow embedding of the [DB] object of [src/lib/db.ts] (budgets and
    expenses kept in two RxDB collections, settings kept in a file) and of
    the layout component of [src/hocs/withLayout.tsx] that calls it, with
    the properties the specification states about them and further
    properties of the code.

    - A JavaScript string is a [string]; its characters stand for code units
      (those below 256), compared by code unit as [<], [<=] do in JavaScript
      and in the store's range queries.
    - A JavaScript number is a primitive [float].
    - A collection is a finite map from the primary key [id] to the rest of
      the document; the store keeps a revision marker with each document,
      here its generation number. A query yields the documents it selects
      in the order of their ids, and a query for the empty id selects every
      document.
    - An [async] function is a computation on the state of the store that
      either returns or throws; what was written before a [throw] stays
      written. *)

From Stdlib Require Import Floats ZArith.
From stdpp Require Import gmap strings list fin_maps.

Open Scope string_scope.

(** ** The data model ([T.Budget], [T.Expense] and their documents) *)

Module Budget.
(** [T.Budget]: the plain object passed to and returned by [DB]. *)
Record t := mk {
  id : string;
  name : string;
  month : string;
  value : float;
  _rev : option nat
}.

(** A document of the [budgets] collection, stored under its [id]. *)
Record doc := mkDoc {
  doc_name : string;
  doc_month : string;
  doc_value : float;
  doc_rev : nat
}.

(** [document.toJSON()]: the fields of the schema; the revision marker is
    not among them. *)
Definition toJSON (kd : string * doc) : t :=
  mk kd.1 (doc_name kd.2) (doc_month kd.2) (doc_value kd.2) None.

(** The fields of the schema, without the revision marker. *)
Definition fields (d : doc) : string * string * float :=
  (doc_name d, doc_month d, doc_value d).

Definition set_id (v : string) (b : t) : t := mk v (name b) (month b) (value b) (_rev b).
Definition set_month (v : string) (b : t) : t := mk (id b) (name b) v (value b) (_rev b).
(** [delete budget._rev] *)
Definition delete_rev (b : t) : t := mk (id b) (name b) (month b) (value b) None.
End Budget.

Module Expense.
(** [T.Expense] *)
Record t := mk {
  id : string;
  cost : float;
  description : string;
  budget : string;
  date : string;
  _rev : option nat
}.

(** A document of the [expenses] collection, stored under its [id]. *)
Record doc := mkDoc {
  doc_cost : float;
  doc_description : string;
  doc_budget : string;
  doc_date : string;
  doc_rev : nat
}.

Definition toJSON (kd : string * doc) : t :=
  mk kd.1 (doc_cost kd.2) (doc_description kd.2) (doc_budget kd.2) (doc_date kd.2) None.

Definition fields (d : doc) : float * string * string * string :=
  (doc_cost d, doc_description d, doc_budget d, doc_date d).

Definition set_id (v : string) (e : t) : t :=
  mk v (cost e) (description e) (budget e) (date e) (_rev e).
Definition set_budget (v : string) (e : t) : t :=
  mk (id e) (cost e) (description e) v (date e) (_rev e).
Definition set_date (v : string) (e : t) : t :=
  mk (id e) (cost e) (description e) (budget e) v (_rev e).
Definition delete_rev (e : t) : t :=
  mk (id e) (cost e) (description e) (budget e) (date e) None.
End Expense.

(** ** The store *)

(** The two collections, and how many ids have been generated so far (the
    position in the sequence of readings of [Date.now()] and
    [Math.random()]). *)
Record World := mkWorld {
  budgets : gmap string Budget.doc;
  expenses : gmap string Expense.doc;
  ticks : nat
}.

Definition with_budgets (m : gmap string Budget.doc) (w : World) : World :=
  mkWorld m (expenses w) (ticks w).
Definition with_expenses (m : gmap string Expense.doc) (w : World) : World :=
  mkWorld (budgets w) m (ticks w).

(** What the functions of [DB] throw. *)
Inductive Error :=
| ReservedBudgetName        (* Cannot create budget named "Total". *)
| InvalidBudgetName         (* The budget needs a valid name. *)
| InvalidBudgetValue        (* The budget needs a valid value. *)
| DuplicateBudget           (* A budget with the same name for the same month already exists. *)
| InvalidExpenseDescription (* The expense needs a valid description. *)
| InvalidExpenseCost        (* The expense needs a valid cost. *)
| BudgetHasExpenses         (* There are expenses using this budget. ... *)
| NullDocument              (* a property read on the null result of findOne *)
| Conflict.                 (* the store refuses a write: document update conflict *)

Inductive Result (A : Type) :=
| Ok (a : A)
| Throw (e : Error).
Arguments Ok {A} a.
Arguments Throw {A} e.

(** An [async] function of [DB]. *)
Definition M (A : Type) : Type := World -> Result A * World.

Definition ret {A} (a : A) : M A := fun w => (Ok a, w).
Definition throw {A} (e : Error) : M A := fun w => (Throw e, w).
Definition bind {A B} (c : M A) (k : A -> M B) : M B :=
  fun w => match c w with
           | (Ok a, w') => k a w'
           | (Throw e, w') => (Throw e, w')
           end.

Notation "'await' x <- c ; k" := (bind c (fun x => k))
  (at level 10, x name, c at level 99, k at level 200).
Notation "'exec' c ; k" := (bind c (fun _ => k))
  (at level 10, c at level 99, k at level 200).

(** [for (const x of xs) { await body(x) }] *)
Fixpoint forOf {A} (xs : list A) (body : A -> M unit) : M unit :=
  match xs with
  | [] => ret tt
  | x :: xs' => exec body x; forOf xs' body
  end.

(** *** Queries *)

(** The store keeps the documents of a collection by id and yields them in
    the order of their ids, compared by code unit. *)
Fixpoint insertById {D} (kd : string * D) (l : list (string * D)) : list (string * D) :=
  match l with
  | [] => [kd]
  | kd' :: l' => if String.leb kd.1 kd'.1 then kd :: l else kd' :: insertById kd l'
  end.

Definition documents {D} (m : gmap string D) : list (string * D) :=
  foldr insertById [] (map_to_list m).

(** [collection.find().where(...)...exec()]: the documents that satisfy the
    selector, in the order of their ids. *)
Definition find {D} (selector : string * D -> bool) (m : gmap string D) : list (string * D) :=
  List.filter selector (documents m).

(** [collection.findOne().where(...)...exec()]: the first of them, the one
    of the lowest id, or null. *)
Definition findOne {D} (selector : string * D -> bool) (m : gmap string D) : option (string * D) :=
  head (find selector m).

(** The selector [.where('id').eq(i)]. The store looks the id up as a key,
    and takes the empty string for no key at all: every document is then
    selected, so that [findOne] yields the document of the lowest id. *)
Definition idIs {D} (i : string) (kd : string * D) : bool :=
  String.eqb i "" || String.eqb kd.1 i.

(** *** Writes *)

(** The ids under which the store takes a new document: not the empty
    string, and no string that starts with an underscore. *)
Definition admissibleId (i : string) : bool :=
  negb (String.eqb i "") && negb (String.prefix "_" i).

(** The store's answer to a document offered under key [k] with revision
    marker [offered]: a new key takes a document that carries no marker, an
    existing key takes a document that carries the current marker, and
    anything else is a conflict. [mk] builds the document from the
    generation it is given. The store checks a new document further: it
    refuses an id that is not admissible and a number that is not finite.
    Those checks are left out here. The ids that [saveBudget], [saveExpense]
    and [copyBudgets] write are generated from [Date.now()], a number, and
    the numbers they write have passed their guards or come from the store;
    what is proved of [importData], which writes the ids and numbers it is
    given, is proved of admissible ids and finite numbers. *)
Definition put {D} (rev_of : D -> nat) (k : string) (offered : option nat) (mk : nat -> D)
    (m : gmap string D) : option (gmap string D) :=
  match m !! k, offered with
  | None, None => Some (<[k := mk 1]> m)
  | Some d, Some r => if Nat.eqb r (rev_of d) then Some (<[k := mk (S r)]> m) else None
  | _, _ => None
  end.

Definition budgetDoc (b : Budget.t) (rev : nat) : Budget.doc :=
  Budget.mkDoc (Budget.name b) (Budget.month b) (Budget.value b) rev.

Definition expenseDoc (e : Expense.t) (rev : nat) : Expense.doc :=
  Expense.mkDoc (Expense.cost e) (Expense.description e) (Expense.budget e) (Expense.date e) rev.

Definition putBudget (b : Budget.t) (m : gmap string Budget.doc) : option (gmap string Budget.doc) :=
  put Budget.doc_rev (Budget.id b) (Budget._rev b) (budgetDoc b) m.

Definition putExpense (e : Expense.t) (m : gmap string Expense.doc) : option (gmap string Expense.doc) :=
  put Expense.doc_rev (Expense.id e) (Expense._rev e) (expenseDoc e) m.

(** [db.budgets.insert(b)]: throws when the store refuses the document. *)
Definition insertBudget (b : Budget.t) : M unit :=
  fun w => match putBudget b (budgets w) with
           | Some m => (Ok tt, with_budgets m w)
           | None => (Throw Conflict, w)
           end.

Definition insertExpense (e : Expense.t) : M unit :=
  fun w => match putExpense e (expenses w) with
           | Some m => (Ok tt, with_expenses m w)
           | None => (Throw Conflict, w)
           end.

(** [db.budgets.bulkInsert(bs)]: the documents the store refuses because
    their ids are taken are reported in the result, which the callers do
    not read; nothing is thrown. A batch that holds an id that is not
    admissible or a number that is not finite, which the store refuses, is
    not modelled (see [put]). *)
Fixpoint bulkPut {T D} (putOne : T -> gmap string D -> option (gmap string D))
    (docs : list T) (m : gmap string D) : gmap string D :=
  match docs with
  | [] => m
  | d :: docs' =>
      match putOne d m with
      | Some m' => bulkPut putOne docs' m'
      | None => bulkPut putOne docs' m
      end
  end.

Definition bulkInsertBudgets (bs : list Budget.t) : M unit :=
  fun w => (Ok tt, with_budgets (bulkPut putBudget bs (budgets w)) w).

Definition bulkInsertExpenses (es : list Expense.t) : M unit :=
  fun w => (Ok tt, with_expenses (bulkPut putExpense es (expenses w)) w).

(** [document.update({ $set: ... })] on the document found under [k]: the
    fields are set and the store gives the document its next revision. *)
Definition setBudgetNameValue (name : string) (value : float) (d : Budget.doc) : Budget.doc :=
  Budget.mkDoc name (Budget.doc_month d) value (S (Budget.doc_rev d)).

Definition setExpenseBudget (budget : string) (d : Expense.doc) : Expense.doc :=
  Expense.mkDoc (Expense.doc_cost d) (Expense.doc_description d) budget (Expense.doc_date d)
                (S (Expense.doc_rev d)).

Definition setExpenseAll (e : Expense.t) (d : Expense.doc) : Expense.doc :=
  expenseDoc e (S (Expense.doc_rev d)).

Definition updateBudget (k : string) (f : Budget.doc -> Budget.doc) : M unit :=
  fun w => (Ok tt, with_budgets (alter f k (budgets w)) w).

Definition updateExpense (k : string) (f : Expense.doc -> Expense.doc) : M unit :=
  fun w => (Ok tt, with_expenses (alter f k (expenses w)) w).

(** [document.remove()] *)
Definition removeBudget (k : string) : M unit :=
  fun w => (Ok tt, with_budgets (delete k (budgets w)) w).

Definition removeExpense (k : string) : M unit :=
  fun w => (Ok tt, with_expenses (delete k (expenses w)) w).

(** ** JavaScript helpers *)

(** The white space [String.prototype.trim] strips, among the code units
    below 256: tab, line feed, vertical tab, form feed, carriage return,
    space and no-break space. *)
Definition isWhiteSpace (c : Ascii.ascii) : bool :=
  match Ascii.nat_of_ascii c with
  | 9 | 10 | 11 | 12 | 13 | 32 | 160 => true
  | _ => false
  end.

Fixpoint trimStart (s : string) : string :=
  match s with
  | EmptyString => EmptyString
  | String c s' => if isWhiteSpace c then trimStart s' else s
  end.

Definition trimEnd (s : string) : string := String.rev (trimStart (String.rev s)).

Definition trim (s : string) : string := trimEnd (trimStart s).

(** [x <= 0 || Number.isNaN(x)] *)
Definition notPositive (x : float) : bool :=
  (PrimFloat.leb x 0%float) || PrimFloat.is_nan x.

(** [Array.prototype.sort(compare)]: a stable sort by the sign of
    [compare a b]. *)
Fixpoint sortInsert {A} (compare : A -> A -> Z) (x : A) (l : list A) : list A :=
  match l with
  | [] => [x]
  | y :: l' => if (compare x y <=? 0)%Z then x :: l else y :: sortInsert compare x l'
  end.

Definition sort {A} (compare : A -> A -> Z) (l : list A) : list A :=
  foldr (sortInsert compare) [] l.

(** [query.where(field).gte(lo).lte(hi)] on a string field. *)
Definition between (lo hi s : string) : bool := String.leb lo s && String.leb s hi.

(** The dates the store yields for the range query of a month:
    [.where('date').gte(`${month}-01`).lte(`${month}-31`)]. *)
Definition dateInMonth (month date : string) : bool :=
  between (month ++ "-01") (month ++ "-31") date.

(** ** The functions of [DB] *)

(** What [db.ts] takes from outside: moment.js, the clock, the random source,
    and the two comparison functions of [./utils]. *)
Record Env := mkEnv {
  (** [moment(input, format).isValid()] *)
  moment_isValid : string -> string -> bool;
  (** [moment().format(format)] *)
  moment_format : string -> string;
  (** [Date.now().toString()] and [Math.random()] as text, at the n-th id generated *)
  Date_now : nat -> string;
  Math_random : nat -> string;
  (** [sortByName] and [sortByDate] of [./utils] *)
  sortByName : Budget.t -> Budget.t -> Z;
  sortByDate : Expense.t -> Expense.t -> Z
}.

Section DB.

Variable env : Env.

(** [`${Date.now().toString()}:${Math.random()}`] at the n-th generation *)
Definition idAt (n : nat) : string := Date_now env n ++ ":" ++ Math_random env n.

Definition generateId : M string :=
  fun w => (Ok (idAt (ticks w)), mkWorld (budgets w) (expenses w) (S (ticks w))).

Definition findBudgets (selector : string * Budget.doc -> bool) : M (list (string * Budget.doc)) :=
  fun w => (Ok (find selector (budgets w)), w).
Definition findOneBudget (selector : string * Budget.doc -> bool) : M (option (string * Budget.doc)) :=
  fun w => (Ok (findOne selector (budgets w)), w).
Definition findExpenses (selector : string * Expense.doc -> bool) : M (list (string * Expense.doc)) :=
  fun w => (Ok (find selector (expenses w)), w).
Definition findOneExpense (selector : string * Expense.doc -> bool) : M (option (string * Expense.doc)) :=
  fun w => (Ok (findOne selector (expenses w)), w).

Definition fetchBudgets (month : string) : M (list Budget.t) :=
  await budgets <- findBudgets (fun kd => String.eqb (Budget.doc_month kd.2) month);
  ret (sort (sortByName env) (map Budget.toJSON budgets)).

Definition fetchExpenses (month : string) : M (list Expense.t) :=
  await expenses <- findExpenses (fun kd => dateInMonth month (Expense.doc_date kd.2));
  ret (rev (sort (sortByDate env) (map Expense.toJSON expenses))).

(** [if (!moment(budget.month, 'YYYY-MM').isValid()) budget.month = moment().format('YYYY-MM')] *)
Definition normaliseMonth (budget : Budget.t) : Budget.t :=
  if negb (moment_isValid env (Budget.month budget) "YYYY-MM")
  then Budget.set_month (moment_format env "YYYY-MM") budget
  else budget.

Definition saveBudget (budget : Budget.t) : M unit :=
  if String.eqb (Budget.name budget) "Total" then throw ReservedBudgetName else
  if Nat.eqb (String.length (trim (Budget.name budget))) 0 then throw InvalidBudgetName else
  if notPositive (Budget.value budget) then throw InvalidBudgetValue else
  let budget := normaliseMonth budget in
  (* Check if the name is unique for the given month *)
  await duplicateBudget <- findOneBudget (fun kd =>
    String.eqb (Budget.doc_month kd.2) (Budget.month budget)
    && String.eqb (Budget.doc_name kd.2) (Budget.name budget)
    && negb (String.eqb kd.1 (Budget.id budget)));
  match duplicateBudget with
  | Some _ => throw DuplicateBudget
  | None =>
    if String.eqb (Budget.id budget) "newBudget" then
      await newId <- generateId;
      insertBudget (Budget.set_id newId budget)
    else
      await existingBudget <- findOneBudget (idIs (Budget.id budget));
      match existingBudget with
      | None => throw NullDocument
      | Some (k, existing) =>
        let oldName := Budget.doc_name existing in
        let newName := Budget.name budget in
        exec updateBudget k (setBudgetNameValue (Budget.name budget) (Budget.value budget));
        (* Update all expenses with the previous budget name to the new one, if it changed *)
        if negb (String.eqb oldName newName) then
          await matchingExpenses <- findExpenses (fun kd =>
            dateInMonth (Budget.doc_month existing) (Expense.doc_date kd.2)
            && String.eqb (Expense.doc_budget kd.2) oldName);
          forOf matchingExpenses (fun expense =>
            updateExpense expense.1 (setExpenseBudget newName))
        else ret tt
      end
  end.

(** The first steps of [saveExpense] after its two guards: the date is
    normalised and the budget name is resolved.
    [if (!moment(expense.date, 'YYYY-MM-DD').isValid()) expense.date = moment().format('YYYY-MM-DD')] *)
Definition normaliseDate (expense : Expense.t) : Expense.t :=
  if negb (moment_isValid env (Expense.date expense) "YYYY-MM-DD")
  then Expense.set_date (moment_format env "YYYY-MM-DD") expense
  else expense.

Definition resolveBudget (expense : Expense.t) : M Expense.t :=
  await expense <-
    (* Check if there's an existing expense with a better budget *)
    (if (String.eqb (Expense.budget expense) "" || String.eqb (Expense.budget expense) "Misc")
        && String.eqb (Expense.id expense) "newExpense"
     then
       await matchingExpenseDoc <- findOneExpense (fun kd =>
         String.eqb (Expense.doc_description kd.2) (Expense.description expense));
       let matchingBudget :=
         match matchingExpenseDoc with
         | Some kd => Expense.budget (Expense.toJSON kd)
         | None => ""
         end in
       if negb (String.eqb matchingBudget "")
       then ret (Expense.set_budget matchingBudget expense)
       else ret expense
     else ret expense);
  if String.eqb (Expense.budget expense) ""
  then ret (Expense.set_budget "Misc" expense)
  else ret expense.

(** [{ id: 'newBudget', name: expense.budget, month: expense.date.substr(0, 7), value: 100 }] *)
Definition defaultBudget (expense : Expense.t) : Budget.t :=
  Budget.mk "newBudget" (Expense.budget expense)
            (String.substring 0 7 (Expense.date expense)) 100%float None.

(** [saveExpense], from "Check if the budget exists for the expense in that
    given month, otherwise create one". *)
Definition ensureBudget (expense : Expense.t) : M unit :=
  await existingBudget <- findOneBudget (fun kd =>
    String.eqb (Budget.doc_month kd.2) (String.substring 0 7 (Expense.date expense))
    && String.eqb (Budget.doc_name kd.2) (Expense.budget expense));
  match existingBudget with
  | None => saveBudget (defaultBudget expense)
  | Some _ => ret tt
  end.

(** The end of [saveExpense]: the insert or the update. *)
Definition storeExpense (expense : Expense.t) : M unit :=
  if String.eqb (Expense.id expense) "newExpense" then
    await newId <- generateId;
    insertExpense (Expense.set_id newId expense)
  else
    await existingExpense <- findOneExpense (idIs (Expense.id expense));
    match existingExpense with
    | None => throw NullDocument
    | Some (k, _) => updateExpense k (setExpenseAll expense)
    end.

Definition saveExpense (expense : Expense.t) : M unit :=
  if Nat.eqb (String.length (trim (Expense.description expense))) 0
  then throw InvalidExpenseDescription else
  if notPositive (Expense.cost expense) then throw InvalidExpenseCost else
  let expense := normaliseDate expense in
  await expense <- resolveBudget expense;
  exec ensureBudget expense;
  storeExpense expense.

Definition deleteBudget (budgetId : string) : M unit :=
  await existingBudget <- findOneBudget (idIs budgetId);
  match existingBudget with
  | None => throw NullDocument
  | Some (k, existing) =>
    (* Check if the budget has no expenses, if so, don't delete *)
    await matchingExpenses <- findExpenses (fun kd =>
      dateInMonth (Budget.doc_month existing) (Expense.doc_date kd.2)
      && String.eqb (Expense.doc_budget kd.2) (Budget.doc_name existing));
    exec (if Nat.ltb 0 (length matchingExpenses) then
            (* Check if there are duplicate budgets (can happen on slow sync) *)
            await matchingBudgets <- findBudgets (fun kd =>
              String.eqb (Budget.doc_month kd.2) (Budget.doc_month existing)
              && String.eqb (Budget.doc_name kd.2) (Budget.doc_name existing));
            if Nat.eqb (length matchingBudgets) 1 then throw BudgetHasExpenses else ret tt
          else ret tt);
    removeBudget k
  end.

Definition deleteExpense (expenseId : string) : M unit :=
  await existingExpense <- findOneExpense (idIs expenseId);
  match existingExpense with
  | None => throw NullDocument
  | Some (k, _) => removeExpense k
  end.

(** [originalBudgets.map(budget => ...)] of [copyBudgets]: one id is
    generated for each budget, in order. *)
Fixpoint cloneBudgets (destinationMonth : string) (originalBudgets : list Budget.t)
    : M (list Budget.t) :=
  match originalBudgets with
  | [] => ret []
  | budget :: rest =>
    await newId <- generateId;
    let newBudget := Budget.delete_rev (Budget.set_month destinationMonth (Budget.set_id newId budget)) in
    await others <- cloneBudgets destinationMonth rest;
    ret (newBudget :: others)
  end.

Definition copyBudgets (originalMonth destinationMonth : string) : M unit :=
  await originalBudgets <- fetchBudgets originalMonth;
  await destinationBudgets <- cloneBudgets destinationMonth originalBudgets;
  if Nat.ltb 0 (length destinationBudgets)
  then bulkInsertBudgets destinationBudgets
  else ret tt.

(** [localDb.budgets.remove()] and [localDb.expenses.remove()]; the erasure
    of the underlying and of the remote PouchDB is outside the two local
    collections. *)
Definition deleteAllData : M unit :=
  fun w => (Ok tt, mkWorld ∅ ∅ (ticks w)).

Definition importData (replaceData : bool) (budgets : list Budget.t) (expenses : list Expense.t)
    : M unit :=
  exec (if replaceData then deleteAllData else ret tt);
  exec bulkInsertBudgets budgets;
  bulkInsertExpenses expenses.

Definition exportAllData : M (list Budget.t * list Expense.t) :=
  await budgets <- findBudgets (fun kd => between "2000-01" "2100-12" (Budget.doc_month kd.2));
  let sortedBudgets :=
    sort (sortByName env) (map (fun budget => Budget.delete_rev (Budget.toJSON budget)) budgets) in
  await expenses <- findExpenses (fun kd =>
    between "2000-01-01" "2100-12-31" (Expense.doc_date kd.2));
  let sortedExpenses :=
    sort (sortByDate env) (map (fun expense => Expense.delete_rev (Expense.toJSON expense)) expenses) in
  ret (sortedBudgets, sortedExpenses).

End DB.

(** ** The settings *)

(** The settings file of the application ([new Store()]) is a map from key
    to value. A name of a setting has no dot, so that its key is one key of
    the file. *)

(** [T.Setting] *)
Module Setting.
Record t := mk { name : string; value : string }.
End Setting.

(** [`setting_${name}`] *)
Definition settingKey (name : string) : string := "setting_" ++ name.

(** [value || ''] on what [store.get] yields. *)
Definition orEmpty (value : option string) : string :=
  match value with
  | Some v => if String.eqb v "" then "" else v
  | None => ""
  end.

Definition fetchSetting (name : string) (store : gmap string string) : string :=
  orEmpty (store !! settingKey name).

Definition saveSetting (setting : Setting.t) (store : gmap string string)
    : gmap string string :=
  <[settingKey (Setting.name setting) := Setting.value setting]> store.

Definition updateSyncDate (env : Env) (alive : bool) (store : gmap string string)
    : gmap string string :=
  let lastSyncDate := moment_format env "YYYY-MM-DD HH:mm:ss" in
  if alive
  then saveSetting (Setting.mk "lastSyncDate" (if alive then lastSyncDate else "")) store
  else store.

(** ** The layout component *)

(** [LayoutState] *)
Module LayoutState.
Record t := mk {
  isLoading : bool;
  isShowingNotification : bool;
  notificationMessage : string;
  monthInView : string;
  lastSyncDate : string;
  budgets : list Budget.t;
  expenses : list Expense.t;
  currency : string
}.

Definition set_isLoading (v : bool) (s : t) : t :=
  mk v (isShowingNotification s) (notificationMessage s) (monthInView s) (lastSyncDate s)
     (budgets s) (expenses s) (currency s).
Definition set_monthInView (v : string) (s : t) : t :=
  mk (isLoading s) (isShowingNotification s) (notificationMessage s) v (lastSyncDate s)
     (budgets s) (expenses s) (currency s).
(** [{ budgets: [], expenses: [], currency }] *)
Definition set_cleared (v : string) (s : t) : t :=
  mk (isLoading s) (isShowingNotification s) (notificationMessage s) (monthInView s)
     (lastSyncDate s) [] [] v.
(** [{ budgets, expenses, lastSyncDate }] *)
Definition set_loaded (bs : list Budget.t) (es : list Expense.t) (v : string) (s : t) : t :=
  mk (isLoading s) (isShowingNotification s) (notificationMessage s) (monthInView s) v
     bs es (currency s).
End LayoutState.

(** The text of a dialog: a literal of the component, or the message of
    the error caught. *)
Inductive Message :=
| Text (text : string)
| MessageOf (error : Error).

(** What the component works on: the database, the settings file, its
    state, the dialogs shown so far, and whether a reload is scheduled
    ([reloadTimeout]). A [setState] is taken to have been applied when the
    state is read next; the component reads its state after an [await]
    only. The connection to the database is taken to stand:
    [ensureDBConnection] closes and opens it, which leaves the two
    collections as they are. *)
Record App := mkApp {
  db : World;
  store : gmap string string;
  state : LayoutState.t;
  alerts : list (string * Message);
  reloadTimeout : bool
}.

Definition with_db (w : World) (a : App) : App :=
  mkApp w (store a) (state a) (alerts a) (reloadTimeout a).
Definition with_store (s : gmap string string) (a : App) : App :=
  mkApp (db a) s (state a) (alerts a) (reloadTimeout a).
Definition with_state (s : LayoutState.t) (a : App) : App :=
  mkApp (db a) (store a) s (alerts a) (reloadTimeout a).
Definition with_alerts (l : list (string * Message)) (a : App) : App :=
  mkApp (db a) (store a) (state a) l (reloadTimeout a).
Definition with_reloadTimeout (b : bool) (a : App) : App :=
  mkApp (db a) (store a) (state a) (alerts a) b.

(** A method of the component. *)
Definition UI (A : Type) : Type := App -> Result A * App.

Module UI.
Definition ret {A} (x : A) : UI A := fun a => (Ok x, a).
Definition bind {A B} (c : UI A) (k : A -> UI B) : UI B :=
  fun a => match c a with
           | (Ok x, a') => k x a'
           | (Throw e, a') => (Throw e, a')
           end.
(** [try { body } catch (error) { handler }] *)
Definition tryCatch {A} (body : UI A) (handler : Error -> UI A) : UI A :=
  fun a => match body a with
           | (Ok x, a') => (Ok x, a')
           | (Throw e, a') => handler e a'
           end.
(** A call of a function of [DB] on the database of the component. *)
Definition call {A} (c : M A) : UI A :=
  fun a => match c (db a) with (r, w) => (r, with_db w a) end.
End UI.

Declare Scope ui_scope.
Delimit Scope ui_scope with ui.
Notation "'await' x <- c ; k" := (UI.bind c (fun x => k))
  (at level 10, x name, c at level 99, k at level 200) : ui_scope.
Notation "'exec' c ; k" := (UI.bind c (fun _ => k))
  (at level 10, c at level 99, k at level 200) : ui_scope.

(** The [options] of [loadData]; a field left out is [None]. *)
Record LoadOptions := mkLoadOptions {
  monthToLoad : option string;
  forceReload : option bool;
  isComingFromEmptyState : option bool
}.

(** [!!s] for a string that may be undefined. *)
Definition truthy (s : option string) : bool :=
  match s with
  | Some v => negb (String.eqb v "")
  | None => false
  end.

(** [a || b] *)
Definition orElse (a : option string) (b : string) : string :=
  match a with
  | Some v => if negb (String.eqb v "") then v else b
  | None => b
  end.

(** [a === s] *)
Definition equals (a : option string) (s : string) : bool :=
  match a with
  | Some v => String.eqb v s
  | None => false
  end.

(** [!b] for a flag that may be undefined. *)
Definition unset (b : option bool) : bool :=
  match b with
  | Some v => negb v
  | None => true
  end.

Module Layout.
Section Component.

Variable env : Env.
(** [moment().add(1, 'month').format('YYYY-MM')] and
    [moment().subtract(1, 'month').format('YYYY-MM')] *)
Variable nextMonth previousMonth : string.

Local Open Scope ui_scope.

Definition getState : UI LayoutState.t := fun a => (Ok (state a), a).

Definition setState (f : LayoutState.t -> LayoutState.t) : UI unit :=
  fun a => (Ok tt, with_state (f (state a)) a).

Definition showAlert (title : string) (message : Message) : UI unit :=
  fun a => (Ok tt, with_alerts (alerts a ++ [(title, message)]) a).

Definition clearReloadTimeout : UI unit := fun a => (Ok tt, with_reloadTimeout false a).
Definition setReloadTimeout : UI unit := fun a => (Ok tt, with_reloadTimeout true a).

(** The connection stands or is opened again; the collections are as they
    were. *)
Definition ensureDBConnection (forceReload : option bool) : UI unit := UI.ret tt.

(** [this.db.remove()]: the database goes, with its two collections. *)
Definition removeDatabase : M unit := fun w => (Ok tt, mkWorld ∅ ∅ (ticks w)).

Definition showLoading : UI unit := setState (LayoutState.set_isLoading true).
Definition hideLoading : UI unit := setState (LayoutState.set_isLoading false).

Definition getSetting (settingName : string) : UI string :=
  fun a => (Ok (fetchSetting settingName (store a)), a).

(** The end of [loadData], from [const lastSyncDate = ...]. *)
Definition showLoaded (budgets : list Budget.t) (expenses : list Expense.t) : UI unit :=
  await lastSyncDate <- getSetting "lastSyncDate";
  exec setState (LayoutState.set_loaded budgets expenses lastSyncDate);
  exec hideLoading;
  setReloadTimeout.

(** [loadData], with [again] for the call of [this.loadData] in it. *)
Definition loadDataWith (again : LoadOptions -> UI unit) (options : LoadOptions) : UI unit :=
  let monthToLoad := monthToLoad options in
  let forceReload := forceReload options in
  let isComingFromEmptyState := isComingFromEmptyState options in
  exec clearReloadTimeout;
  await currency <- getSetting "currency";
  exec ensureDBConnection forceReload;
  await state <- getState;
  let monthInView := LayoutState.monthInView state in
  exec showLoading;
  exec setState (LayoutState.set_cleared currency);
  await budgets <- UI.call (fetchBudgets env (orElse monthToLoad monthInView));
  await expenses <- UI.call (fetchExpenses env (orElse monthToLoad monthInView));
  (* If this is for the current or next month and there are no budgets,
     create budgets based on the previous/current month. *)
  if Nat.eqb (length budgets) 0 && unset isComingFromEmptyState then
    let currentMonth := moment_format env "YYYY-MM" in
    if (truthy monthToLoad && equals monthToLoad nextMonth)
       || (negb (truthy monthToLoad) && String.eqb monthInView nextMonth)
    then
      exec UI.call (copyBudgets env currentMonth nextMonth);
      again (mkLoadOptions monthToLoad None (Some true))
    else if (truthy monthToLoad && equals monthToLoad currentMonth)
            || (negb (truthy monthToLoad) && String.eqb monthInView currentMonth)
    then
      exec UI.call (copyBudgets env previousMonth currentMonth);
      again (mkLoadOptions monthToLoad None (Some true))
    else showLoaded budgets expenses
  else showLoaded budgets expenses.

(** [loadData]: the call of [this.loadData] in it sets
    [isComingFromEmptyState], and a call with that flag set makes no
    further call. *)
Definition loadData (options : LoadOptions) : UI unit :=
  loadDataWith (loadDataWith (fun _ => UI.ret tt)) options.

Definition changeMonthInView (newMonth : string) : UI unit :=
  if String.ltb nextMonth newMonth then
    showAlert "Warning" (Text "Cannot travel further into the future!")
  else
    exec setState (LayoutState.set_monthInView newMonth);
    loadData (mkLoadOptions (Some newMonth) None None).

(** [catch (error) { this.showAlert('Error', error.message); return ... }] *)
Definition alertAnd {A} (result : A) (error : Error) : UI A :=
  exec showAlert "Error" (MessageOf error);
  UI.ret result.

Definition saveBudget (budget : Budget.t) : UI bool :=
  UI.tryCatch
    (exec ensureDBConnection None;
     exec UI.call (saveBudget env budget);
     exec loadData (mkLoadOptions None None None);
     UI.ret true)
    (alertAnd false).

Definition saveExpense (expense : Expense.t) : UI bool :=
  UI.tryCatch
    (exec ensureDBConnection None;
     exec UI.call (saveExpense env expense);
     exec loadData (mkLoadOptions None None None);
     UI.ret true)
    (alertAnd false).

Definition saveSetting (setting : Setting.t) : UI bool :=
  UI.tryCatch
    (exec ensureDBConnection None;
     exec (fun a => (Ok tt, with_store (saveSetting setting (store a)) a));
     exec loadData (mkLoadOptions None (Some true) None);
     UI.ret true)
    (alertAnd false).

Definition deleteBudget (budgetId : string) : UI bool :=
  UI.tryCatch
    (exec ensureDBConnection None;
     exec UI.call (deleteBudget budgetId);
     exec loadData (mkLoadOptions None None None);
     UI.ret true)
    (alertAnd false).

Definition deleteExpense (expenseId : string) : UI bool :=
  UI.tryCatch
    (exec ensureDBConnection None;
     exec UI.call (deleteExpense expenseId);
     exec loadData (mkLoadOptions None None None);
     UI.ret true)
    (alertAnd false).

Definition importData (replaceData : bool) (budgets : list Budget.t) (expenses : list Expense.t)
    : UI bool :=
  UI.tryCatch
    (exec ensureDBConnection None;
     exec UI.call (importData replaceData budgets expenses);
     exec loadData (mkLoadOptions None (Some true) None);
     UI.ret true)
    (alertAnd false).

Definition exportAllData : UI (list Budget.t * list Expense.t) :=
  UI.tryCatch
    (exec loadData (mkLoadOptions None (Some true) None);
     UI.call (exportAllData env))
    (alertAnd ([], [])).

Definition deleteAllData : UI bool :=
  UI.tryCatch
    (exec loadData (mkLoadOptions None (Some true) None);
     exec UI.call deleteAllData;
     exec UI.call removeDatabase;
     exec loadData (mkLoadOptions None (Some true) None);
     UI.ret true)
    (alertAnd false).

(** The state the constructor sets. *)
Definition initialState : LayoutState.t :=
  LayoutState.mk true false "" (moment_format env "YYYY-MM") "" [] [] "USD".

Definition componentDidMount : UI unit := loadData (mkLoadOptions None None None).

End Component.
End Layout.


(** ** What the specification says, in terms of the store *)

(** In the words of the specification, the month of an expense is the
    first seven characters of its date, and a budget is for an expense when
    its month is that month and its name is the name the expense carries. *)
Definition specBudgetFor (b : Budget.doc) (e : Expense.doc) : Prop :=
  Budget.doc_month b = String.substring 0 7 (Expense.doc_date e)
  /\ Budget.doc_name b = Expense.doc_budget e.

(** Some expense refers to budget document [b], in the words of the
    specification. *)
Definition specReferenced (w : World) (b : Budget.doc) : Prop :=
  exists k e, expenses w !! k = Some e /\ specBudgetFor b e.

(** What [deleteBudget] asks the store instead: some expense that the range
    query yields for the month of budget document [b], one whose date lies
    between the first and the thirty-first of that month in the order of
    strings, carries the name of [b]. *)
Definition referenced (w : World) (b : Budget.doc) : Prop :=
  exists k e, expenses w !! k = Some e
    /\ dateInMonth (Budget.doc_month b) (Expense.doc_date e) = true
    /\ Expense.doc_budget e = Budget.doc_name b.

(** A second budget row with the same (month, name) as the one stored under [k]. *)
Definition hasTwin (w : World) (k : string) (b : Budget.doc) : Prop :=
  exists k' b', k' <> k /\ budgets w !! k' = Some b'
    /\ Budget.doc_month b' = Budget.doc_month b
    /\ Budget.doc_name b' = Budget.doc_name b.

(** The selector of the uniqueness check of [saveBudget]. *)
Definition duplicateOf (budget : Budget.t) (kd : string * Budget.doc) : bool :=
  String.eqb (Budget.doc_month kd.2) (Budget.month budget)
  && String.eqb (Budget.doc_name kd.2) (Budget.name budget)
  && negb (String.eqb kd.1 (Budget.id budget)).

(** The selector of the rename cascade and of the check of [deleteBudget]. *)
Definition attributedTo (month name : string) (kd : string * Expense.doc) : bool :=
  dateInMonth month (Expense.doc_date kd.2) && String.eqb (Expense.doc_budget kd.2) name.

(** No two budgets of the same month share a name. *)
Definition uniqueNames (m : gmap string Budget.doc) : Prop :=
  map_Forall (fun k1 d1 =>
    map_Forall (fun k2 d2 =>
      Budget.doc_month d1 = Budget.doc_month d2 ->
      Budget.doc_name d1 = Budget.doc_name d2 -> k1 = k2) m) m.

#[global] Instance uniqueNames_dec m : Decision (uniqueNames m).
Proof. unfold uniqueNames. apply _. Defined.

(** The character [c] occurs in [s]. *)
Fixpoint occurs (c : Ascii.ascii) (s : string) : bool :=
  match s with
  | EmptyString => false
  | String c' s' => Ascii.eqb c c' || occurs c s'
  end.

(** The budget documents of a month, as [fetchBudgets] finds them. *)
Definition budgetsOfMonth (w : World) (month : string) : list (string * Budget.doc) :=
  find (fun kd => String.eqb (Budget.doc_month kd.2) month) (budgets w).

(** The next [n] ids to be generated are new to the budgets and all
    different: what the timestamp and the random fraction of an id are
    there for. *)
Definition freshIds (env : Env) (w : World) (n : nat) : Prop :=
  (forall i, i < n -> budgets w !! idAt env (ticks w + i) = None)
  /\ (forall i j, i < n -> j < n -> idAt env (ticks w + i) = idAt env (ticks w + j) -> i = j).

(** Every character of [s] is white space. *)
Fixpoint allWhiteSpace (s : string) : bool :=
  match s with
  | EmptyString => true
  | String c s' => isWhiteSpace c && allWhiteSpace s'
  end.

(** The selector of the budget of a name in a month, as [saveExpense] and
    [deleteBudget] look it up. *)
Definition named (month name : string) (kd : string * Budget.doc) : bool :=
  String.eqb (Budget.doc_month kd.2) month && String.eqb (Budget.doc_name kd.2) name.


(** A method of the component that wraps a function of [DB] reports its
    outcome: [true] after the reload when the function returned; [false],
    after a dialog with the message of the error and without a reload, when
    it threw. *)
Definition reports {A} (c : M A) (reload : UI unit) (method : UI bool) (a : App) : Prop :=
  match c (db a) with
  | (Ok _, w) => method a = (Ok true, (reload (with_db w a)).2)
  | (Throw e, w) =>
      method a = (Ok false, with_alerts (alerts a ++ [("Error", MessageOf e)]) (with_db w a))
  end.


(** ** A sample environment and sample stores *)

Module Sample.

Definition isDigit (c : Ascii.ascii) : bool :=
  Nat.leb 48 (Ascii.nat_of_ascii c) && Nat.leb (Ascii.nat_of_ascii c) 57.

(** The validity test of moment.js, after its forgiving parsing of the two
    formats [db.ts] uses. Each token of the format takes the first digits
    left in the input, whatever stands before them: at most four for YYYY,
    at most two for MM and for DD; a dash of the format takes the first
    dash left in the input, if any. The input is valid when some token
    found digits, the month found is from 1 to 12, and the day found is a
    day of the month. What was not found is taken from the clock (17 May
    2024) as long as nothing before it was found, and is the first month
    or day after that. *)
Fixpoint dropToDigit (s : string) : string :=
  match s with
  | EmptyString => EmptyString
  | String c s' => if isDigit c then s else dropToDigit s'
  end.

Fixpoint digits (n : nat) (s : string) (value : nat) : nat * string :=
  match n, s with
  | S n', String c s' =>
    if isDigit c then digits n' s' (10 * value + (Ascii.nat_of_ascii c - 48)) else (value, s)
  | _, _ => (value, s)
  end.

Definition number (n : nat) (s : string) : option nat * string :=
  match dropToDigit s with
  | EmptyString => (None, s)
  | String c s' => let (value, rest) := digits n (String c s') 0 in (Some value, rest)
  end.

Fixpoint afterDash (s : string) : option string :=
  match s with
  | EmptyString => None
  | String c s' => if Ascii.eqb c (Ascii.ascii_of_nat 45) then Some s' else afterDash s'
  end.

Definition dash (s : string) : string := default s (afterDash s).

Definition leapYear (y : nat) : bool :=
  (Nat.eqb (y mod 4) 0 && negb (Nat.eqb (y mod 100) 0)) || Nat.eqb (y mod 400) 0.

Definition daysInMonth (y m : nat) : nat :=
  match m with
  | 2 => if leapYear y then 29 else 28
  | 4 | 6 | 9 | 11 => 30
  | _ => 31
  end.

Definition isValid (input format : string) : bool :=
  let (year, s1) := number 4 input in
  let (month, s2) := number 2 (dash s1) in
  let (day, _) :=
    if String.eqb format "YYYY-MM" then (None, s2) else number 2 (dash s2) in
  let y := default 2024 year in
  let m := default (match year with Some _ => 1 | None => 5 end) month in
  let d := default (match year, month with None, None => 17 | _, _ => 1 end) day in
  (bool_decide (is_Some year) || bool_decide (is_Some month) || bool_decide (is_Some day))
  && Nat.leb 1 m && Nat.leb m 12
  && Nat.leb 1 d && Nat.leb d (daysInMonth y m).

(** The clock stands at 17 May 2024. *)
Definition format (fmt : string) : string :=
  if String.eqb fmt "YYYY-MM" then "2024-05" else "2024-05-17".

Definition now (n : nat) : string := "1715950000000".

Fixpoint sevens (n : nat) : string :=
  match n with
  | O => "7"
  | S n' => "7" ++ sevens n'
  end.

Definition random (n : nat) : string := "0." ++ sevens n.

Definition sign (c : comparison) : Z :=
  match c with Lt => (-1)%Z | Eq => 0%Z | Gt => 1%Z end.

Definition byName (a b : Budget.t) : Z := sign (String.compare (Budget.name a) (Budget.name b)).
Definition byDate (a b : Expense.t) : Z := sign (String.compare (Expense.date a) (Expense.date b)).

Definition env : Env := mkEnv isValid format now random byName byDate.

Definition food : Budget.doc := Budget.mkDoc "Food" "2024-05" 250%float 1.
Definition fun_ : Budget.doc := Budget.mkDoc "Fun" "2024-05" 40%float 1.
Definition rent : Budget.doc := Budget.mkDoc "Rent" "2024-06" 900%float 1.

Definition lunch : Expense.doc := Expense.mkDoc 12.5%float "Lunch" "Food" "2024-05-03" 1.
Definition cinema : Expense.doc := Expense.mkDoc 9%float "Cinema" "Fun" "2024-05-11" 1.
Definition june : Expense.doc := Expense.mkDoc 900%float "Flat" "Rent" "2024-06-01" 1.

(** Three budgets and three expenses. *)
Definition world : World :=
  mkWorld (<["b1" := food]> (<["b2" := fun_]> (<["b3" := rent]> ∅)))
          (<["e1" := lunch]> (<["e2" := cinema]> (<["e3" := june]> ∅)))
          0.

(** A store in which two rows hold the same budget, as a slow sync leaves it. *)
Definition twins : World :=
  mkWorld (<["b1" := food]> (<["b4" := food]> ∅)) (<["e1" := lunch]> ∅) 0.

(** A store that holds a budget under the token of a budget not yet created. *)
Definition sentinel : World :=
  mkWorld (<["newBudget" := food]> ∅) ∅ 0.

(** A store with an expense attributed to the reserved name, as an import
    can leave it. *)
Definition totals : World :=
  mkWorld (budgets world)
          (<["e9" := Expense.mkDoc 5%float "Bakery" "Total" "2024-04-02" 1]> (expenses world))
          0.

(** A store with records of December 1999. *)
Definition old : World :=
  mkWorld (<["b0" := Budget.mkDoc "Savings" "1999-12" 10%float 1]> (budgets world))
          (<["e0" := Expense.mkDoc 3%float "Stamps" "Savings" "1999-12-24" 1]> (expenses world))
          0.

(** The budgets of [world] before any expense. *)
Definition bare : World := mkWorld (budgets world) ∅ 0.

(** [exportAllData] followed by [importData] with [replaceData] on an empty store. *)
Definition roundtrip (w : World) : World :=
  match exportAllData env w with
  | (Ok (bs, es), _) => (importData true bs es (mkWorld ∅ ∅ 0)).2
  | (Throw _, _) => w
  end.

(** The months after and before the month of the clock. *)
Definition nextMonth : string := "2024-06".
Definition previousMonth : string := "2024-04".

(** A store whose budgets are those of April 2024. *)
Definition spring : World :=
  mkWorld (<["a1" := Budget.mkDoc "Food" "2024-04" 200%float 1]>
             (<["a2" := Budget.mkDoc "Fun" "2024-04" 30%float 1]> ∅))
          (<["x1" := Expense.mkDoc 8%float "Bread" "Food" "2024-04-28" 1]> ∅)
          0.

Definition settings : gmap string string := <["setting_currency" := "EUR"]> ∅.

(** The component as it is mounted, on the store [w]. *)
Definition app (w : World) : App := mkApp w settings (Layout.initialState env) [] false.


End Sample.

(** ** Facts about queries and writes *)

Section Store.
Context {D : Type}.
Implicit Types (m : gmap string D) (selector : string * D -> bool).

Lemma insertById_Permutation (kd : string * D) l : insertById kd l ≡ₚ kd :: l.
Proof.
  induction l as [|kd' l IH]; simpl; [reflexivity |].
  destruct (String.leb kd.1 kd'.1); [reflexivity |].
  rewrite IH. apply Permutation_swap.
Qed.

Lemma documents_Permutation m : documents m ≡ₚ map_to_list m.
Proof.
  unfold documents. induction (map_to_list m) as [|kd l IH]; simpl; [reflexivity |].
  rewrite insertById_Permutation, IH. reflexivity.
Qed.

Lemma elem_of_documents m k d : (k, d) ∈ documents m <-> m !! k = Some d.
Proof. rewrite documents_Permutation. apply elem_of_map_to_list. Qed.

Lemma NoDup_documents_keys m : NoDup (documents m).*1.
Proof. rewrite documents_Permutation. apply NoDup_fst_map_to_list. Qed.

Lemma find_spec selector m k d :
  (k, d) ∈ find selector m <-> m !! k = Some d /\ selector (k, d) = true.
Proof.
  unfold find.
  rewrite list_elem_of_In, List.filter_In, <- list_elem_of_In, elem_of_documents.
  reflexivity.
Qed.

Lemma filter_sublist {A} (p : A -> bool) (l : list A) : List.filter p l `sublist_of` l.
Proof.
  induction l as [|x l IH]; simpl.
  - constructor.
  - destruct (p x); [apply sublist_skip | apply sublist_cons]; exact IH.
Qed.

Lemma find_NoDup_keys selector m : NoDup (find selector m).*1.
Proof.
  apply (sublist_NoDup _ (documents m).*1).
  - apply NoDup_documents_keys.
  - apply fmap_sublist, filter_sublist.
Qed.

Lemma find_NoDup selector m : NoDup (find selector m).
Proof. eapply NoDup_fmap_1, find_NoDup_keys. Qed.

Lemma findOne_None selector m :
  findOne selector m = None <-> forall k d, m !! k = Some d -> selector (k, d) = false.
Proof.
  unfold findOne. rewrite head_None. split.
  - intros Hnil k d Hk. destruct (selector (k, d)) eqn:Hs; [| reflexivity].
    assert ((k, d) ∈ find selector m) as Hin by (apply find_spec; auto).
    rewrite Hnil in Hin. inversion Hin.
  - intros Hall. destruct (find selector m) as [|[k d] l] eqn:Hf; [reflexivity |].
    assert ((k, d) ∈ find selector m) as Hin by (rewrite Hf; left).
    apply find_spec in Hin as [Hk Hs]. rewrite (Hall k d Hk) in Hs. discriminate.
Qed.

Lemma findOne_Some selector m k d :
  findOne selector m = Some (k, d) -> m !! k = Some d /\ selector (k, d) = true.
Proof.
  unfold findOne. intros H. apply head_Some_elem_of in H. apply find_spec, H.
Qed.

(** The selector of an exact id is the lookup of the primary key. *)
Lemma findOne_id m i :
  findOne (fun kd => String.eqb kd.1 i) m = (fun d => (i, d)) <$> m !! i.
Proof.
  destruct (findOne _ m) as [[k d]|] eqn:Hf.
  - apply findOne_Some in Hf as [Hk Hs]. simpl in Hs.
    apply String.eqb_eq in Hs. subst k. rewrite Hk. reflexivity.
  - destruct (m !! i) as [d|] eqn:Hi; [| reflexivity].
    rewrite findOne_None in Hf. specialize (Hf i d Hi). simpl in Hf.
    rewrite String.eqb_refl in Hf. discriminate.
Qed.

(** The empty id, when a document has it, is the lowest. *)
Lemma insertById_empty (d : D) (kd : string * D) l :
  kd.1 <> "" -> insertById kd (("", d) :: l) = ("", d) :: insertById kd l.
Proof.
  intros Hne. simpl. destruct kd as [[|c k] x]; [contradiction | reflexivity].
Qed.

Lemma head_empty_id (l : list (string * D)) d :
  NoDup l.*1 -> ("", d) ∈ l -> head (foldr insertById [] l) = Some ("", d).
Proof.
  induction l as [|[k x] l IH]; intros Hnd Hin; [inversion Hin |].
  rewrite fmap_cons in Hnd. apply NoDup_cons in Hnd as [Hk Hnd]. simpl in Hk.
  apply elem_of_cons in Hin as [Heq | Hin].
  - injection Heq as <- <-. simpl.
    destruct (foldr insertById [] l) as [|[[|c k'] x'] t]; reflexivity.
  - assert (k <> "") as Hne.
    { intros ->. apply Hk. apply list_elem_of_fmap. exists ("", d). auto. }
    specialize (IH Hnd Hin). simpl.
    destruct (foldr insertById [] l) as [|kd' t]; [discriminate |].
    injection IH as ->. rewrite insertById_empty by exact Hne. reflexivity.
Qed.

Lemma filter_true {A} (p : A -> bool) (l : list A) :
  (forall x, p x = true) -> List.filter p l = l.
Proof.
  intros Hp. induction l as [|x l IH]; simpl; [reflexivity |]. rewrite Hp, IH. reflexivity.
Qed.

(** [findOne().where('id').eq('')] yields the document of the lowest id. *)
Lemma findOne_idIs_empty m : findOne (idIs "") m = head (documents m).
Proof. unfold findOne, find. rewrite filter_true; reflexivity. Qed.

(** [findOne().where('id').eq(i)] is the lookup of the primary key, for
    every id but the empty one. *)
Lemma findOne_idIs m i :
  i <> "" -> findOne (idIs i) m = (fun d => (i, d)) <$> m !! i.
Proof.
  intros Hne. rewrite <- findOne_id. unfold findOne, find. f_equal.
  apply List.filter_ext. intros kd. unfold idIs.
  apply String.eqb_neq in Hne. rewrite Hne. reflexivity.
Qed.

(** A document stored under the id asked for is the one found. *)
Lemma findOne_idIs_stored m i d : m !! i = Some d -> findOne (idIs i) m = Some (i, d).
Proof.
  intros Hi. destruct (String.eqb_spec i "") as [-> | Hne].
  - rewrite findOne_idIs_empty. unfold documents. apply head_empty_id.
    + apply NoDup_fst_map_to_list.
    + apply elem_of_map_to_list. exact Hi.
  - rewrite findOne_idIs by exact Hne. rewrite Hi. reflexivity.
Qed.

(** The document found is stored, under the id asked for unless that id
    is empty. *)
Lemma findOne_idIs_found m i k d :
  findOne (idIs i) m = Some (k, d) -> m !! k = Some d /\ (i <> "" -> k = i).
Proof.
  intros Hf. split; [apply (findOne_Some _ _ _ _ Hf) |].
  intros Hne. rewrite findOne_idIs in Hf by exact Hne.
  destruct (m !! i); [injection Hf as <- _; reflexivity | discriminate].
Qed.

(** A duplicate-free list that holds [x] and nothing else has one element. *)
Lemma NoDup_singleton_length {A} (l : list A) (x : A) :
  NoDup l -> x ∈ l -> (forall y, y ∈ l -> y = x) -> length l = 1.
Proof.
  intros Hnd Hx Hall. destruct l as [|a [|b l]].
  - inversion Hx.
  - reflexivity.
  - exfalso. assert (a = x) by (apply Hall; left).
    assert (b = x) by (apply Hall; right; left). subst a b.
    apply NoDup_cons in Hnd as [Hnotin _]. apply Hnotin. left.
Qed.

Lemma two_elements_length {A} (l : list A) (x y : A) :
  x ∈ l -> y ∈ l -> x <> y -> length l <> 1.
Proof.
  intros Hx Hy Hne. destruct l as [|a [|b l]]; simpl; try lia.
  apply list_elem_of_singleton in Hx, Hy. congruence.
Qed.

End Store.

(** ** Dates within a month *)

Section Dates.

Lemma ascii_compare_refl c : Ascii.compare c c = Eq.
Proof. unfold Ascii.compare. apply N.compare_refl. Qed.

Lemma compare_app p a b : String.compare (p ++ a) (p ++ b) = String.compare a b.
Proof.
  induction p as [|c p IH]; simpl.
  - reflexivity.
  - rewrite ascii_compare_refl. exact IH.
Qed.

Lemma leb_app p a b : String.leb (p ++ a) (p ++ b) = String.leb a b.
Proof. unfold String.leb. rewrite compare_app. reflexivity. Qed.

Lemma string_app_assoc (a b c : string) : (a ++ b) ++ c = a ++ (b ++ c).
Proof.
  induction a as [|x a IH]; [reflexivity |].
  change (String x ((a ++ b) ++ c) = String x (a ++ (b ++ c))). rewrite IH. reflexivity.
Qed.

(** A string between two strings that start alike starts like them. *)
Lemma between_prefix p lo hi s :
  between (p ++ lo) (p ++ hi) s = true -> exists rest, s = p ++ rest.
Proof.
  revert s. induction p as [|c p IH]; intros s H.
  - exists s. reflexivity.
  - destruct s as [|c' s].
    + unfold between in H. simpl in H. discriminate.
    + unfold between, String.leb in H. simpl in H.
      rewrite (Ascii.compare_antisym c' c) in H.
      destruct (Ascii.compare c c') eqn:Hc; simpl in H; try discriminate.
      apply Ascii.compare_eq_iff in Hc. subst c'.
      destruct (IH s) as [rest ->]; [exact H |]. exists rest. reflexivity.
Qed.

(** The range query of a month yields the dates made of the month, a dash
    and a day between "01" and "31" in the order of strings, and no other. *)
Lemma dateInMonth_iff month date :
  dateInMonth month date = true
  <-> exists day, date = month ++ "-" ++ day /\ between "01" "31" day = true.
Proof.
  assert (Hday : forall day, dateInMonth month (month ++ "-" ++ day) = between "01" "31" day).
  { intros day. unfold dateInMonth, between.
    change (month ++ "-01") with (month ++ ("-" ++ "01")).
    change (month ++ "-31") with (month ++ ("-" ++ "31")).
    rewrite !leb_app. reflexivity. }
  split.
  - intros H. assert (exists day, date = month ++ "-" ++ day) as [day ->].
    { unfold dateInMonth in H.
      change (month ++ "-01") with (month ++ ("-" ++ "01")) in H.
      change (month ++ "-31") with (month ++ ("-" ++ "31")) in H.
      rewrite <- !string_app_assoc in H.
      apply between_prefix in H as [rest ->]. exists rest. apply string_app_assoc. }
    exists day. split; [reflexivity |]. rewrite <- Hday. exact H.
  - intros (day & -> & H). rewrite Hday. exact H.
Qed.

Lemma substring_prefix (p rest : string) :
  String.substring 0 (String.length p) (p ++ rest) = p.
Proof.
  induction p as [|c p IH]; simpl.
  - destruct rest; reflexivity.
  - rewrite IH. reflexivity.
Qed.

(** For a month written with seven characters, a date that the range query
    yields starts with the month: an expense that [deleteBudget] counts as
    one of the budget refers to the budget in the words of the
    specification. The converse fails, see [deleteBudget_short_date]. *)
Lemma referenced_specReferenced (w : World) (b : Budget.doc) :
  String.length (Budget.doc_month b) = 7 -> referenced w b -> specReferenced w b.
Proof.
  intros Hlen (k & e & Hk & Hdate & Hname). exists k, e. split; [exact Hk |].
  split; [| symmetry; exact Hname].
  unfold dateInMonth in Hdate. apply between_prefix in Hdate as [rest ->].
  rewrite <- Hlen. symmetry. apply substring_prefix.
Qed.

End Dates.

(** ** Properties of [DB] *)

Section Properties.

Variable env : Env.

Lemma find_nonempty {D} (selector : string * D -> bool) (m : gmap string D) k d :
  m !! k = Some d -> selector (k, d) = true -> Nat.ltb 0 (length (find selector m)) = true.
Proof.
  intros Hk Hs. assert ((k, d) ∈ find selector m) as Hin by (apply find_spec; auto).
  destruct (find selector m); [inversion Hin | reflexivity].
Qed.

(** C8. Saving a budget whose name is exactly "Total" throws, whatever its
    month and value, and leaves the store as it was. *)
Theorem saveBudget_Total_rejected (w : World) (budget : Budget.t) :
  Budget.name budget = "Total" ->
  saveBudget env budget w = (Throw ReservedBudgetName, w).
Proof.
  intros Hname. unfold saveBudget. rewrite Hname. reflexivity.
Qed.

(** What [deleteBudget] does with a budget whose name is carried by an
    expense that its range query yields, one dated from the first to the
    thirty-first of the budget's month in the order of strings: it throws
    the referential-integrity error and leaves the store as it was (the
    budget stays), unless a second budget row has the same month and name:
    then the budget found under the id is removed and the call returns. *)
Theorem deleteBudget_referenced (w : World) (k : string) (b : Budget.doc) :
  budgets w !! k = Some b ->
  referenced w b ->
  (~ hasTwin w k b -> deleteBudget k w = (Throw BudgetHasExpenses, w))
  /\ (hasTwin w k b ->
      deleteBudget k w = (Ok tt, with_budgets (delete k (budgets w)) w)
      /\ budgets (deleteBudget k w).2 !! k = None).
Proof.
  intros Hk (ke & e & Hke & Hdate & Hbud).
  set (selB := fun kd : string * Budget.doc =>
    String.eqb (Budget.doc_month kd.2) (Budget.doc_month b)
    && String.eqb (Budget.doc_name kd.2) (Budget.doc_name b)).
  assert (Hself : (k, b) ∈ find selB (budgets w)).
  { apply find_spec. split; [exact Hk |]. unfold selB. simpl.
    rewrite !String.eqb_refl. reflexivity. }
  assert (Hrun : forall r,
    (if Nat.eqb (length (find selB (budgets w))) 1
     then (Throw BudgetHasExpenses, w)
     else (Ok tt, with_budgets (delete k (budgets w)) w)) = r ->
    deleteBudget k w = r).
  { intros r <-. unfold deleteBudget, bind, findOneBudget, findExpenses, findBudgets.
    rewrite (findOne_idIs_stored _ _ _ Hk). simpl.
    erewrite find_nonempty; [| exact Hke |].
    - fold selB. destruct (Nat.eqb (length (find selB (budgets w))) 1); reflexivity.
    - simpl. rewrite Hdate, Hbud, String.eqb_refl. reflexivity. }
  split.
  - intros Hnotwin. apply Hrun.
    rewrite (NoDup_singleton_length _ (k, b)); [reflexivity | apply find_NoDup | exact Hself |].
    intros [k' b'] Hin. apply find_spec in Hin as [Hk' Hsel].
    unfold selB in Hsel. simpl in Hsel.
    apply andb_true_iff in Hsel as [Hm Hn].
    apply String.eqb_eq in Hm, Hn.
    destruct (decide (k' = k)) as [-> | Hne].
    + rewrite Hk in Hk'. congruence.
    + exfalso. apply Hnotwin. exists k', b'. auto.
  - intros (k' & b' & Hne & Hk' & Hm & Hn).
    assert (deleteBudget k w = (Ok tt, with_budgets (delete k (budgets w)) w)) as Hdel.
    { apply Hrun.
      destruct (Nat.eqb (length (find selB (budgets w))) 1) eqn:Hlen; [| reflexivity].
      apply Nat.eqb_eq in Hlen. exfalso.
      apply (two_elements_length (find selB (budgets w)) (k, b) (k', b')); auto.
      - apply find_spec. split; [exact Hk' |]. unfold selB. simpl.
        rewrite Hm, Hn, !String.eqb_refl. reflexivity.
      - congruence. }
    split; [exact Hdel |]. rewrite Hdel. simpl. apply lookup_delete_eq.
Qed.

(** *** The rename cascade *)

Lemma forOf_updateExpense (f : Expense.doc -> Expense.doc) (l : list (string * Expense.doc)) w :
  forOf l (fun expense => updateExpense expense.1 f) w
  = (Ok tt, with_expenses (foldl (fun m kd => alter f kd.1 m) (expenses w) l) w).
Proof.
  revert w. induction l as [|[k d] l IH]; intros w; simpl.
  - destruct w; reflexivity.
  - unfold bind. simpl. rewrite IH. reflexivity.
Qed.

Lemma foldl_alter_lookup {D} (f : D -> D) (l : list (string * D)) (m : gmap string D) k :
  NoDup l.*1 ->
  foldl (fun m kd => alter f kd.1 m) m l !! k
  = if decide (k ∈ l.*1) then f <$> m !! k else m !! k.
Proof.
  revert m. induction l as [|[k0 d0] l IH]; intros m Hnd.
  - reflexivity.
  - rewrite fmap_cons in *. cbn [foldl fst] in *.
    apply NoDup_cons in Hnd as [Hnotin Hnd]. rewrite IH by exact Hnd.
    destruct (decide (k = k0)) as [Heq | Hne].
    + subst k0. rewrite lookup_alter_eq.
      rewrite (decide_False (P := k ∈ l.*1)) by exact Hnotin.
      rewrite (decide_True (P := k ∈ k :: l.*1)) by left.
      reflexivity.
    + rewrite lookup_alter_ne by congruence.
      destruct (decide (k ∈ l.*1)) as [Hin | Hnin].
      * rewrite (decide_True (P := k ∈ k0 :: l.*1)) by (right; exact Hin). reflexivity.
      * rewrite (decide_False (P := k ∈ k0 :: l.*1)); [reflexivity |].
        intros [? | ?]%elem_of_cons; contradiction.
Qed.

(** The expenses after [for (const expense of matchingExpenses) expense.update(...)],
    where [matchingExpenses] is the result of a [find]. *)
Lemma cascade_lookup (selector : string * Expense.doc -> bool) (f : Expense.doc -> Expense.doc)
    (m : gmap string Expense.doc) k d :
  m !! k = Some d ->
  foldl (fun m kd => alter f kd.1 m) m (find selector m) !! k
  = Some (if selector (k, d) then f d else d).
Proof.
  intros Hk. rewrite foldl_alter_lookup by apply find_NoDup_keys. rewrite Hk. simpl.
  destruct (selector (k, d)) eqn:Hs.
  - destruct (decide (k ∈ (find selector m).*1)) as [_ | Hn]; [reflexivity |].
    exfalso. apply Hn. apply list_elem_of_fmap. exists (k, d). split; [reflexivity |].
    apply find_spec. auto.
  - destruct (decide (k ∈ (find selector m).*1)) as [Hin | _]; [| reflexivity].
    exfalso. apply list_elem_of_fmap in Hin as ([k' d'] & -> & Hin).
    apply find_spec in Hin as [Hk' Hs']. simpl in *. rewrite Hk in Hk'.
    injection Hk' as <-. congruence.
Qed.

(** *** What a call of [saveBudget] that returns has done *)

Lemma saveBudget_guards budget w r :
  saveBudget env budget w = r ->
  (exists e, r = (Throw e, w) /\ e <> DuplicateBudget /\ e <> NullDocument /\ e <> Conflict)
  \/ (Budget.name budget <> "Total"
      /\ Nat.eqb (String.length (trim (Budget.name budget))) 0 = false
      /\ notPositive (Budget.value budget) = false).
Proof.
  unfold saveBudget. intros <-.
  destruct (String.eqb (Budget.name budget) "Total") eqn:H1.
  { left. eexists. split; [reflexivity |]. repeat split; discriminate. }
  destruct (Nat.eqb _ 0) eqn:H2.
  { left. eexists. split; [reflexivity |]. repeat split; discriminate. }
  destruct (notPositive _) eqn:H3.
  { left. eexists. split; [reflexivity |]. repeat split; discriminate. }
  right. apply String.eqb_neq in H1. auto.
Qed.

(** Past its three guards, [saveBudget] is the uniqueness check followed
    by the insert or the update. *)
Lemma saveBudget_unfold budget w :
  Budget.name budget <> "Total" ->
  Nat.eqb (String.length (trim (Budget.name budget))) 0 = false ->
  notPositive (Budget.value budget) = false ->
  saveBudget env budget w =
  let budget := normaliseMonth env budget in
  match findOne (duplicateOf budget) (budgets w) with
  | Some _ => (Throw DuplicateBudget, w)
  | None =>
    if String.eqb (Budget.id budget) "newBudget" then
      match putBudget (Budget.set_id (idAt env (ticks w)) budget) (budgets w) with
      | Some m => (Ok tt, mkWorld m (expenses w) (S (ticks w)))
      | None => (Throw Conflict, mkWorld (budgets w) (expenses w) (S (ticks w)))
      end
    else
      match findOne (idIs (Budget.id budget)) (budgets w) with
      | None => (Throw NullDocument, w)
      | Some (k, existing) =>
        let bs := alter (setBudgetNameValue (Budget.name budget) (Budget.value budget))
                        k (budgets w) in
        if negb (String.eqb (Budget.doc_name existing) (Budget.name budget)) then
          let sel := attributedTo (Budget.doc_month existing) (Budget.doc_name existing) in
          (Ok tt, mkWorld bs
             (foldl (fun m kd => alter (setExpenseBudget (Budget.name budget)) kd.1 m)
                    (expenses w) (find sel (expenses w)))
             (ticks w))
        else (Ok tt, mkWorld bs (expenses w) (ticks w))
      end
  end.
Proof.
  intros H1 H2 H3. apply String.eqb_neq in H1.
  unfold saveBudget. rewrite H1, H2, H3. cbv zeta.
  unfold bind at 1. unfold findOneBudget at 1.
  fold (duplicateOf (normaliseMonth env budget)).
  destruct (findOne (duplicateOf _) (budgets w)); [reflexivity |].
  destruct (String.eqb (Budget.id (normaliseMonth env budget)) "newBudget").
  - unfold bind, generateId, insertBudget. simpl.
    destruct (putBudget _ (budgets w)); reflexivity.
  - unfold bind at 1. unfold findOneBudget.
    destruct (findOne (idIs (Budget.id (normaliseMonth env budget))) (budgets w))
      as [[k existing]|]; [| reflexivity].
    simpl. unfold bind at 1. unfold updateBudget at 1.
    destruct (negb (String.eqb _ _)).
    + unfold bind, findExpenses. rewrite forOf_updateExpense. reflexivity.
    + reflexivity.
Qed.

Lemma normaliseMonth_id budget : Budget.id (normaliseMonth env budget) = Budget.id budget.
Proof. unfold normaliseMonth. destruct (negb _); reflexivity. Qed.

Lemma normaliseMonth_name budget : Budget.name (normaliseMonth env budget) = Budget.name budget.
Proof. unfold normaliseMonth. destruct (negb _); reflexivity. Qed.

Lemma normaliseMonth_value budget : Budget.value (normaliseMonth env budget) = Budget.value budget.
Proof. unfold normaliseMonth. destruct (negb _); reflexivity. Qed.

Lemma normaliseMonth_rev budget : Budget._rev (normaliseMonth env budget) = Budget._rev budget.
Proof. unfold normaliseMonth. destruct (negb _); reflexivity. Qed.

Lemma saveBudget_Ok_guards budget w w' :
  saveBudget env budget w = (Ok tt, w') ->
  Budget.name budget <> "Total"
  /\ Nat.eqb (String.length (trim (Budget.name budget))) 0 = false
  /\ notPositive (Budget.value budget) = false.
Proof.
  intros H. destruct (saveBudget_guards _ _ _ H) as [(e & He & _) | Hg]; [discriminate | exact Hg].
Qed.

(** When an update of an existing budget changes its name, every expense
    that the range query of the cascade yields (one dated from the first to
    the thirty-first of the budget's month in the order of strings) and
    that carried the old name now carries the new one, its other fields as
    before, and every expense that the range query does not yield is
    exactly as it was; no expense appears or disappears. *)
Theorem saveBudget_rename_cascade (w w' : World) (budget : Budget.t) (existing : Budget.doc) :
  Budget.id budget <> "newBudget" ->
  budgets w !! Budget.id budget = Some existing ->
  Budget.doc_name existing <> Budget.name budget ->
  saveBudget env budget w = (Ok tt, w') ->
  (forall k e, expenses w !! k = Some e ->
     (dateInMonth (Budget.doc_month existing) (Expense.doc_date e) = true ->
      Expense.doc_budget e = Budget.doc_name existing ->
      exists e', expenses w' !! k = Some e'
        /\ Expense.doc_budget e' = Budget.name budget
        /\ Expense.doc_cost e' = Expense.doc_cost e
        /\ Expense.doc_description e' = Expense.doc_description e
        /\ Expense.doc_date e' = Expense.doc_date e)
     /\ (dateInMonth (Budget.doc_month existing) (Expense.doc_date e) = false ->
         expenses w' !! k = Some e))
  /\ (forall k, expenses w !! k = None -> expenses w' !! k = None).
Proof.
  intros Hid Hex Hname Hsave.
  destruct (saveBudget_Ok_guards _ _ _ Hsave) as (H1 & H2 & H3).
  rewrite saveBudget_unfold in Hsave by assumption. cbv zeta in Hsave.
  rewrite normaliseMonth_id, normaliseMonth_name, normaliseMonth_value in Hsave.
  destruct (findOne (duplicateOf _) (budgets w)); [discriminate |].
  apply String.eqb_neq in Hid. rewrite Hid, (findOne_idIs_stored _ _ _ Hex) in Hsave.
  apply String.eqb_neq in Hname. rewrite Hname in Hsave. simpl in Hsave.
  injection Hsave as <-. simpl. split.
  - intros k e Hk. rewrite (cascade_lookup _ _ _ _ _ Hk). unfold attributedTo. simpl. split.
    + intros Hd Hb. rewrite Hd, Hb, String.eqb_refl. simpl.
      eexists. split; [reflexivity |]. simpl. auto.
    + intros Hd. rewrite Hd. reflexivity.
  - intros k Hk. rewrite foldl_alter_lookup by apply find_NoDup_keys.
    rewrite Hk. destruct (decide _); reflexivity.
Qed.

(** *** Generated ids *)

Lemma occurs_app c a b : occurs c (a ++ String c b) = true.
Proof.
  induction a as [|c' a IH]; simpl.
  - rewrite Ascii.eqb_refl. reflexivity.
  - rewrite IH. apply orb_true_r.
Qed.

(** A generated id holds a colon, so it is neither of the two tokens that
    stand for a record not yet created. *)
Lemma idAt_not_sentinel n : idAt env n <> "newBudget" /\ idAt env n <> "newExpense".
Proof.
  assert (occurs (Ascii.ascii_of_nat 58) (idAt env n) = true) as Hc
    by apply (occurs_app (Ascii.ascii_of_nat 58) (Date_now env n) (Math_random env n)).
  split; intros Heq; rewrite Heq in Hc; discriminate Hc.
Qed.

Lemma put_Some {D} (rev_of : D -> nat) k offered (mk : nat -> D) (m m' : gmap string D) :
  put rev_of k offered mk m = Some m' -> exists r, m' = <[k := mk r]> m.
Proof.
  unfold put. destruct (m !! k) as [d|], offered as [r|]; try discriminate.
  - destruct (Nat.eqb r (rev_of d)); [| discriminate]. intros [= <-]. eauto.
  - intros [= <-]. eauto.
Qed.

(** *** Uniqueness of budget names within a month *)

Lemma uniqueNames_insert (m : gmap string Budget.doc) k d :
  uniqueNames m ->
  (forall k' d', m !! k' = Some d' -> k' <> k ->
     Budget.doc_month d' = Budget.doc_month d -> Budget.doc_name d' = Budget.doc_name d -> False) ->
  uniqueNames (<[k := d]> m).
Proof.
  intros Hu Hfresh k1 d1 H1 k2 d2 H2 Hm Hn.
  destruct (decide (k1 = k)) as [-> | Hne1]; destruct (decide (k2 = k)) as [-> | Hne2].
  - reflexivity.
  - exfalso. rewrite lookup_insert_eq in H1. injection H1 as <-.
    rewrite lookup_insert_ne in H2 by congruence. eapply Hfresh; eauto.
  - exfalso. rewrite lookup_insert_eq in H2. injection H2 as <-.
    rewrite lookup_insert_ne in H1 by congruence. eapply Hfresh; eauto.
  - rewrite lookup_insert_ne in H1, H2 by congruence. exact (Hu k1 d1 H1 k2 d2 H2 Hm Hn).
Qed.

Lemma alter_as_insert {D} (f : D -> D) (m : gmap string D) k d :
  m !! k = Some d -> alter f k m = <[k := f d]> m.
Proof.
  intros Hk. apply map_eq. intros i. destruct (decide (i = k)) as [-> | Hne].
  - rewrite lookup_alter_eq, lookup_insert_eq, Hk. reflexivity.
  - rewrite lookup_alter_ne, lookup_insert_ne by congruence. reflexivity.
Qed.

Lemma duplicateOf_false budget k d :
  duplicateOf budget (k, d) = false ->
  Budget.doc_month d = Budget.month budget ->
  Budget.doc_name d = Budget.name budget ->
  k = Budget.id budget.
Proof.
  unfold duplicateOf. simpl. intros H Hm Hn. rewrite Hm, Hn, !String.eqb_refl in H. simpl in H.
  apply negb_false_iff, String.eqb_eq in H. exact H.
Qed.

(** C1, as the code has it. A save is rejected when another budget (one
    stored under an id other than the input's) already has the input's name
    in the month the input names after normalisation: the error is the
    duplicate-budget error once the name and value guards are passed, and
    the store is as it was. And in a store where names are unique within
    each month and no budget is stored under the token "newBudget", a save
    that returns leaves both so, provided an update names the month that
    the budget it updates (the one [findOne] yields for the id) is stored
    with. *)
Theorem saveBudget_keeps_names_unique (w : World) (budget : Budget.t) :
  (forall k d,
     budgets w !! k = Some d -> k <> Budget.id budget ->
     Budget.doc_month d = Budget.month (normaliseMonth env budget) ->
     Budget.doc_name d = Budget.name budget ->
     exists e, saveBudget env budget w = (Throw e, w)
       /\ (Budget.name budget <> "Total" ->
           Nat.eqb (String.length (trim (Budget.name budget))) 0 = false ->
           notPositive (Budget.value budget) = false ->
           e = DuplicateBudget))
  /\ (uniqueNames (budgets w) ->
      budgets w !! "newBudget" = None ->
      (forall k existing,
         findOne (idIs (Budget.id budget)) (budgets w) = Some (k, existing) ->
         Budget.doc_month existing = Budget.month (normaliseMonth env budget)) ->
      forall w', saveBudget env budget w = (Ok tt, w') ->
      uniqueNames (budgets w') /\ budgets w' !! "newBudget" = None).
Proof.
  split.
  - intros k d Hk Hne Hm Hn.
    destruct (saveBudget_guards budget w _ eq_refl) as [(e & He & Hd & _) | (H1 & H2 & H3)].
    + exists e. split; [exact He |]. intros H1 H2 H3. exfalso.
      rewrite saveBudget_unfold in He by assumption. cbv zeta in He.
      destruct (findOne (duplicateOf _) (budgets w)) eqn:Hf; [congruence |].
      rewrite findOne_None in Hf. specialize (Hf k d Hk).
      apply duplicateOf_false in Hf; [| exact Hm | rewrite normaliseMonth_name; exact Hn].
      rewrite normaliseMonth_id in Hf. contradiction.
    + exists DuplicateBudget. split; [| reflexivity].
      rewrite saveBudget_unfold by assumption. cbv zeta.
      destruct (findOne (duplicateOf _) (budgets w)) eqn:Hf; [reflexivity |]. exfalso.
      rewrite findOne_None in Hf. specialize (Hf k d Hk).
      apply duplicateOf_false in Hf; [| exact Hm | rewrite normaliseMonth_name; exact Hn].
      rewrite normaliseMonth_id in Hf. contradiction.
  - intros Hu Hsent Hmonth w' Hsave.
    destruct (saveBudget_Ok_guards _ _ _ Hsave) as (H1 & H2 & H3).
    rewrite saveBudget_unfold in Hsave by assumption. cbv zeta in Hsave.
    destruct (findOne (duplicateOf _) (budgets w)) eqn:Hf; [discriminate |].
    rewrite findOne_None in Hf.
    destruct (String.eqb (Budget.id (normaliseMonth env budget)) "newBudget") eqn:Hid.
    + apply String.eqb_eq in Hid.
      destruct (putBudget _ (budgets w)) as [m|] eqn:Hput; [| discriminate].
      injection Hsave as <-. simpl.
      apply put_Some in Hput as [r ->]. simpl. split.
      * apply uniqueNames_insert; [exact Hu |].
        intros k' d' Hk' _ Hm Hn. specialize (Hf k' d' Hk').
        apply duplicateOf_false in Hf; [| exact Hm | exact Hn].
        rewrite Hid in Hf. subst k'. congruence.
      * rewrite lookup_insert_ne; [exact Hsent |]. apply idAt_not_sentinel.
    + rewrite normaliseMonth_id in Hsave.
      destruct (findOne (idIs (Budget.id budget)) (budgets w)) as [[k existing]|] eqn:Hex;
        [| discriminate].
      pose proof (findOne_Some _ _ _ _ Hex) as [Hk _].
      assert (budgets w' =
              <[k := setBudgetNameValue (Budget.name (normaliseMonth env budget))
                  (Budget.value (normaliseMonth env budget)) existing]> (budgets w)) as ->.
      { rewrite <- (alter_as_insert _ _ _ _ Hk).
        destruct (negb _); injection Hsave as <-; reflexivity. }
      split.
      * apply uniqueNames_insert; [exact Hu |].
        intros k' d' Hk' Hne Hm Hn. specialize (Hf k' d' Hk'). simpl in Hm, Hn.
        apply duplicateOf_false in Hf; [| rewrite Hm; apply (Hmonth k); reflexivity | exact Hn].
        rewrite normaliseMonth_id in Hf. subst k'.
        rewrite (findOne_idIs_stored _ _ _ Hk') in Hex. congruence.
      * rewrite lookup_insert_ne; [exact Hsent |]. congruence.
Qed.

(** *** What a call of [saveExpense] that returns has done *)

Lemma put_None {D} (rev_of : D -> nat) k (mk : nat -> D) (m m' : gmap string D) :
  put rev_of k None mk m = Some m' -> m !! k = None /\ m' = <[k := mk 1]> m.
Proof.
  unfold put. destruct (m !! k); [discriminate |]. intros [= <-]. auto.
Qed.

(** A new budget that is saved is written under the id generated for it. *)
Lemma saveBudget_new_Ok budget w w' :
  Budget.id budget = "newBudget" ->
  saveBudget env budget w = (Ok tt, w') ->
  findOne (duplicateOf (normaliseMonth env budget)) (budgets w) = None
  /\ exists r,
       w' = mkWorld (<[idAt env (ticks w) := budgetDoc (normaliseMonth env budget) r]> (budgets w))
                    (expenses w) (S (ticks w))
       /\ (Budget._rev budget = None -> r = 1 /\ budgets w !! idAt env (ticks w) = None).
Proof.
  intros Hid Hsave.
  destruct (saveBudget_Ok_guards _ _ _ Hsave) as (H1 & H2 & H3).
  rewrite saveBudget_unfold in Hsave by assumption. cbv zeta in Hsave.
  destruct (findOne (duplicateOf _) (budgets w)); [discriminate |]. split; [reflexivity |].
  rewrite normaliseMonth_id, Hid in Hsave. simpl in Hsave.
  destruct (putBudget _ (budgets w)) as [m|] eqn:Hput; [| discriminate].
  injection Hsave as <-. unfold putBudget in Hput. simpl in Hput.
  pose proof (put_Some _ _ _ _ _ _ Hput) as [r Hm].
  exists r. split; [rewrite Hm; reflexivity |]. intros Hrev.
  rewrite normaliseMonth_rev, Hrev in Hput. apply put_None in Hput as [Hnone Hm1].
  split; [| exact Hnone].
  assert (m !! idAt env (ticks w) = m !! idAt env (ticks w)) as Hl by reflexivity.
  rewrite Hm in Hl at 1. rewrite Hm1 in Hl. rewrite !lookup_insert_eq in Hl.
  injection Hl as ->. reflexivity.
Qed.

Lemma resolveBudget_total expense w :
  exists name, resolveBudget expense w = (Ok (Expense.set_budget name expense), w).
Proof.
  assert (Hself : Expense.set_budget (Expense.budget expense) expense = expense)
    by (destruct expense; reflexivity).
  unfold resolveBudget, bind, findOneExpense, ret.
  destruct (_ && String.eqb (Expense.id expense) "newExpense").
  - destruct (negb (String.eqb _ "")).
    + simpl. destruct (String.eqb _ ""); eexists; reflexivity.
    + destruct (String.eqb (Expense.budget expense) "") eqn:Hb.
      * exists "Misc". reflexivity.
      * exists (Expense.budget expense). rewrite Hself. reflexivity.
  - simpl. destruct (String.eqb (Expense.budget expense) "") eqn:Hb.
    + exists "Misc". reflexivity.
    + exists (Expense.budget expense). rewrite Hself. reflexivity.
Qed.

(** The key the expense is stored under by [storeExpense]: the id
    generated for a new expense, else the id of the document that [findOne]
    yields for the id of the expense. *)
Lemma storeExpense_Ok expense w w' :
  storeExpense env expense w = (Ok tt, w') ->
  budgets w' = budgets w
  /\ (exists k r,
        expenses w' = <[k := expenseDoc expense r]> (expenses w)
        /\ (if String.eqb (Expense.id expense) "newExpense"
            then k = idAt env (ticks w)
            else exists old, findOne (idIs (Expense.id expense)) (expenses w) = Some (k, old)))
  /\ ticks w' = (if String.eqb (Expense.id expense) "newExpense" then S (ticks w) else ticks w).
Proof.
  unfold storeExpense. destruct (String.eqb (Expense.id expense) "newExpense").
  - unfold bind, generateId, insertExpense. simpl.
    destruct (putExpense _ (expenses w)) as [m|] eqn:Hput; [| discriminate].
    intros [= <-]. simpl. split; [reflexivity |]. split; [| reflexivity].
    apply put_Some in Hput as [r ->]. exists (idAt env (ticks w)), r. auto.
  - unfold bind, findOneExpense.
    destruct (findOne (idIs (Expense.id expense)) (expenses w)) as [[k d]|] eqn:Hd;
      [| discriminate].
    pose proof (findOne_Some _ _ _ _ Hd) as [Hk _].
    simpl. unfold updateExpense. intros [= <-]. simpl. split; [reflexivity |].
    split; [| reflexivity]. exists k, (S (Expense.doc_rev d)). split; [| eauto].
    apply (alter_as_insert (setExpenseAll expense) _ _ _ Hk).
Qed.

Lemma saveExpense_unfold expense w :
  Nat.eqb (String.length (trim (Expense.description expense))) 0 = false ->
  notPositive (Expense.cost expense) = false ->
  saveExpense env expense w =
  match resolveBudget (normaliseDate env expense) w with
  | (Ok resolved, w1) =>
    match ensureBudget env resolved w1 with
    | (Ok _, w2) => storeExpense env resolved w2
    | (Throw e, w2) => (Throw e, w2)
    end
  | (Throw e, w1) => (Throw e, w1)
  end.
Proof.
  intros H1 H2. unfold saveExpense. rewrite H1, H2. reflexivity.
Qed.

Lemma saveExpense_Ok_guards expense w w' :
  saveExpense env expense w = (Ok tt, w') ->
  Nat.eqb (String.length (trim (Expense.description expense))) 0 = false
  /\ notPositive (Expense.cost expense) = false.
Proof.
  unfold saveExpense.
  destruct (Nat.eqb _ 0); [discriminate |].
  destruct (notPositive _); [discriminate |]. auto.
Qed.

(** [ensureBudget] leaves the expenses alone, and generates an id when it
    creates a budget. *)
Lemma ensureBudget_Ok expense w w' :
  ensureBudget env expense w = (Ok tt, w') ->
  expenses w' = expenses w /\ (ticks w' = ticks w \/ ticks w' = S (ticks w)).
Proof.
  unfold ensureBudget, bind, findOneBudget.
  destruct (findOne _ (budgets w)).
  - intros [= <-]. auto.
  - intros Hsave. apply saveBudget_new_Ok in Hsave as (_ & r & -> & _); [| reflexivity].
    simpl. auto.
Qed.

Lemma normaliseDate_id expense : Expense.id (normaliseDate env expense) = Expense.id expense.
Proof. unfold normaliseDate. destruct (negb _); reflexivity. Qed.

Lemma normaliseDate_description expense :
  Expense.description (normaliseDate env expense) = Expense.description expense.
Proof. unfold normaliseDate. destruct (negb _); reflexivity. Qed.

Lemma normaliseDate_cost expense : Expense.cost (normaliseDate env expense) = Expense.cost expense.
Proof. unfold normaliseDate. destruct (negb _); reflexivity. Qed.

Lemma normaliseDate_budget expense :
  Expense.budget (normaliseDate env expense) = Expense.budget expense.
Proof. unfold normaliseDate. destruct (negb _); reflexivity. Qed.


Lemma normaliseMonth_month budget :
  Budget.month (normaliseMonth env budget)
  = if moment_isValid env (Budget.month budget) "YYYY-MM"
    then Budget.month budget else moment_format env "YYYY-MM".
Proof. unfold normaliseMonth. destruct (moment_isValid _ _ _); reflexivity. Qed.

(** A call of [saveExpense] that returns, step by step. *)
Lemma saveExpense_Ok_steps expense w w' :
  saveExpense env expense w = (Ok tt, w') ->
  exists name w2,
    let resolved := Expense.set_budget name (normaliseDate env expense) in
    resolveBudget (normaliseDate env expense) w = (Ok resolved, w)
    /\ ensureBudget env resolved w = (Ok tt, w2)
    /\ storeExpense env resolved w2 = (Ok tt, w').
Proof.
  intros Hsave. destruct (saveExpense_Ok_guards _ _ _ Hsave) as [H1 H2].
  rewrite saveExpense_unfold in Hsave by assumption.
  destruct (resolveBudget_total (normaliseDate env expense) w) as [name Hres].
  rewrite Hres in Hsave. exists name.
  destruct (ensureBudget env _ w) as [[[]|e] w2] eqn:Hens; [| discriminate].
  exists w2. cbv zeta. auto.
Qed.

(** What a successful [saveExpense] has written, and under which id: the
    id generated last for a new expense, else the id of the document that
    [findOne] yields for the id of the expense. *)
Lemma saveExpense_written expense w w' :
  saveExpense env expense w = (Ok tt, w') ->
  exists name k r w2,
    let resolved := Expense.set_budget name (normaliseDate env expense) in
    resolveBudget (normaliseDate env expense) w = (Ok resolved, w)
    /\ ensureBudget env resolved w = (Ok tt, w2)
    /\ expenses w2 = expenses w
    /\ budgets w' = budgets w2
    /\ expenses w' = <[k := expenseDoc resolved r]> (expenses w)
    /\ (if String.eqb (Expense.id expense) "newExpense"
        then k = idAt env (pred (ticks w'))
        else exists old, findOne (idIs (Expense.id expense)) (expenses w) = Some (k, old)).
Proof.
  intros Hsave.
  destruct (saveExpense_Ok_steps _ _ _ Hsave) as (name & w2 & Hres & Hens & Hstore).
  cbv zeta in Hres, Hens, Hstore.
  pose proof (ensureBudget_Ok _ _ _ Hens) as [He2 _].
  apply storeExpense_Ok in Hstore as (Hb & (k & r & Hexp & Hkey) & Hticks).
  simpl in Hkey, Hticks. rewrite normaliseDate_id in Hkey, Hticks.
  exists name, k, r, w2. cbv zeta.
  split; [exact Hres |]. split; [exact Hens |]. split; [exact He2 |]. split; [exact Hb |].
  split; [rewrite Hexp, He2; reflexivity |].
  destruct (String.eqb (Expense.id expense) "newExpense").
  - rewrite Hticks. exact Hkey.
  - rewrite <- He2. exact Hkey.
Qed.


(** *** The default budget of an expense *)

Lemma resolveBudget_Misc expense w :
  Expense.id expense = "newExpense" ->
  Expense.budget expense = "" ->
  (forall k d, expenses w !! k = Some d ->
     Expense.doc_description d <> Expense.description expense) ->
  resolveBudget expense w = (Ok (Expense.set_budget "Misc" expense), w).
Proof.
  intros Hid Hb Hnone. unfold resolveBudget, bind, findOneExpense, ret.
  rewrite Hid, Hb. simpl.
  assert (findOne (fun kd : string * Expense.doc =>
            String.eqb (Expense.doc_description kd.2) (Expense.description expense))
            (expenses w) = None) as ->.
  { apply findOne_None. intros k d Hk. simpl. apply String.eqb_neq. eauto. }
  simpl. rewrite Hb. reflexivity.
Qed.

(** A new expense saved with an empty budget
    field, when no stored expense has its description, is stored with
    budget "Misc". When a budget named "Misc" exists for the first seven
    characters of the stored date, the budgets are left as they were. When
    none does, one budget is added, under the id generated for it, named
    "Misc" and of value 100: for those seven characters when moment.js
    accepts them as a month, and for the current month when it does not,
    since the budget is created by [saveBudget], which normalises its
    month. So a budget named "Misc" exists afterwards for the first seven
    characters of the date whenever moment.js accepts them as a month. *)
Theorem saveExpense_defaults_to_Misc (w w' : World) (expense : Expense.t) :
  Expense.id expense = "newExpense" ->
  Expense.budget expense = "" ->
  (forall k d, expenses w !! k = Some d ->
     Expense.doc_description d <> Expense.description expense) ->
  saveExpense env expense w = (Ok tt, w') ->
  let month := String.substring 0 7 (Expense.date (normaliseDate env expense)) in
  let created :=
    Budget.mkDoc "Misc"
      (if moment_isValid env month "YYYY-MM" then month else moment_format env "YYYY-MM")
      100%float 1 in
  (exists d, expenses w' !! idAt env (pred (ticks w')) = Some d
     /\ Expense.doc_budget d = "Misc"
     /\ Expense.doc_description d = Expense.description expense
     /\ Expense.doc_cost d = Expense.cost expense
     /\ Expense.doc_date d = Expense.date (normaliseDate env expense))
  /\ (((exists k b, budgets w !! k = Some b
          /\ Budget.doc_month b = month /\ Budget.doc_name b = "Misc")
       /\ budgets w' = budgets w)
      \/ ((forall k b, budgets w !! k = Some b ->
             ~ (Budget.doc_month b = month /\ Budget.doc_name b = "Misc"))
          /\ budgets w !! idAt env (ticks w) = None
          /\ budgets w' = <[idAt env (ticks w) := created]> (budgets w)))
  /\ (moment_isValid env month "YYYY-MM" = true ->
      exists k b, budgets w' !! k = Some b
        /\ Budget.doc_month b = month /\ Budget.doc_name b = "Misc").
Proof.
  intros Hid Hb Hnone Hsave month created.
  destruct (saveExpense_Ok_steps _ _ _ Hsave) as (name & w2 & Hres & Hens & Hstore).
  cbv zeta in Hres, Hens, Hstore.
  rewrite resolveBudget_Misc in Hres;
    [| rewrite normaliseDate_id; exact Hid
     | rewrite normaliseDate_budget; exact Hb
     | intros k d Hk; rewrite normaliseDate_description; eauto].
  assert (name = "Misc") as -> by (injection Hres as Hres; congruence).
  clear Hres.
  apply storeExpense_Ok in Hstore as (Hbud & (k0 & r & Hexp & Hkey) & Hticks).
  simpl in Hkey, Hticks. rewrite normaliseDate_id, Hid in Hkey, Hticks. simpl in Hkey, Hticks.
  subst k0.
  assert (Hbudgets :
    ((exists k b, budgets w !! k = Some b
        /\ Budget.doc_month b = month /\ Budget.doc_name b = "Misc")
     /\ budgets w' = budgets w)
    \/ ((forall k b, budgets w !! k = Some b ->
           ~ (Budget.doc_month b = month /\ Budget.doc_name b = "Misc"))
        /\ budgets w !! idAt env (ticks w) = None
        /\ budgets w' = <[idAt env (ticks w) := created]> (budgets w))).
  { rewrite Hbud. unfold ensureBudget, bind, findOneBudget in Hens. simpl in Hens.
    fold month in Hens.
    destruct (findOne _ (budgets w)) as [[k b]|] eqn:Hf.
    - left. injection Hens as <-. apply findOne_Some in Hf as [Hk Hsel]. simpl in Hsel.
      apply andb_true_iff in Hsel as [Hm Hn]. apply String.eqb_eq in Hm, Hn.
      split; [exists k, b; auto | reflexivity].
    - right. rewrite findOne_None in Hf. split.
      + intros k b Hk [Hm Hn]. specialize (Hf k b Hk). simpl in Hf.
        rewrite Hm, Hn, !String.eqb_refl in Hf. discriminate.
      + apply saveBudget_new_Ok in Hens as (_ & r' & -> & Hfresh); [| reflexivity].
        destruct (Hfresh eq_refl) as [-> Hnone']. split; [exact Hnone' |].
        simpl. unfold budgetDoc, created.
        rewrite normaliseMonth_name, normaliseMonth_month, normaliseMonth_value. reflexivity. }
  split; [| split; [exact Hbudgets |]].
  - rewrite Hticks, Hexp. simpl. rewrite lookup_insert_eq. eexists. split; [reflexivity |].
    simpl. rewrite normaliseDate_description, normaliseDate_cost. auto.
  - intros Hvalid. destruct Hbudgets as [[(k & b & Hk & Hm & Hn) ->] | (_ & _ & ->)].
    + exists k, b. auto.
    + exists (idAt env (ticks w)), created. rewrite lookup_insert_eq.
      split; [reflexivity |]. unfold created. simpl. rewrite Hvalid. auto.
Qed.

(** *** The reserved name reached through an expense *)

Lemma resolveBudget_supplied expense w :
  Expense.budget expense = "Total" -> resolveBudget expense w = (Ok expense, w).
Proof.
  intros Hb. unfold resolveBudget, bind, ret. rewrite Hb. simpl. rewrite Hb. reflexivity.
Qed.

Lemma resolveBudget_inherited expense w kd :
  Expense.id expense = "newExpense" ->
  Expense.budget expense = "" \/ Expense.budget expense = "Misc" ->
  findOne (fun kd : string * Expense.doc =>
             String.eqb (Expense.doc_description kd.2) (Expense.description expense))
          (expenses w) = Some kd ->
  Expense.doc_budget kd.2 = "Total" ->
  resolveBudget expense w = (Ok (Expense.set_budget "Total" expense), w).
Proof.
  intros Hid Hb Hf Ht. unfold resolveBudget, bind, findOneExpense, ret.
  rewrite Hid. destruct Hb as [Hb | Hb]; rewrite Hb; simpl; rewrite Hf, Ht; reflexivity.
Qed.

(** C9. A new expense whose budget name resolves to "Total" (given with
    the expense, or taken from a stored expense of the same description),
    when no budget named "Total" exists for the month of the expense, makes
    [saveExpense] throw and leave the store as it was: the expense is not
    inserted. Past the description and cost guards, what is thrown is the
    error of the reserved name, raised by [saveBudget] for the budget to
    create. *)
Theorem saveExpense_Total_rejected (w : World) (expense resolved : Expense.t) :
  Expense.id expense = "newExpense" ->
  resolveBudget (normaliseDate env expense) w = (Ok resolved, w) ->
  Expense.budget resolved = "Total" ->
  (forall k b, budgets w !! k = Some b ->
     ~ (Budget.doc_month b = String.substring 0 7 (Expense.date resolved)
        /\ Budget.doc_name b = "Total")) ->
  exists e, saveExpense env expense w = (Throw e, w)
    /\ (Nat.eqb (String.length (trim (Expense.description expense))) 0 = false ->
        notPositive (Expense.cost expense) = false ->
        e = ReservedBudgetName).
Proof.
  intros Hid Hres Hb Hnone.
  destruct (Nat.eqb (String.length (trim (Expense.description expense))) 0) eqn:H1.
  { exists InvalidExpenseDescription. unfold saveExpense. rewrite H1. split; [reflexivity |].
    discriminate. }
  destruct (notPositive (Expense.cost expense)) eqn:H2.
  { exists InvalidExpenseCost. unfold saveExpense. rewrite H1, H2. split; [reflexivity |].
    discriminate. }
  exists ReservedBudgetName. split; [| reflexivity].
  rewrite saveExpense_unfold by assumption. rewrite Hres.
  unfold ensureBudget, bind, findOneBudget.
  assert (findOne (fun kd : string * Budget.doc =>
            String.eqb (Budget.doc_month kd.2) (String.substring 0 7 (Expense.date resolved))
            && String.eqb (Budget.doc_name kd.2) (Expense.budget resolved))
            (budgets w) = None) as ->.
  { apply findOne_None. intros k b Hk. simpl. rewrite Hb.
    destruct (String.eqb (Budget.doc_month b) _) eqn:Hm; [| reflexivity].
    destruct (String.eqb (Budget.doc_name b) "Total") eqn:Hn; [| reflexivity].
    exfalso. apply String.eqb_eq in Hm, Hn. apply (Hnone k b Hk). auto. }
  unfold saveBudget, defaultBudget. simpl. rewrite Hb. reflexivity.
Qed.

(** *** Export *)

Lemma sortInsert_Permutation {A} (compare : A -> A -> Z) x l :
  sortInsert compare x l ≡ₚ x :: l.
Proof.
  induction l as [|y l IH]; simpl.
  - reflexivity.
  - destruct (compare x y <=? 0)%Z; [reflexivity |].
    rewrite IH. apply Permutation_swap.
Qed.

Lemma sort_Permutation {A} (compare : A -> A -> Z) l : sort compare l ≡ₚ l.
Proof.
  induction l as [|x l IH]; simpl.
  - reflexivity.
  - rewrite sortInsert_Permutation. unfold sort in IH. rewrite IH. reflexivity.
Qed.

(** What [find(...).map(toJSON without _rev).sort(compare)] holds: one
    object for each document the selector accepts. *)
Lemma exported_spec {D T} (selector : string * D -> bool) (f : string * D -> T)
    (key : T -> string) (compare : T -> T -> Z) (m : gmap string D) :
  (forall kd, key (f kd) = kd.1) ->
  NoDup (sort compare (map f (find selector m)))
  /\ forall x, x ∈ sort compare (map f (find selector m))
       <-> exists k d, m !! k = Some d /\ selector (k, d) = true /\ x = f (k, d).
Proof.
  intros Hkey. split.
  - rewrite sort_Permutation. apply (NoDup_fmap_1 key).
    rewrite <- list_fmap_compose.
    rewrite (list_fmap_ext (key ∘ f) fst (find selector m) (fun _ kd _ => Hkey kd)).
    apply find_NoDup_keys.
  - intros x. rewrite sort_Permutation. rewrite list_elem_of_fmap. split.
    + intros ([k d] & -> & Hin). apply find_spec in Hin as [Hk Hs]. eauto.
    + intros (k & d & Hk & Hs & ->). exists (k, d). split; [reflexivity |].
      apply find_spec. auto.
Qed.


(** *** Bulk inserts *)

(** Documents that carry no revision marker are written where their key
    is new, each at generation 1, and skipped where it is taken: what is
    stored stays, and of two documents with one key the first is written. *)
Lemma bulkPut_unmarked {T D} (rev_of : D -> nat) (key : T -> string)
    (offered : T -> option nat) (mk : T -> nat -> D) (l : list T) (m : gmap string D) :
  Forall (fun t => offered t = None) l ->
  bulkPut (fun t => put rev_of (key t) (offered t) (mk t)) l m
  = m ∪ list_to_map ((fun t => (key t, mk t 1)) <$> l).
Proof.
  revert m. induction l as [|t l IH]; intros m Hoff.
  - simpl. rewrite (right_id_L ∅ (∪)). reflexivity.
  - apply Forall_cons in Hoff as [Hoff_t Hoff].
    cbn [bulkPut]. unfold put at 1. rewrite Hoff_t.
    rewrite fmap_cons. cbn [list_to_map foldr]. simpl.
    destruct (m !! key t) as [d|] eqn:Hk.
    + rewrite IH by exact Hoff. apply map_eq. intros i.
      rewrite !lookup_union. destruct (decide (i = key t)) as [-> | Hne].
      * rewrite Hk. destruct (list_to_map _ !! key t), (<[key t := _]> _ !! key t); reflexivity.
      * rewrite lookup_insert_ne by congruence. reflexivity.
    + rewrite IH by exact Hoff.
      rewrite <- insert_union_l. rewrite <- insert_union_r by exact Hk. reflexivity.
Qed.

Lemma filter_all {A} (p : A -> bool) (l : list A) :
  (forall x, x ∈ l -> p x = true) -> List.filter p l = l.
Proof.
  induction l as [|x l IH]; intros Hall; simpl.
  - reflexivity.
  - rewrite (Hall x) by left. rewrite IH; [reflexivity |].
    intros y Hy. apply Hall. right. exact Hy.
Qed.

(** *** Export followed by import *)

(** One collection through [exportAllData] and a [bulkInsert] into an empty
    collection, when the selector of the export accepts every document:
    [f] is what the export makes of a document, [g] what the store holds
    once it is written back. *)
Lemma reimported {T D} (rev_of : D -> nat) (key : T -> string) (offered : T -> option nat)
    (mk : T -> nat -> D) (f : string * D -> T) (g : D -> D) (compare : T -> T -> Z)
    (selector : string * D -> bool) (m : gmap string D) :
  (forall kd, key (f kd) = kd.1) ->
  (forall kd, offered (f kd) = None) ->
  (forall kd, mk (f kd) 1 = g kd.2) ->
  (forall k d, m !! k = Some d -> selector (k, d) = true) ->
  bulkPut (fun t => put rev_of (key t) (offered t) (mk t))
          (sort compare (map f (find selector m))) ∅
  = g <$> m.
Proof.
  intros Hkey Hoff Hmk Hall.
  assert (find selector m = documents m) as ->.
  { apply filter_all. intros [k d] Hin. apply Hall, elem_of_documents, Hin. }
  assert (Hkeys : key <$> sort compare (map f (documents m)) ≡ₚ (map_to_list m).*1).
  { rewrite sort_Permutation. rewrite <- list_fmap_compose.
    rewrite (list_fmap_ext (key ∘ f) fst (documents m) (fun _ kd _ => Hkey kd)).
    rewrite documents_Permutation. reflexivity. }
  rewrite bulkPut_unmarked.
  - rewrite (left_id_L ∅ (∪)).
    rewrite (list_to_map_proper _ (prod_map id g <$> map_to_list m)).
    + rewrite list_to_map_fmap, list_to_map_to_list. reflexivity.
    + rewrite <- list_fmap_compose. simpl. change (fun t => key t) with key.
      rewrite (list_fmap_ext (fst ∘ (fun t => (key t, mk t 1))) key _ (fun _ _ _ => eq_refl)).
      rewrite Hkeys. apply NoDup_fst_map_to_list.
    + rewrite sort_Permutation. rewrite <- list_fmap_compose.
      rewrite (list_fmap_ext ((fun t => (key t, mk t 1)) ∘ f) (prod_map id g) (documents m));
        [rewrite documents_Permutation; reflexivity |].
      intros _ kd _. simpl. rewrite Hkey, Hmk. destruct kd; reflexivity.
  - apply Forall_forall. intros t Hin. rewrite sort_Permutation in Hin.
    apply list_elem_of_fmap in Hin as (kd & -> & _). apply Hoff.
Qed.

(** C5, as the code has it. When every stored budget has its month between
    "2000-01" and "2100-12" and every stored expense its date between
    "2000-01-01" and "2100-12-31", what [exportAllData] returns, imported
    with [replaceData] into any store (an empty one too), gives a store
    with the same ids and, under each id, the same fields: only the
    revision markers may differ. *)
Theorem export_import_roundtrip (w target : World) :
  (forall k d, budgets w !! k = Some d ->
     between "2000-01" "2100-12" (Budget.doc_month d) = true) ->
  (forall k d, expenses w !! k = Some d ->
     between "2000-01-01" "2100-12-31" (Expense.doc_date d) = true) ->
  exists bs es w',
    exportAllData env w = (Ok (bs, es), w)
    /\ importData true bs es target = (Ok tt, w')
    /\ Budget.fields <$> budgets w' = Budget.fields <$> budgets w
    /\ Expense.fields <$> expenses w' = Expense.fields <$> expenses w.
Proof.
  intros Hb He.
  exists (sort (sortByName env)
            (map (fun kd => Budget.delete_rev (Budget.toJSON kd))
               (find (fun kd => between "2000-01" "2100-12" (Budget.doc_month kd.2)) (budgets w)))),
         (sort (sortByDate env)
            (map (fun kd => Expense.delete_rev (Expense.toJSON kd))
               (find (fun kd => between "2000-01-01" "2100-12-31" (Expense.doc_date kd.2))
                  (expenses w)))).
  eexists. split; [reflexivity |]. split; [reflexivity |]. simpl. split.
  - pose proof (reimported Budget.doc_rev Budget.id Budget._rev budgetDoc
      (fun kd => Budget.delete_rev (Budget.toJSON kd))
      (fun d => Budget.mkDoc (Budget.doc_name d) (Budget.doc_month d) (Budget.doc_value d) 1)
      (sortByName env)
      (fun kd => between "2000-01" "2100-12" (Budget.doc_month kd.2)) (budgets w)
      (fun _ => eq_refl) (fun _ => eq_refl) (fun _ => eq_refl) Hb) as Heq.
    change putBudget
      with (fun t : Budget.t => put Budget.doc_rev (Budget.id t) (Budget._rev t) (budgetDoc t)).
    rewrite Heq. rewrite <- map_fmap_compose. reflexivity.
  - pose proof (reimported Expense.doc_rev Expense.id Expense._rev expenseDoc
      (fun kd => Expense.delete_rev (Expense.toJSON kd))
      (fun d => Expense.mkDoc (Expense.doc_cost d) (Expense.doc_description d)
                  (Expense.doc_budget d) (Expense.doc_date d) 1)
      (sortByDate env)
      (fun kd => between "2000-01-01" "2100-12-31" (Expense.doc_date kd.2)) (expenses w)
      (fun _ => eq_refl) (fun _ => eq_refl) (fun _ => eq_refl) He) as Heq.
    change putExpense
      with (fun t : Expense.t =>
              put Expense.doc_rev (Expense.id t) (Expense._rev t) (expenseDoc t)).
    rewrite Heq. rewrite <- map_fmap_compose. reflexivity.
Qed.

(** *** Copying the budgets of a month *)

Lemma cloneBudgets_spec destinationMonth (l : list Budget.t) w :
  cloneBudgets env destinationMonth l w
  = (Ok (imap (fun i b => Budget.mk (idAt env (ticks w + i)) (Budget.name b) destinationMonth
                            (Budget.value b) None) l),
     mkWorld (budgets w) (expenses w) (ticks w + length l)).
Proof.
  revert w. induction l as [|b l IH]; intros w.
  - simpl. unfold ret. rewrite Nat.add_0_r. destruct w; reflexivity.
  - cbn [cloneBudgets]. unfold bind at 1. unfold generateId at 1.
    unfold bind at 1. rewrite IH. unfold ret. cbn [ticks budgets expenses length].
    rewrite imap_cons. rewrite Nat.add_0_r.
    replace (S (ticks w) + length l) with (ticks w + S (length l)) by lia.
    f_equal. f_equal. f_equal.
    apply imap_ext. intros i x _. simpl.
    replace (S (ticks w + i)) with (ticks w + S i) by lia. reflexivity.
Qed.

Lemma copyBudgets_unfold originalMonth destinationMonth w :
  let originals := sort (sortByName env) (map Budget.toJSON (budgetsOfMonth w originalMonth)) in
  let clones := imap (fun i b => Budget.mk (idAt env (ticks w + i)) (Budget.name b)
                                   destinationMonth (Budget.value b) None) originals in
  copyBudgets env originalMonth destinationMonth w
  = (Ok tt, mkWorld (bulkPut putBudget clones (budgets w)) (expenses w)
                    (ticks w + length originals)).
Proof.
  intros originals clones.
  unfold copyBudgets, bind, fetchBudgets, findBudgets, ret. simpl.
  fold (budgetsOfMonth w originalMonth). fold originals.
  rewrite cloneBudgets_spec. fold clones.
  destruct clones as [|c clones']; reflexivity.
Qed.

Lemma length_sort {A} (compare : A -> A -> Z) (l : list A) : length (sort compare l) = length l.
Proof. apply Permutation_length, sort_Permutation. Qed.

(** C6. [copyBudgets] returns. It leaves every budget that was stored as
    it was (those of the origin month among them) and the expenses too.
    Every budget it adds is the copy of a budget of the origin month: it
    has the destination month, the name and the value of the original, and
    it is stored under the id generated for that original, an id no stored
    budget has. And when the ids generated are new and all different, the
    i-th budget of the origin month has its copy under the i-th id, so the
    store grows by one budget for each budget of the origin month. *)
Theorem copyBudgets_copies (w : World) (originalMonth destinationMonth : string) :
  exists originals w',
    fetchBudgets env originalMonth w = (Ok originals, w)
    /\ NoDup originals
    /\ (forall b, b ∈ originals <->
          exists k d, budgets w !! k = Some d /\ Budget.doc_month d = originalMonth
            /\ b = Budget.toJSON (k, d))
    /\ copyBudgets env originalMonth destinationMonth w = (Ok tt, w')
    /\ expenses w' = expenses w
    /\ (forall k d, budgets w !! k = Some d -> budgets w' !! k = Some d)
    /\ (forall k d, budgets w !! k = None -> budgets w' !! k = Some d ->
          exists i b, originals !! i = Some b
            /\ k = idAt env (ticks w + i)
            /\ k <> Budget.id b
            /\ d = Budget.mkDoc (Budget.name b) destinationMonth (Budget.value b) 1)
    /\ (freshIds env w (length originals) ->
        (forall i b, originals !! i = Some b ->
           budgets w !! idAt env (ticks w + i) = None
           /\ budgets w' !! idAt env (ticks w + i)
              = Some (Budget.mkDoc (Budget.name b) destinationMonth (Budget.value b) 1))
        /\ size (budgets w') = size (budgets w) + length originals).
Proof.
  set (originals := sort (sortByName env) (map Budget.toJSON (budgetsOfMonth w originalMonth))).
  set (clones := imap (fun i b => Budget.mk (idAt env (ticks w + i)) (Budget.name b)
                                    destinationMonth (Budget.value b) None) originals).
  set (new := (fun t => (Budget.id t, budgetDoc t 1)) <$> clones).
  destruct (exported_spec
    (fun kd : string * Budget.doc => String.eqb (Budget.doc_month kd.2) originalMonth)
    Budget.toJSON Budget.id (sortByName env) (budgets w) (fun kd => eq_refl))
    as [Hnd Hmem].
  fold (budgetsOfMonth w originalMonth) in Hnd, Hmem. fold originals in Hnd, Hmem.
  assert (Hclone : forall i c, clones !! i = Some c ->
            exists b, originals !! i = Some b
              /\ c = Budget.mk (idAt env (ticks w + i)) (Budget.name b) destinationMonth
                       (Budget.value b) None).
  { intros i c Hc. unfold clones in Hc. apply list_lookup_imap_Some in Hc. exact Hc. }
  assert (Hput : bulkPut putBudget clones (budgets w) = budgets w ∪ list_to_map new).
  { change putBudget
      with (fun t : Budget.t => put Budget.doc_rev (Budget.id t) (Budget._rev t) (budgetDoc t)).
    apply bulkPut_unmarked.
    apply Forall_forall. intros c Hc. apply list_elem_of_lookup in Hc as [i Hc].
    destruct (Hclone _ _ Hc) as (b & _ & ->). reflexivity. }
  assert (Hnewkey : forall k d, list_to_map (M := gmap string Budget.doc) new !! k = Some d ->
            exists i b, originals !! i = Some b /\ k = idAt env (ticks w + i)
              /\ d = Budget.mkDoc (Budget.name b) destinationMonth (Budget.value b) 1).
  { intros k d Hk. apply elem_of_list_to_map_2 in Hk.
    unfold new in Hk. apply list_elem_of_fmap in Hk as (c & Heq & Hc).
    apply list_elem_of_lookup in Hc as [i Hc].
    destruct (Hclone _ _ Hc) as (b & Hb & ->). simpl in Heq. injection Heq as -> ->.
    exists i, b. auto. }
  exists originals, (mkWorld (budgets w ∪ list_to_map new) (expenses w)
                       (ticks w + length originals)).
  split; [reflexivity |]. split; [exact Hnd |]. split.
  { intros b. rewrite Hmem. split; intros (k & d & Hk & Hm & ->); exists k, d;
      (split; [exact Hk |]); (split; [| reflexivity]).
    - apply String.eqb_eq. exact Hm.
    - simpl. apply String.eqb_eq. exact Hm. }
  split.
  { pose proof (copyBudgets_unfold originalMonth destinationMonth w) as Hc.
    cbv zeta in Hc. fold originals in Hc. fold clones in Hc. rewrite Hput in Hc. exact Hc. }
  simpl. split; [reflexivity |]. split.
  { intros k d Hk. apply lookup_union_Some_raw. left. exact Hk. }
  split.
  { intros k d Hnone Hk. apply lookup_union_Some_raw in Hk as [Hk | [_ Hk]]; [congruence |].
    destruct (Hnewkey _ _ Hk) as (i & b & Hb & -> & ->). exists i, b.
    split; [exact Hb |]. split; [reflexivity |]. split; [| reflexivity].
    intros Heq. assert (b ∈ originals) as Hin by (apply list_elem_of_lookup; eauto).
    apply Hmem in Hin as (k' & d' & Hk' & _ & ->). simpl in Heq. congruence. }
  intros [Hnew Hinj].
  assert (Hkeys : NoDup new.*1).
  { apply NoDup_alt. intros i j k Hi Hj.
    unfold new in Hi, Hj. rewrite <- list_fmap_compose in Hi, Hj.
    rewrite list_lookup_fmap in Hi, Hj.
    destruct (clones !! i) as [ci|] eqn:Hci; [| discriminate].
    destruct (clones !! j) as [cj|] eqn:Hcj; [| discriminate].
    destruct (Hclone _ _ Hci) as (bi & Hbi & ->). destruct (Hclone _ _ Hcj) as (bj & Hbj & ->).
    simpl in Hi, Hj. injection Hi as Hi. injection Hj as Hj.
    apply Hinj; [eapply lookup_lt_Some; eauto | eapply lookup_lt_Some; eauto | congruence]. }
  split.
  - intros i b Hb.
    assert (i < length originals) as Hi by (eapply lookup_lt_Some; eauto).
    assert (Hfresh := Hnew i Hi). split; [exact Hfresh |].
    rewrite lookup_union_r by exact Hfresh.
    apply elem_of_list_to_map_1; [exact Hkeys |].
    unfold new. apply list_elem_of_fmap.
    exists (Budget.mk (idAt env (ticks w + i)) (Budget.name b) destinationMonth
              (Budget.value b) None).
    split; [reflexivity |]. apply list_elem_of_lookup. exists i.
    unfold clones. rewrite list_lookup_imap, Hb. reflexivity.
  - rewrite map_size_disj_union.
    + rewrite map_size_list_to_map by exact Hkeys.
      unfold new, clones. rewrite length_fmap, length_imap. reflexivity.
    + apply map_disjoint_spec. intros k x y Hx Hy.
      destruct (Hnewkey _ _ Hy) as (i & b & Hb & -> & _).
      rewrite Hnew in Hx by (eapply lookup_lt_Some; eauto). discriminate.
Qed.

(** *** Further properties *)

(** A budget that no expense of its month refers to is removed by
    [deleteBudget], which returns; nothing else changes. *)
Theorem deleteBudget_unreferenced (w : World) (k : string) (b : Budget.doc) :
  budgets w !! k = Some b ->
  ~ referenced w b ->
  deleteBudget k w = (Ok tt, with_budgets (delete k (budgets w)) w).
Proof.
  intros Hk Hnone. unfold deleteBudget, bind, findOneBudget, findExpenses.
  rewrite (findOne_idIs_stored _ _ _ Hk). simpl.
  assert (find (fun kd : string * Expense.doc =>
            dateInMonth (Budget.doc_month b) (Expense.doc_date kd.2)
            && String.eqb (Expense.doc_budget kd.2) (Budget.doc_name b)) (expenses w) = []) as ->.
  { destruct (find _ (expenses w)) as [|[ke e] l] eqn:Hf; [reflexivity |]. exfalso.
    assert ((ke, e) ∈ find (fun kd : string * Expense.doc =>
              dateInMonth (Budget.doc_month b) (Expense.doc_date kd.2)
              && String.eqb (Expense.doc_budget kd.2) (Budget.doc_name b)) (expenses w)) as Hin
      by (rewrite Hf; left).
    apply find_spec in Hin as [Hke Hsel]. simpl in Hsel.
    apply andb_true_iff in Hsel as [Hd Hn]. apply String.eqb_eq in Hn.
    apply Hnone. exists ke, e. auto. }
  reflexivity.
Qed.

(** A budget whose value is zero, negative or not a number is not saved,
    and neither is an expense of such a cost: the call throws and the
    store is as it was. *)
Theorem save_rejects_invalid_amount (w : World) :
  (forall budget, notPositive (Budget.value budget) = true ->
     exists e, saveBudget env budget w = (Throw e, w)
       /\ (Budget.name budget <> "Total" ->
           Nat.eqb (String.length (trim (Budget.name budget))) 0 = false ->
           e = InvalidBudgetValue))
  /\ (forall expense, notPositive (Expense.cost expense) = true ->
        exists e, saveExpense env expense w = (Throw e, w)
          /\ (Nat.eqb (String.length (trim (Expense.description expense))) 0 = false ->
              e = InvalidExpenseCost)).
Proof.
  split.
  - intros budget Hv. unfold saveBudget.
    destruct (String.eqb (Budget.name budget) "Total") eqn:H1.
    { eexists. split; [reflexivity |]. apply String.eqb_eq in H1. contradiction. }
    destruct (Nat.eqb _ 0) eqn:H2.
    { eexists. split; [reflexivity |]. discriminate. }
    rewrite Hv. eexists. split; reflexivity.
  - intros expense Hv. unfold saveExpense.
    destruct (Nat.eqb _ 0) eqn:H1.
    { eexists. split; [reflexivity |]. discriminate. }
    rewrite Hv. eexists. split; reflexivity.
Qed.

(** *** Blank names and descriptions *)

Lemma trimStart_blank s : trimStart s = "" <-> allWhiteSpace s = true.
Proof.
  induction s as [|c s IH]; simpl.
  - split; reflexivity.
  - destruct (isWhiteSpace c); simpl; [exact IH |]. split; discriminate.
Qed.

Lemma trimStart_head s c t : trimStart s = String c t -> isWhiteSpace c = false.
Proof.
  induction s as [|c' s IH]; simpl; [discriminate |].
  destruct (isWhiteSpace c') eqn:Hc; [exact IH |]. intros [= <- _]. exact Hc.
Qed.

Lemma length_rev_app a b :
  String.length (String.rev_app a b) = String.length a + String.length b.
Proof.
  revert b. induction a as [|c a IH]; intros b; simpl; [reflexivity |].
  rewrite IH. simpl. lia.
Qed.

Lemma allWhiteSpace_rev_app a b :
  allWhiteSpace (String.rev_app a b) = allWhiteSpace a && allWhiteSpace b.
Proof.
  revert b. induction a as [|c a IH]; intros b; simpl; [reflexivity |].
  rewrite IH. simpl. destruct (isWhiteSpace c), (allWhiteSpace a), (allWhiteSpace b); reflexivity.
Qed.

Lemma length_zero_empty s : String.length s = 0 -> s = "".
Proof. destruct s; [reflexivity | discriminate]. Qed.

(** [s.trim().length === 0] holds exactly of the strings made of white space. *)
Lemma trim_blank s : Nat.eqb (String.length (trim s)) 0 = allWhiteSpace s.
Proof.
  destruct (allWhiteSpace s) eqn:Hs.
  - apply trimStart_blank in Hs. unfold trim. rewrite Hs. reflexivity.
  - apply Nat.eqb_neq. intros Hlen.
    destruct (trimStart s) as [|c t] eqn:Hu.
    { apply trimStart_blank in Hu. congruence. }
    apply trimStart_head in Hu as Hc.
    unfold trim, trimEnd, String.rev in Hlen. rewrite Hu in Hlen.
    rewrite length_rev_app in Hlen. apply Nat.eq_add_0 in Hlen as [Hz _].
    apply length_zero_empty, trimStart_blank in Hz.
    rewrite allWhiteSpace_rev_app in Hz. simpl in Hz. rewrite Hc in Hz. discriminate.
Qed.

(** The errors [saveBudget] throws, whatever it is given. *)
Lemma saveBudget_errors budget w e w' :
  saveBudget env budget w = (Throw e, w') ->
  e = ReservedBudgetName \/ e = InvalidBudgetName \/ e = InvalidBudgetValue
  \/ e = DuplicateBudget \/ e = NullDocument \/ e = Conflict.
Proof.
  unfold saveBudget.
  destruct (String.eqb (Budget.name budget) "Total") eqn:H1; [intros [= <- _]; auto |].
  destruct (Nat.eqb _ 0) eqn:H2; [intros [= <- _]; auto |].
  destruct (notPositive _) eqn:H3; [intros [= <- _]; auto 6 |].
  intros Hsave.
  assert (Hs : saveBudget env budget w = (Throw e, w')).
  { unfold saveBudget. rewrite H1, H2, H3. exact Hsave. }
  apply String.eqb_neq in H1.
  rewrite saveBudget_unfold in Hs by assumption. cbv zeta in Hs.
  destruct (findOne (duplicateOf _) (budgets w)); [injection Hs as <- _; auto 6 |].
  destruct (String.eqb _ "newBudget").
  - destruct (putBudget _ _); [discriminate | injection Hs as <- _; auto 8].
  - destruct (findOne (idIs _) (budgets w)) as [[k existing]|];
      [| injection Hs as <- _; auto 8].
    destruct (negb _); discriminate.
Qed.

(** A budget whose name is made of white space only (the empty name too)
    is refused with the error of the name, the store as it was, and that
    error is thrown for no other budget. An expense whose description is
    made of white space only is refused with the error of the description,
    the store as it was, and that error is thrown for no other expense. *)
Theorem blank_text_rejected (w : World) :
  (forall budget,
     (allWhiteSpace (Budget.name budget) = true ->
      saveBudget env budget w = (Throw InvalidBudgetName, w))
     /\ (forall w', saveBudget env budget w = (Throw InvalidBudgetName, w') ->
         allWhiteSpace (Budget.name budget) = true))
  /\ (forall expense,
        (allWhiteSpace (Expense.description expense) = true ->
         saveExpense env expense w = (Throw InvalidExpenseDescription, w))
        /\ (forall w', saveExpense env expense w = (Throw InvalidExpenseDescription, w') ->
            allWhiteSpace (Expense.description expense) = true)).
Proof.
  split.
  - intros budget. split.
    + intros Hb. unfold saveBudget. rewrite trim_blank, Hb.
      destruct (String.eqb (Budget.name budget) "Total") eqn:Ht; [| reflexivity].
      apply String.eqb_eq in Ht. rewrite Ht in Hb. discriminate.
    + intros w' Hsave. rewrite <- trim_blank.
      destruct (Nat.eqb (String.length (trim (Budget.name budget))) 0) eqn:H2; [reflexivity |].
      exfalso. unfold saveBudget in Hsave. rewrite H2 in Hsave.
      destruct (String.eqb (Budget.name budget) "Total") eqn:H1; [discriminate |].
      destruct (notPositive (Budget.value budget)) eqn:H3; [discriminate |].
      assert (Hs : saveBudget env budget w = (Throw InvalidBudgetName, w')).
      { unfold saveBudget. rewrite H1, H2, H3. exact Hsave. }
      apply String.eqb_neq in H1.
      rewrite saveBudget_unfold in Hs by assumption. cbv zeta in Hs.
      destruct (findOne (duplicateOf _) (budgets w)); [discriminate |].
      destruct (String.eqb _ "newBudget").
      * destruct (putBudget _ _); discriminate.
      * destruct (findOne (idIs _) (budgets w)) as [[k existing]|]; [| discriminate].
        destruct (negb _); discriminate.
  - intros expense. split.
    + intros Hb. unfold saveExpense. rewrite trim_blank, Hb. reflexivity.
    + intros w' Hsave. rewrite <- trim_blank.
      destruct (Nat.eqb (String.length (trim (Expense.description expense))) 0) eqn:H1;
        [reflexivity |].
      exfalso. unfold saveExpense in Hsave. rewrite H1 in Hsave.
      destruct (notPositive (Expense.cost expense)) eqn:H2; [discriminate |].
      unfold bind in Hsave.
      destruct (resolveBudget_total (normaliseDate env expense) w) as [name Hres].
      rewrite Hres in Hsave.
      destruct (ensureBudget env _ w) as [[[]|e] w2] eqn:Hens.
      * unfold storeExpense, bind, generateId, insertExpense, findOneExpense in Hsave.
        destruct (String.eqb _ "newExpense"); simpl in Hsave.
        -- destruct (putExpense _ _); discriminate.
        -- destruct (findOne _ (expenses w2)) as [[k d]|]; discriminate.
      * injection Hsave as -> _. unfold ensureBudget, bind, findOneBudget in Hens.
        destruct (findOne _ (budgets w)); [discriminate |].
        apply saveBudget_errors in Hens.
        destruct Hens as [H | [H | [H | [H | [H | H]]]]]; discriminate.
Qed.


(** *** Deleting, and ids the store does not hold *)

Lemma find_empty {D} (selector : string * D -> bool) (m : gmap string D) :
  (forall k d, m !! k = Some d -> selector (k, d) = false) -> find selector m = [].
Proof.
  intros Hnone. destruct (find selector m) as [|[k d] l] eqn:Hf; [reflexivity |].
  assert ((k, d) ∈ find selector m) as Hin by (rewrite Hf; left).
  apply find_spec in Hin as [Hk Hs]. rewrite (Hnone k d Hk) in Hs. discriminate.
Qed.

Lemma deleteBudget_stored w k b :
  budgets w !! k = Some b ->
  deleteBudget k w =
  if Nat.ltb 0 (length (find (attributedTo (Budget.doc_month b) (Budget.doc_name b)) (expenses w)))
     && Nat.eqb (length (find (named (Budget.doc_month b) (Budget.doc_name b)) (budgets w))) 1
  then (Throw BudgetHasExpenses, w)
  else (Ok tt, with_budgets (delete k (budgets w)) w).
Proof.
  intros Hk. unfold deleteBudget, bind, findOneBudget, findExpenses, findBudgets.
  rewrite (findOne_idIs_stored _ _ _ Hk). simpl.
  change (fun kd : string * Expense.doc =>
            dateInMonth (Budget.doc_month b) (Expense.doc_date kd.2)
            && String.eqb (Expense.doc_budget kd.2) (Budget.doc_name b))
    with (attributedTo (Budget.doc_month b) (Budget.doc_name b)).
  change (fun kd : string * Budget.doc =>
            String.eqb (Budget.doc_month kd.2) (Budget.doc_month b)
            && String.eqb (Budget.doc_name kd.2) (Budget.doc_name b))
    with (named (Budget.doc_month b) (Budget.doc_name b)).
  destruct (Nat.ltb 0 _); simpl; [| reflexivity].
  destruct (Nat.eqb _ 1); reflexivity.
Qed.

(** [deleteExpense] removes the expense stored under the id it is given and
    nothing else: the other expenses, the budgets (also one that was created
    for this expense) and the count of generated ids are as they were. For
    an id the store does not hold it throws, on the null document, and the
    store is as it was, unless the id is the empty string: for the empty
    string the store yields its first expense, the one of the lowest id,
    and that one is removed; the empty string makes [deleteExpense] throw
    on a store without expenses only. *)
Theorem deleteExpense_removes_one (w : World) (k : string) :
  (forall e, expenses w !! k = Some e ->
     deleteExpense k w = (Ok tt, with_expenses (delete k (expenses w)) w))
  /\ (expenses w !! k = None -> k <> "" -> deleteExpense k w = (Throw NullDocument, w))
  /\ (forall first e rest, documents (expenses w) = (first, e) :: rest ->
        deleteExpense "" w = (Ok tt, with_expenses (delete first (expenses w)) w))
  /\ (expenses w = ∅ -> deleteExpense "" w = (Throw NullDocument, w)).
Proof.
  unfold deleteExpense, bind, findOneExpense. repeat split.
  - intros e Hk. rewrite (findOne_idIs_stored _ _ _ Hk). reflexivity.
  - intros Hk Hne. rewrite findOne_idIs, Hk by exact Hne. reflexivity.
  - intros first e rest Hdocs. rewrite findOne_idIs_empty, Hdocs. reflexivity.
  - intros Hempty. rewrite findOne_idIs_empty, Hempty. reflexivity.
Qed.

(** For a budget id that the store does not hold and that is not the empty
    string, [deleteBudget] throws on the null document, and so does
    [saveBudget] of a budget that passes the checks of name, value and
    uniqueness and is not a new one; the store is as it was. *)
Theorem unknown_budget_id_rejected (w : World) :
  (forall k, budgets w !! k = None -> k <> "" ->
     deleteBudget k w = (Throw NullDocument, w))
  /\ (forall budget,
        Budget.id budget <> "newBudget" ->
        Budget.id budget <> "" ->
        budgets w !! Budget.id budget = None ->
        exists e, saveBudget env budget w = (Throw e, w)
          /\ (Budget.name budget <> "Total" ->
              allWhiteSpace (Budget.name budget) = false ->
              notPositive (Budget.value budget) = false ->
              (forall k d, budgets w !! k = Some d ->
                 named (Budget.month (normaliseMonth env budget)) (Budget.name budget) (k, d)
                 = false) ->
              e = NullDocument)).
Proof.
  split.
  - intros k Hk Hne. unfold deleteBudget, bind, findOneBudget.
    rewrite findOne_idIs, Hk by exact Hne. reflexivity.
  - intros budget Hid Hne Hk.
    destruct (String.eqb (Budget.name budget) "Total") eqn:G1.
    { exists ReservedBudgetName. split; [unfold saveBudget; rewrite G1; reflexivity |].
      intros Hn. apply String.eqb_eq in G1. contradiction. }
    destruct (Nat.eqb (String.length (trim (Budget.name budget))) 0) eqn:G2.
    { exists InvalidBudgetName. split; [unfold saveBudget; rewrite G1, G2; reflexivity |].
      intros _ Hb. rewrite trim_blank in G2. congruence. }
    destruct (notPositive (Budget.value budget)) eqn:G3.
    { exists InvalidBudgetValue. split; [unfold saveBudget; rewrite G1, G2, G3; reflexivity |].
      intros _ _ Hv. discriminate. }
    apply String.eqb_neq in G1.
    rewrite saveBudget_unfold by assumption. cbv zeta. rewrite !normaliseMonth_id.
    destruct (findOne (duplicateOf _) (budgets w)) as [[k d]|] eqn:Hd.
    + exists DuplicateBudget. split; [reflexivity |]. intros _ _ _ Hnone. exfalso.
      apply findOne_Some in Hd as [Hkd Hs]. specialize (Hnone k d Hkd).
      unfold duplicateOf in Hs. unfold named in Hnone. simpl in Hs, Hnone.
      rewrite normaliseMonth_name in Hs.
      apply andb_true_iff in Hs as [Hs _]. congruence.
    + apply String.eqb_neq in Hid. rewrite Hid, findOne_idIs, Hk by exact Hne.
      exists NullDocument. split; [reflexivity | auto].
Qed.


(** *** The budget name of a saved expense *)

Lemma set_budget_same expense : Expense.set_budget (Expense.budget expense) expense = expense.
Proof. destruct expense; reflexivity. Qed.

(** Without the look for a stored expense of the same description, the
    name is the one given, or "Misc" for the empty one. *)
Lemma resolveBudget_given expense w :
  Expense.id expense <> "newExpense"
  \/ (Expense.budget expense <> "" /\ Expense.budget expense <> "Misc") ->
  resolveBudget expense w
  = (Ok (Expense.set_budget
           (if String.eqb (Expense.budget expense) "" then "Misc" else Expense.budget expense)
           expense), w).
Proof.
  intros H. unfold resolveBudget, bind, ret.
  assert ((String.eqb (Expense.budget expense) "" || String.eqb (Expense.budget expense) "Misc")
          && String.eqb (Expense.id expense) "newExpense" = false) as ->.
  { destruct H as [Hid | [H1 H2]].
    - apply String.eqb_neq in Hid. rewrite Hid. apply andb_false_r.
    - apply String.eqb_neq in H1, H2. rewrite H1, H2. reflexivity. }
  destruct (String.eqb (Expense.budget expense) ""); [reflexivity |].
  rewrite set_budget_same. reflexivity.
Qed.

(** With it, when the stored expenses of that description agree on a name. *)
Lemma resolveBudget_agreed expense w inherited :
  Expense.id expense = "newExpense" ->
  Expense.budget expense = "" \/ Expense.budget expense = "Misc" ->
  (exists k d, expenses w !! k = Some d
     /\ Expense.doc_description d = Expense.description expense) ->
  (forall k d, expenses w !! k = Some d ->
     Expense.doc_description d = Expense.description expense ->
     Expense.doc_budget d = inherited) ->
  inherited <> "" ->
  resolveBudget expense w = (Ok (Expense.set_budget inherited expense), w).
Proof.
  intros Hid Hb (k0 & d0 & Hk0 & Hd0) Hall Hne.
  unfold resolveBudget, bind, findOneExpense, ret. rewrite Hid.
  assert ((String.eqb (Expense.budget expense) "" || String.eqb (Expense.budget expense) "Misc")
          && String.eqb "newExpense" "newExpense" = true) as ->.
  { destruct Hb as [-> | ->]; reflexivity. }
  destruct (findOne _ (expenses w)) as [[k d]|] eqn:Hf.
  - apply findOne_Some in Hf as [Hk Hs]. simpl in Hs. apply String.eqb_eq in Hs.
    simpl. rewrite (Hall k d Hk Hs).
    apply String.eqb_neq in Hne. rewrite Hne. simpl. rewrite Hne. reflexivity.
  - exfalso. rewrite findOne_None in Hf. specialize (Hf k0 d0 Hk0). simpl in Hf.
    rewrite Hd0, String.eqb_refl in Hf. discriminate.
Qed.

(** What a successful [saveExpense] stores, and under which id. *)
Lemma saveExpense_stored expense w w' :
  saveExpense env expense w = (Ok tt, w') ->
  exists name k d,
    resolveBudget (normaliseDate env expense) w
    = (Ok (Expense.set_budget name (normaliseDate env expense)), w)
    /\ expenses w' !! k = Some d
    /\ (if String.eqb (Expense.id expense) "newExpense"
        then k = idAt env (pred (ticks w'))
        else (exists old, findOne (idIs (Expense.id expense)) (expenses w) = Some (k, old))
             /\ (Expense.id expense <> "" -> k = Expense.id expense))
    /\ Expense.doc_budget d = name
    /\ Expense.doc_description d = Expense.description expense
    /\ Expense.doc_cost d = Expense.cost expense
    /\ Expense.doc_date d = Expense.date (normaliseDate env expense).
Proof.
  intros Hsave.
  destruct (saveExpense_written _ _ _ Hsave)
    as (name & k & r & w2 & Hres & _ & _ & _ & Hexp & Hkey).
  cbv zeta in Hres, Hexp.
  exists name, k, (expenseDoc (Expense.set_budget name (normaliseDate env expense)) r).
  split; [exact Hres |]. split; [rewrite Hexp; apply lookup_insert_eq |]. split.
  - destruct (String.eqb (Expense.id expense) "newExpense"); [exact Hkey |].
    split; [exact Hkey |]. destruct Hkey as [old Hold].
    apply (findOne_idIs_found _ _ _ _ Hold).
  - simpl. rewrite normaliseDate_description, normaliseDate_cost. auto.
Qed.

(** An expense that names its budget (anything but the empty name and
    "Misc"), and any expense that is not a new one, is stored under the name
    it gives, "Misc" standing for the empty name: the stored expenses of the
    same description play no part. It is stored under the id generated for
    it when it is new, and else in the place of the expense that [findOne]
    yields for its id: the one stored under that id, unless the id is
    empty. *)
Theorem saveExpense_keeps_given_budget (w w' : World) (expense : Expense.t) :
  Expense.id expense <> "newExpense"
  \/ (Expense.budget expense <> "" /\ Expense.budget expense <> "Misc") ->
  saveExpense env expense w = (Ok tt, w') ->
  exists k d,
    expenses w' !! k = Some d
    /\ (if String.eqb (Expense.id expense) "newExpense"
        then k = idAt env (pred (ticks w'))
        else (exists old, findOne (idIs (Expense.id expense)) (expenses w) = Some (k, old))
             /\ (Expense.id expense <> "" -> k = Expense.id expense))
    /\ Expense.doc_budget d
       = (if String.eqb (Expense.budget expense) "" then "Misc" else Expense.budget expense)
    /\ Expense.doc_description d = Expense.description expense
    /\ Expense.doc_cost d = Expense.cost expense.
Proof.
  intros Hgiven Hsave.
  destruct (saveExpense_stored _ _ _ Hsave)
    as (name & k & d & Hres & Hd & Hkey & Hb & Hdesc & Hcost & _).
  rewrite resolveBudget_given in Hres
    by (rewrite normaliseDate_id, normaliseDate_budget; exact Hgiven).
  rewrite normaliseDate_budget in Hres. injection Hres as Hres.
  exists k, d. rewrite Hb, <- Hres. auto.
Qed.

(** A new expense without a budget name, or with "Misc", whose description
    is that of stored expenses which all carry the same non-empty budget
    name, is stored under that name. The descriptions are compared as they
    are, character by character. *)
Theorem saveExpense_inherits_budget (w w' : World) (expense : Expense.t) (inherited : string) :
  Expense.id expense = "newExpense" ->
  Expense.budget expense = "" \/ Expense.budget expense = "Misc" ->
  (exists k d, expenses w !! k = Some d
     /\ Expense.doc_description d = Expense.description expense) ->
  (forall k d, expenses w !! k = Some d ->
     Expense.doc_description d = Expense.description expense ->
     Expense.doc_budget d = inherited) ->
  inherited <> "" ->
  saveExpense env expense w = (Ok tt, w') ->
  exists d,
    expenses w' !! idAt env (pred (ticks w')) = Some d
    /\ Expense.doc_budget d = inherited
    /\ Expense.doc_description d = Expense.description expense
    /\ Expense.doc_cost d = Expense.cost expense.
Proof.
  intros Hid Hb Hex Hall Hne Hsave.
  destruct (saveExpense_stored _ _ _ Hsave)
    as (name & k & d & Hres & Hd & Hkey & Hbud & Hdesc & Hcost & _).
  rewrite (resolveBudget_agreed _ _ inherited) in Hres;
    rewrite ?normaliseDate_id, ?normaliseDate_budget, ?normaliseDate_description; auto.
  injection Hres as Hres.
  rewrite Hid in Hkey. simpl in Hkey. subst k. exists d. rewrite Hbud, <- Hres. auto.
Qed.


(** *** What [saveExpense] leaves alone, whatever its outcome *)

Lemma saveBudget_new_outcome budget w r w' :
  Budget.id budget = "newBudget" ->
  Budget._rev budget = None ->
  saveBudget env budget w = (r, w') ->
  expenses w' = expenses w
  /\ (budgets w' = budgets w
      \/ (r = Ok tt
          /\ findOne (duplicateOf (normaliseMonth env budget)) (budgets w) = None
          /\ budgets w !! idAt env (ticks w) = None
          /\ w' = mkWorld (<[idAt env (ticks w) := budgetDoc (normaliseMonth env budget) 1]>
                             (budgets w)) (expenses w) (S (ticks w)))).
Proof.
  intros Hid Hrev Hsave.
  destruct (saveBudget_guards budget w _ Hsave) as [(e & [= -> ->] & _) | (H1 & H2 & H3)];
    [auto |].
  rewrite saveBudget_unfold in Hsave by assumption. cbv zeta in Hsave.
  destruct (findOne (duplicateOf _) (budgets w)) eqn:Hf; [injection Hsave as <- <-; auto |].
  rewrite normaliseMonth_id, Hid in Hsave. simpl in Hsave.
  unfold putBudget, put in Hsave. simpl in Hsave.
  rewrite normaliseMonth_rev, Hrev in Hsave.
  destruct (budgets w !! idAt env (ticks w)) eqn:Hfresh; injection Hsave as <- <-; simpl; auto.
  split; [reflexivity |]. right. auto.
Qed.

Lemma ensureBudget_outcome expense w r w' :
  ensureBudget env expense w = (r, w') ->
  expenses w' = expenses w
  /\ (budgets w' = budgets w
      \/ exists d,
           r = Ok tt
           /\ budgets w !! idAt env (ticks w) = None
           /\ w' = mkWorld (<[idAt env (ticks w) := d]> (budgets w)) (expenses w) (S (ticks w))
           /\ Budget.doc_name d = Expense.budget expense
           /\ Budget.doc_value d = 100%float
           /\ (forall k' d', budgets w !! k' = Some d' ->
                 Budget.doc_month d' = Budget.doc_month d ->
                 Budget.doc_name d' = Budget.doc_name d -> k' = "newBudget")).
Proof.
  unfold ensureBudget, bind, findOneBudget.
  destruct (findOne _ (budgets w)); [intros [= <- <-]; auto |].
  intros Hsave. apply saveBudget_new_outcome in Hsave; [| reflexivity | reflexivity].
  destruct Hsave as [He [Hb | (-> & Hf & Hfresh & ->)]]; [auto |].
  split; [reflexivity |]. right.
  exists (budgetDoc (normaliseMonth env (defaultBudget expense)) 1).
  repeat split; auto.
  - simpl. apply normaliseMonth_name.
  - simpl. apply normaliseMonth_value.
  - intros k' d' Hk' Hm Hn. rewrite findOne_None in Hf. specialize (Hf k' d' Hk').
    apply duplicateOf_false in Hf; [| exact Hm | exact Hn].
    rewrite normaliseMonth_id in Hf. exact Hf.
Qed.

Lemma storeExpense_outcome expense w r w' :
  storeExpense env expense w = (r, w') ->
  budgets w' = budgets w
  /\ (forall k,
        (forall old, findOne (idIs (Expense.id expense)) (expenses w) <> Some (k, old)) ->
        k <> idAt env (pred (ticks w')) ->
        expenses w' !! k = expenses w !! k).
Proof.
  unfold storeExpense. destruct (String.eqb (Expense.id expense) "newExpense").
  - unfold bind, generateId, insertExpense. simpl.
    destruct (putExpense _ (expenses w)) as [m|] eqn:Hput; intros [= <- <-]; simpl;
      (split; [reflexivity |]); [| auto].
    apply put_Some in Hput as [r' ->]. simpl.
    intros k _ Hne. apply lookup_insert_ne. congruence.
  - unfold bind, findOneExpense.
    destruct (findOne (idIs (Expense.id expense)) (expenses w)) as [[k0 d]|] eqn:Hd; simpl.
    + unfold updateExpense. intros [= <- <-]. simpl. split; [reflexivity |].
      intros k Hne _. apply lookup_alter_ne. intros ->. exact (Hne d eq_refl).
    + intros [= <- <-]. auto.
Qed.

(** What a call of [saveExpense] has done to the store, whether it returned
    or threw: the budget that [ensureBudget] may have added, then the write
    of [storeExpense]. *)
Lemma saveExpense_outcome expense w r w' :
  saveExpense env expense w = (r, w') ->
  w' = w
  \/ exists name eb w2,
       ensureBudget env (Expense.set_budget name (normaliseDate env expense)) w = (eb, w2)
       /\ (w' = w2
           \/ storeExpense env (Expense.set_budget name (normaliseDate env expense)) w2 = (r, w')).
Proof.
  intros Hsave.
  destruct (Nat.eqb (String.length (trim (Expense.description expense))) 0) eqn:H1.
  { unfold saveExpense in Hsave. rewrite H1 in Hsave. injection Hsave as <- <-. auto. }
  destruct (notPositive (Expense.cost expense)) eqn:H2.
  { unfold saveExpense in Hsave. rewrite H1, H2 in Hsave. injection Hsave as <- <-. auto. }
  rewrite saveExpense_unfold in Hsave by assumption.
  destruct (resolveBudget_total (normaliseDate env expense) w) as [name Hres].
  rewrite Hres in Hsave. right.
  destruct (ensureBudget env _ w) as [[[]|e] w2] eqn:Hens.
  - exists name, (Ok tt), w2. auto.
  - injection Hsave as <- <-. exists name, (Throw e), w2. auto.
Qed.

(** Whatever [saveExpense] is given and whether it returns or throws, every
    budget of the store is afterwards as it was (at most one budget has been
    added) and so is every expense other than the one that [findOne] yields
    for the id of the expense given and the one stored under the id
    generated last. When the id given is not empty, the expense that
    [findOne] yields for it is stored under that id, so that every expense
    under another id is as it was; at the empty id it is the first expense
    of the store that the call may have written. *)
Theorem saveExpense_frame (w : World) (expense : Expense.t) :
  (forall k d, budgets w !! k = Some d ->
     budgets (saveExpense env expense w).2 !! k = Some d)
  /\ size (budgets (saveExpense env expense w).2) <= S (size (budgets w))
  /\ (forall k,
        (forall old, findOne (idIs (Expense.id expense)) (expenses w) <> Some (k, old)) ->
        k <> idAt env (pred (ticks (saveExpense env expense w).2)) ->
        expenses (saveExpense env expense w).2 !! k = expenses w !! k)
  /\ (Expense.id expense <> "" ->
      forall k, k <> Expense.id expense ->
        k <> idAt env (pred (ticks (saveExpense env expense w).2)) ->
        expenses (saveExpense env expense w).2 !! k = expenses w !! k).
Proof.
  destruct (saveExpense env expense w) as [r w'] eqn:Hsave. simpl.
  assert (Hall :
    (forall k d, budgets w !! k = Some d -> budgets w' !! k = Some d)
    /\ size (budgets w') <= S (size (budgets w))
    /\ (forall k,
          (forall old, findOne (idIs (Expense.id expense)) (expenses w) <> Some (k, old)) ->
          k <> idAt env (pred (ticks w')) ->
          expenses w' !! k = expenses w !! k)).
  { apply saveExpense_outcome in Hsave as [-> | (name & eb & w2 & Hens & Hrest)];
      [repeat split; auto |].
    apply ensureBudget_outcome in Hens as [He2 Hb2].
    assert (Hb : budgets w' = budgets w2
                 /\ (forall k,
                       (forall old, findOne (idIs (Expense.id expense)) (expenses w)
                                    <> Some (k, old)) ->
                       k <> idAt env (pred (ticks w')) ->
                       expenses w' !! k = expenses w !! k)).
    { destruct Hrest as [-> | Hstore]; [rewrite He2; auto |].
      apply storeExpense_outcome in Hstore as [Hb He]. split; [exact Hb |].
      intros k H1 H2. rewrite <- He2. apply He; [| exact H2].
      simpl. rewrite normaliseDate_id, He2. exact H1. }
    destruct Hb as [-> He]. split; [| split; [| exact He]].
    - destruct Hb2 as [-> | (d & _ & Hfresh & -> & _)]; [auto |].
      intros k d0 Hk. simpl. rewrite lookup_insert_ne; [exact Hk | congruence].
    - destruct Hb2 as [-> | (d & _ & Hfresh & -> & _)]; [lia |].
      simpl. rewrite map_size_insert_None by exact Hfresh. lia. }
  destruct Hall as (Hb & Hsize & He).
  split; [exact Hb |]. split; [exact Hsize |]. split; [exact He |].
  intros Hne k H1 H2. apply He; [| exact H2].
  intros old Hf. apply findOne_idIs_found in Hf as [_ Hk]. exact (H1 (Hk Hne)).
Qed.

(** [saveExpense] keeps the names of the budgets of a month different, and
    the token of a budget not yet created out of the ids, whether it returns
    or throws: the budget it may create for the expense is one that the
    store does not hold for that month. *)
Theorem saveExpense_keeps_names_unique (w : World) (expense : Expense.t) :
  uniqueNames (budgets w) ->
  budgets w !! "newBudget" = None ->
  uniqueNames (budgets (saveExpense env expense w).2)
  /\ budgets (saveExpense env expense w).2 !! "newBudget" = None.
Proof.
  intros Hu Hsent.
  destruct (saveExpense env expense w) as [r w'] eqn:Hsave. simpl.
  apply saveExpense_outcome in Hsave as [-> | (name & eb & w2 & Hens & Hrest)]; [auto |].
  apply ensureBudget_outcome in Hens as [_ Hb2].
  assert (Hb : budgets w' = budgets w2).
  { destruct Hrest as [-> | Hstore]; [reflexivity |].
    apply storeExpense_outcome in Hstore as [Hb _]. exact Hb. }
  rewrite Hb. destruct Hb2 as [-> | (d & _ & Hfresh & -> & _ & _ & Hnew)]; [auto |].
  simpl. split.
  - apply uniqueNames_insert; [exact Hu |].
    intros k' d' Hk' _ Hm Hn. specialize (Hnew k' d' Hk' Hm Hn). subst k'. congruence.
  - rewrite lookup_insert_ne; [exact Hsent |]. apply idAt_not_sentinel.
Qed.


(** *** Writes that are not undone, and writes that are *)

Lemma ensureBudget_creates expense w :
  Expense.budget expense <> "Total" ->
  allWhiteSpace (Expense.budget expense) = false ->
  moment_isValid env (String.substring 0 7 (Expense.date expense)) "YYYY-MM" = true ->
  (forall k d, budgets w !! k = Some d ->
     named (String.substring 0 7 (Expense.date expense)) (Expense.budget expense) (k, d) = false) ->
  budgets w !! idAt env (ticks w) = None ->
  ensureBudget env expense w
  = (Ok tt,
     mkWorld (<[idAt env (ticks w) :=
                Budget.mkDoc (Expense.budget expense)
                             (String.substring 0 7 (Expense.date expense)) 100%float 1]>
                (budgets w))
             (expenses w) (S (ticks w))).
Proof.
  intros Hname Hblank Hvalid Hnone Hfresh.
  unfold ensureBudget, bind, findOneBudget.
  change (findOne _ (budgets w))
    with (findOne (named (String.substring 0 7 (Expense.date expense)) (Expense.budget expense))
                  (budgets w)).
  rewrite (proj2 (findOne_None _ _) Hnone).
  assert (Hn : normaliseMonth env (defaultBudget expense) = defaultBudget expense).
  { unfold normaliseMonth. simpl. rewrite Hvalid. reflexivity. }
  rewrite saveBudget_unfold; [| exact Hname | rewrite trim_blank; exact Hblank | reflexivity].
  cbv zeta. rewrite Hn.
  rewrite (proj2 (findOne_None _ _)).
  - simpl. unfold putBudget, put. simpl. rewrite Hfresh. reflexivity.
  - intros k d Hk. specialize (Hnone k d Hk). unfold duplicateOf, named in *.
    simpl in *. rewrite Hnone. reflexivity.
Qed.

Lemma ensureBudget_found expense w k d :
  budgets w !! k = Some d ->
  named (String.substring 0 7 (Expense.date expense)) (Expense.budget expense) (k, d) = true ->
  ensureBudget env expense w = (Ok tt, w).
Proof.
  intros Hk Hs. unfold ensureBudget, bind, findOneBudget.
  change (findOne _ (budgets w))
    with (findOne (named (String.substring 0 7 (Expense.date expense)) (Expense.budget expense))
                  (budgets w)).
  destruct (findOne _ (budgets w)) eqn:Hf; [reflexivity |].
  rewrite findOne_None in Hf. rewrite (Hf k d Hk) in Hs. discriminate.
Qed.

(** [saveExpense] of an expense that is not a new one and whose id is not
    empty and not held by the store throws on the null document, after the budget of the
    expense has been looked up: when the month of the expense has a budget
    of that name the store is as it was, and when it has none the budget
    created for the expense stays in the store although the call threw. *)
Theorem saveExpense_unknown_id_keeps_budget (w : World) (expense : Expense.t) :
  Expense.id expense <> "newExpense" ->
  Expense.id expense <> "" ->
  expenses w !! Expense.id expense = None ->
  allWhiteSpace (Expense.description expense) = false ->
  notPositive (Expense.cost expense) = false ->
  let name := if String.eqb (Expense.budget expense) "" then "Misc" else Expense.budget expense in
  let month := String.substring 0 7 (Expense.date (normaliseDate env expense)) in
  (forall k d, budgets w !! k = Some d -> named month name (k, d) = true ->
     saveExpense env expense w = (Throw NullDocument, w))
  /\ (name <> "Total" ->
      allWhiteSpace name = false ->
      moment_isValid env month "YYYY-MM" = true ->
      (forall k d, budgets w !! k = Some d -> named month name (k, d) = false) ->
      budgets w !! idAt env (ticks w) = None ->
      saveExpense env expense w
      = (Throw NullDocument,
         mkWorld (<[idAt env (ticks w) := Budget.mkDoc name month 100%float 1]> (budgets w))
                 (expenses w) (S (ticks w)))).
Proof.
  intros Hid Hne Hk Hdesc Hcost name month.
  assert (Hsave : forall w2,
    ensureBudget env (Expense.set_budget name (normaliseDate env expense)) w = (Ok tt, w2) ->
    expenses w2 = expenses w ->
    saveExpense env expense w = (Throw NullDocument, w2)).
  { intros w2 Hens He.
    rewrite saveExpense_unfold by (rewrite ?trim_blank; assumption).
    rewrite resolveBudget_given by (left; rewrite normaliseDate_id; exact Hid).
    rewrite normaliseDate_budget. fold name. rewrite Hens.
    unfold storeExpense, bind, findOneExpense. simpl. rewrite normaliseDate_id.
    apply String.eqb_neq in Hid. rewrite Hid, findOne_idIs, He, Hk by exact Hne. reflexivity. }
  split.
  - intros k d Hkd Hs. apply Hsave; [| reflexivity].
    apply (ensureBudget_found _ _ k d); assumption.
  - intros Hname Hblank Hvalid Hnone Hfresh. apply Hsave; [| reflexivity].
    apply ensureBudget_creates; assumption.
Qed.

(** A new budget that has been saved under an id the store did not hold is
    removed again by [deleteBudget] of that id, which leaves the budgets and
    the expenses as they were before the two calls, as long as no expense of
    the store is attributed to the budget; when one is, [deleteBudget]
    throws and the budget stays. *)
Theorem saveBudget_then_deleteBudget (w w' : World) (budget : Budget.t) :
  Budget.id budget = "newBudget" ->
  budgets w !! "newBudget" = None ->
  budgets w !! idAt env (ticks w) = None ->
  saveBudget env budget w = (Ok tt, w') ->
  ((forall k e, expenses w !! k = Some e ->
      attributedTo (Budget.month (normaliseMonth env budget)) (Budget.name budget) (k, e) = false) ->
   deleteBudget (idAt env (ticks w)) w'
   = (Ok tt, mkWorld (budgets w) (expenses w) (S (ticks w))))
  /\ (forall k e, expenses w !! k = Some e ->
        attributedTo (Budget.month (normaliseMonth env budget)) (Budget.name budget) (k, e) = true ->
        deleteBudget (idAt env (ticks w)) w' = (Throw BudgetHasExpenses, w')).
Proof.
  intros Hid Hsent Hfresh Hsave.
  apply saveBudget_new_Ok in Hsave as (Hdup & r & -> & _); [| exact Hid].
  set (new := budgetDoc (normaliseMonth env budget) r).
  assert (Hnew : <[idAt env (ticks w) := new]> (budgets w) !! idAt env (ticks w) = Some new)
    by apply lookup_insert_eq.
  split.
  - intros Hnone.
    rewrite (deleteBudget_stored _ _ new) by exact Hnew. simpl.
    rewrite normaliseMonth_name.
    rewrite (find_empty _ _ Hnone). simpl.
    unfold with_budgets. simpl. rewrite delete_insert_id by exact Hfresh. reflexivity.
  - intros k e Hk Hattr.
    rewrite (deleteBudget_stored _ _ new) by exact Hnew. simpl.
    rewrite normaliseMonth_name.
    rewrite (find_nonempty _ _ k e Hk Hattr). simpl.
    rewrite (NoDup_singleton_length _ (idAt env (ticks w), new)); [reflexivity | | |].
    + apply find_NoDup.
    + apply find_spec. split; [exact Hnew |]. unfold named. simpl.
      rewrite normaliseMonth_name, !String.eqb_refl. reflexivity.
    + intros [k' d'] Hin. apply find_spec in Hin as [Hk' Hs].
      destruct (decide (k' = idAt env (ticks w))) as [-> | Hne].
      * rewrite Hnew in Hk'. congruence.
      * exfalso. rewrite lookup_insert_ne in Hk' by congruence.
        rewrite findOne_None in Hdup. specialize (Hdup k' d' Hk').
        unfold named in Hs. simpl in Hs. apply andb_true_iff in Hs as [Hm Hn].
        apply String.eqb_eq in Hm, Hn.
        apply duplicateOf_false in Hdup; [| exact Hm | rewrite normaliseMonth_name; exact Hn].
        rewrite normaliseMonth_id, Hid in Hdup. subst k'. congruence.
Qed.

(** A new expense that has been saved under an id the store did not hold
    is removed again by [deleteExpense] of that id, which leaves the
    expenses as they were before the two calls; the budget that the save may
    have created stays. *)
Theorem saveExpense_then_deleteExpense (w w' : World) (expense : Expense.t) :
  Expense.id expense = "newExpense" ->
  expenses w !! idAt env (pred (ticks w')) = None ->
  saveExpense env expense w = (Ok tt, w') ->
  exists w'',
    deleteExpense (idAt env (pred (ticks w'))) w' = (Ok tt, w'')
    /\ expenses w'' = expenses w
    /\ budgets w'' = budgets w'.
Proof.
  intros Hid Hfresh Hsave.
  destruct (saveExpense_Ok_steps _ _ _ Hsave) as (name & w2 & _ & Hens & Hstore).
  apply ensureBudget_Ok in Hens as [He2 _].
  apply storeExpense_Ok in Hstore as (_ & (k0 & r & Hexp & Hkey) & Hticks).
  simpl in Hexp, Hkey, Hticks.
  rewrite normaliseDate_id, Hid in Hkey, Hticks. simpl in Hkey, Hticks. subst k0.
  rewrite Hticks in Hfresh |- *. simpl in Hfresh |- *.
  unfold deleteExpense, bind, findOneExpense.
  rewrite (findOne_idIs_stored _ _ _ (eq_trans (f_equal (fun m => m !! _) Hexp)
                                               (lookup_insert_eq _ _ _))).
  simpl.
  eexists. split; [reflexivity |]. simpl. split; [| reflexivity].
  rewrite Hexp, He2. apply delete_insert_id. exact Hfresh.
Qed.


(** *** Copies and the uniqueness of names *)

Lemma bulkPut_unique (destinationMonth : string) (l : list Budget.t) (m : gmap string Budget.doc) :
  NoDup (Budget.name <$> l) ->
  Forall (fun b => Budget.month b = destinationMonth /\ Budget.id b <> "newBudget") l ->
  uniqueNames m ->
  m !! "newBudget" = None ->
  (forall k d, m !! k = Some d -> Budget.doc_month d = destinationMonth ->
     Budget.doc_name d ∉ Budget.name <$> l) ->
  uniqueNames (bulkPut putBudget l m) /\ bulkPut putBudget l m !! "newBudget" = None.
Proof.
  revert m. induction l as [|b l IH]; intros m Hnd Hall Hu Hsent Hnames; simpl; [auto |].
  rewrite fmap_cons in Hnd, Hnames. apply NoDup_cons in Hnd as [Hb Hnd].
  apply Forall_cons in Hall as [[Hmonth Hid] Hall].
  destruct (putBudget b m) as [m'|] eqn:Hput.
  - apply put_Some in Hput as [r ->]. apply IH; auto.
    + apply uniqueNames_insert; [exact Hu |].
      intros k' d' Hk' _ Hm Hn. simpl in Hm, Hn.
      apply (Hnames k' d' Hk'); [congruence |]. rewrite Hn. left.
    + rewrite lookup_insert_ne; [exact Hsent | exact Hid].
    + intros k d Hk Hm Hin.
      destruct (decide (k = Budget.id b)) as [-> | Hne].
      * rewrite lookup_insert_eq in Hk. injection Hk as <-. simpl in Hin. contradiction.
      * rewrite lookup_insert_ne in Hk by congruence.
        apply (Hnames k d Hk Hm). right. exact Hin.
  - apply IH; auto. intros k d Hk Hm Hin. apply (Hnames k d Hk Hm). right. exact Hin.
Qed.

Lemma fmap_name_imap (f : nat -> Budget.t -> Budget.t) (l : list Budget.t) :
  (forall i b, Budget.name (f i b) = Budget.name b) ->
  Budget.name <$> imap f l = Budget.name <$> l.
Proof.
  intros Hf. revert f Hf. induction l as [|b l IH]; intros f Hf; [reflexivity |].
  rewrite imap_cons, !fmap_cons, Hf. f_equal. apply IH. intros i b'. apply Hf.
Qed.

Lemma clones_distinct (w : World) (originalMonth destinationMonth : string) :
  uniqueNames (budgets w) ->
  let clones :=
    imap (fun i b => Budget.mk (idAt env (ticks w + i)) (Budget.name b) destinationMonth
                       (Budget.value b) None)
         (sort (sortByName env) (map Budget.toJSON (budgetsOfMonth w originalMonth))) in
  NoDup (Budget.name <$> clones)
  /\ Forall (fun b => Budget.month b = destinationMonth /\ Budget.id b <> "newBudget") clones
  /\ (forall n, n ∈ Budget.name <$> clones ->
        exists k d, budgets w !! k = Some d
          /\ Budget.doc_month d = originalMonth /\ Budget.doc_name d = n).
Proof.
  intros Hu clones. subst clones. rewrite fmap_name_imap by reflexivity.
  unfold budgetsOfMonth.
  change (map Budget.toJSON) with (fmap (M := list) Budget.toJSON).
  split; [| split].
  - rewrite sort_Permutation, <- list_fmap_compose.
    apply NoDup_fmap_2_strong; [| apply find_NoDup].
    intros [k1 d1] [k2 d2] H1 H2 Hn. simpl in Hn.
    apply find_spec in H1 as [H1 Hm1]. apply find_spec in H2 as [H2 Hm2].
    simpl in Hm1, Hm2. apply String.eqb_eq in Hm1, Hm2.
    assert (k1 = k2) as -> by (apply (Hu k1 d1 H1 k2 d2 H2); congruence).
    congruence.
  - apply Forall_forall. intros c Hc. apply list_elem_of_lookup in Hc as [i Hi].
    apply list_lookup_imap_Some in Hi as (b & _ & ->). simpl.
    split; [reflexivity | apply idAt_not_sentinel].
  - intros n Hn. rewrite sort_Permutation, <- list_fmap_compose in Hn.
    apply list_elem_of_fmap in Hn as ([k d] & -> & Hin).
    apply find_spec in Hin as [Hk Hm]. simpl in Hm. apply String.eqb_eq in Hm.
    exists k, d. auto.
Qed.

(** [copyBudgets] keeps the names of the budgets of a month different, and
    the token of a budget not yet created out of the ids, when no budget of
    the destination month has the name of a budget of the origin month (as
    when the destination month has no budget), whatever ids are generated
    for the copies. *)
Theorem copyBudgets_keeps_names_unique (w : World) (originalMonth destinationMonth : string) :
  uniqueNames (budgets w) ->
  budgets w !! "newBudget" = None ->
  (forall k d, budgets w !! k = Some d -> Budget.doc_month d = destinationMonth ->
     forall k' d', budgets w !! k' = Some d' -> Budget.doc_month d' = originalMonth ->
       Budget.doc_name d <> Budget.doc_name d') ->
  uniqueNames (budgets (copyBudgets env originalMonth destinationMonth w).2)
  /\ budgets (copyBudgets env originalMonth destinationMonth w).2 !! "newBudget" = None.
Proof.
  intros Hu Hsent Hclash.
  pose proof (copyBudgets_unfold originalMonth destinationMonth w) as Hc.
  cbv zeta in Hc. rewrite Hc. simpl.
  destruct (clones_distinct w originalMonth destinationMonth Hu) as (Hnd & Hall & Hnames).
  apply (bulkPut_unique destinationMonth); auto.
  intros k d Hk Hm Hin. destruct (Hnames _ Hin) as (k' & d' & Hk' & Hm' & Hn').
  apply (Hclash k d Hk Hm k' d' Hk' Hm'). congruence.
Qed.


(** *** The expenses of a month *)

Lemma dateInMonth_prefix month date :
  dateInMonth month date = true -> exists rest, date = month ++ rest.
Proof. unfold dateInMonth. apply between_prefix. Qed.

Lemma prefix_same_length (a b x y : string) :
  String.length a = String.length b -> a ++ x = b ++ y -> a = b.
Proof.
  revert b. induction a as [|c a IH]; intros [|c' b] Hlen Heq; try discriminate; [reflexivity |].
  change (String c (a ++ x) = String c' (b ++ y)) in Heq.
  injection Heq as -> Heq. injection Hlen as Hlen. rewrite (IH b Hlen Heq). reflexivity.
Qed.

Lemma fetchExpenses_spec w month :
  fetchExpenses env month w
  = (Ok (rev (sort (sortByDate env)
                (map Expense.toJSON
                   (find (fun kd => dateInMonth month (Expense.doc_date kd.2)) (expenses w))))), w).
Proof. reflexivity. Qed.

(** [fetchExpenses] returns and leaves the store as it was. It yields,
    once each, the stored expenses whose date lies between the first and
    the thirty-first day of the month in the order of strings; and an
    expense it yields for a month is yielded for no other month written
    with as many characters. *)
Theorem fetchExpenses_month (w : World) (month : string) :
  exists es,
    fetchExpenses env month w = (Ok es, w)
    /\ NoDup es
    /\ (forall e, e ∈ es <->
          exists k d, expenses w !! k = Some d
            /\ dateInMonth month (Expense.doc_date d) = true
            /\ e = Expense.toJSON (k, d))
    /\ (forall other es',
          fetchExpenses env other w = (Ok es', w) ->
          String.length other = String.length month ->
          other <> month ->
          forall e, e ∈ es -> e ∉ es').
Proof.
  assert (Hspec : forall m,
    NoDup (rev (sort (sortByDate env) (map Expense.toJSON
            (find (fun kd => dateInMonth m (Expense.doc_date kd.2)) (expenses w)))))
    /\ forall e, e ∈ rev (sort (sortByDate env) (map Expense.toJSON
            (find (fun kd => dateInMonth m (Expense.doc_date kd.2)) (expenses w))))
       <-> exists k d, expenses w !! k = Some d
             /\ dateInMonth m (Expense.doc_date d) = true
             /\ e = Expense.toJSON (k, d)).
  { intros m.
    destruct (exported_spec
      (fun kd : string * Expense.doc => dateInMonth m (Expense.doc_date kd.2))
      Expense.toJSON Expense.id (sortByDate env) (expenses w) (fun kd => eq_refl))
      as [Hnd Hmem].
    split.
    - rewrite <- Permutation_rev. exact Hnd.
    - intros e. rewrite <- Permutation_rev. apply Hmem. }
  eexists. split; [apply fetchExpenses_spec |].
  destruct (Hspec month) as [Hnd Hmem]. split; [exact Hnd |]. split; [exact Hmem |].
  intros other es' Hother Hlen Hne e He He'.
  rewrite fetchExpenses_spec in Hother. injection Hother as <-.
  apply Hmem in He as (k & d & Hk & Hd & ->).
  apply (proj2 (Hspec other)) in He' as (k' & d' & Hk' & Hd' & Heq).
  injection Heq as <- Hc Hdesc Hb Hdate.
  rewrite <- Hdate in Hd'.
  apply dateInMonth_prefix in Hd as [rest Hrest], Hd' as [rest' Hrest'].
  apply Hne. apply (prefix_same_length other month rest' rest Hlen). congruence.
Qed.

(** *** Imports that add to the store *)

Lemma list_to_map_budgets_lookup (bs : list Budget.t) k d :
  list_to_map (M := gmap string Budget.doc) ((fun b => (Budget.id b, budgetDoc b 1)) <$> bs) !! k
  = Some d ->
  exists b, b ∈ bs /\ Budget.id b = k /\ d = budgetDoc b 1.
Proof.
  intros Hk. apply elem_of_list_to_map_2, list_elem_of_fmap in Hk as (b & Heq & Hb).
  injection Heq as -> ->. eauto.
Qed.

Lemma list_to_map_expenses_lookup (es : list Expense.t) k d :
  list_to_map (M := gmap string Expense.doc) ((fun e => (Expense.id e, expenseDoc e 1)) <$> es) !! k
  = Some d ->
  exists e, e ∈ es /\ Expense.id e = k /\ d = expenseDoc e 1.
Proof.
  intros Hk. apply elem_of_list_to_map_2, list_elem_of_fmap in Hk as (e & Heq & He).
  injection Heq as -> ->. eauto.
Qed.

(** [importData] without [replaceData], given records that carry no
    revision marker (as [exportAllData] yields them), ids that the store
    admits (not empty, not starting with an underscore) and finite numbers,
    returns; it leaves every stored budget and expense as it was, also one
    whose id a record of the import has, and what it adds are records of
    the import, under their own ids, with the fields they have: neither
    names nor the sign of values are checked. The id of every record of the
    import is an id of the store afterwards. *)
Theorem importData_merge (w : World) (bs : list Budget.t) (es : list Expense.t) :
  Forall (fun b => Budget._rev b = None
                   /\ admissibleId (Budget.id b) = true
                   /\ PrimFloat.is_finite (Budget.value b) = true) bs ->
  Forall (fun e => Expense._rev e = None
                   /\ admissibleId (Expense.id e) = true
                   /\ PrimFloat.is_finite (Expense.cost e) = true) es ->
  exists w',
    importData false bs es w = (Ok tt, w')
    /\ (forall k d, budgets w !! k = Some d -> budgets w' !! k = Some d)
    /\ (forall k d, expenses w !! k = Some d -> expenses w' !! k = Some d)
    /\ (forall k d, budgets w !! k = None -> budgets w' !! k = Some d ->
          exists b, b ∈ bs /\ Budget.id b = k /\ d = budgetDoc b 1)
    /\ (forall k d, expenses w !! k = None -> expenses w' !! k = Some d ->
          exists e, e ∈ es /\ Expense.id e = k /\ d = expenseDoc e 1)
    /\ (forall b, b ∈ bs -> is_Some (budgets w' !! Budget.id b))
    /\ (forall e, e ∈ es -> is_Some (expenses w' !! Expense.id e)).
Proof.
  intros Hbs Hes.
  apply (Forall_impl _ (fun b => Budget._rev b = None)) in Hbs; [| intros b H; apply H].
  apply (Forall_impl _ (fun e => Expense._rev e = None)) in Hes; [| intros e H; apply H].
  assert (Hb : bulkPut putBudget bs (budgets w)
               = budgets w ∪ list_to_map ((fun b => (Budget.id b, budgetDoc b 1)) <$> bs)).
  { change putBudget
      with (fun t : Budget.t => put Budget.doc_rev (Budget.id t) (Budget._rev t) (budgetDoc t)).
    apply bulkPut_unmarked. exact Hbs. }
  assert (He : bulkPut putExpense es (expenses w)
               = expenses w ∪ list_to_map ((fun e => (Expense.id e, expenseDoc e 1)) <$> es)).
  { change putExpense
      with (fun t : Expense.t => put Expense.doc_rev (Expense.id t) (Expense._rev t) (expenseDoc t)).
    apply bulkPut_unmarked. exact Hes. }
  eexists. split; [reflexivity |]. simpl. rewrite Hb, He.
  split; [intros k d Hk; apply lookup_union_Some_raw; auto |].
  split; [intros k d Hk; apply lookup_union_Some_raw; auto |].
  split.
  { intros k d Hnone Hk. apply lookup_union_Some_raw in Hk as [Hk | [_ Hk]]; [congruence |].
    apply list_to_map_budgets_lookup. exact Hk. }
  split.
  { intros k d Hnone Hk. apply lookup_union_Some_raw in Hk as [Hk | [_ Hk]]; [congruence |].
    apply list_to_map_expenses_lookup. exact Hk. }
  split.
  - intros b Hin. apply lookup_union_is_Some. right.
    apply not_eq_None_Some. intros Hnone. apply not_elem_of_list_to_map in Hnone.
    apply Hnone. rewrite <- list_fmap_compose. apply list_elem_of_fmap. exists b. auto.
  - intros e Hin. apply lookup_union_is_Some. right.
    apply not_eq_None_Some. intros Hnone. apply not_elem_of_list_to_map in Hnone.
    apply Hnone. rewrite <- list_fmap_compose. apply list_elem_of_fmap. exists e. auto.
Qed.


(** *** What [saveBudget] leaves alone, whatever its outcome *)

(** Whatever [saveBudget] is given: every budget other than the one that
    [findOne] yields for the id of the budget given and the one stored under
    the id generated for it is afterwards as it was; when the id given is
    not empty, the budget that [findOne] yields for it is stored under that
    id, so that every budget under another id is as it was, and at the empty
    id it is the first budget of the store that the call may have written.
    No expense is added or removed, and an expense keeps its cost, its
    description and its date, and its budget name unless it takes the name
    of the budget given; and when [saveBudget] throws, budgets and expenses
    are all as they were. *)
Theorem saveBudget_frame (w : World) (budget : Budget.t) :
  (forall k,
     (forall existing, findOne (idIs (Budget.id budget)) (budgets w) <> Some (k, existing)) ->
     k <> idAt env (ticks w) ->
     budgets (saveBudget env budget w).2 !! k = budgets w !! k)
  /\ (Budget.id budget <> "" ->
      forall k, k <> Budget.id budget -> k <> idAt env (ticks w) ->
        budgets (saveBudget env budget w).2 !! k = budgets w !! k)
  /\ (forall k e, expenses w !! k = Some e ->
        exists e', expenses (saveBudget env budget w).2 !! k = Some e'
          /\ Expense.doc_cost e' = Expense.doc_cost e
          /\ Expense.doc_description e' = Expense.doc_description e
          /\ Expense.doc_date e' = Expense.doc_date e
          /\ (Expense.doc_budget e' = Expense.doc_budget e
              \/ Expense.doc_budget e' = Budget.name budget))
  /\ (forall k, expenses w !! k = None -> expenses (saveBudget env budget w).2 !! k = None)
  /\ (forall e, (saveBudget env budget w).1 = Throw e ->
        budgets (saveBudget env budget w).2 = budgets w
        /\ expenses (saveBudget env budget w).2 = expenses w).
Proof.
  assert (Hsame : forall r w', saveBudget env budget w = (r, w') ->
            budgets w' = budgets w -> expenses w' = expenses w ->
            (forall k,
               (forall existing, findOne (idIs (Budget.id budget)) (budgets w)
                                 <> Some (k, existing)) ->
               k <> idAt env (ticks w) ->
               budgets w' !! k = budgets w !! k)
            /\ (forall k e, expenses w !! k = Some e ->
                  exists e', expenses w' !! k = Some e'
                    /\ Expense.doc_cost e' = Expense.doc_cost e
                    /\ Expense.doc_description e' = Expense.doc_description e
                    /\ Expense.doc_date e' = Expense.doc_date e
                    /\ (Expense.doc_budget e' = Expense.doc_budget e
                        \/ Expense.doc_budget e' = Budget.name budget))
            /\ (forall k, expenses w !! k = None -> expenses w' !! k = None)
            /\ (forall e, r = Throw e -> budgets w' = budgets w /\ expenses w' = expenses w)).
  { intros r w' _ Hb He. rewrite Hb, He.
    split; [auto |]. split; [intros k e Hk; exists e; auto 6 |]. split; [auto |].
    intros e _. split; reflexivity. }
  destruct (saveBudget env budget w) as [r w'] eqn:Hsave. simpl.
  cut ((forall k,
          (forall existing, findOne (idIs (Budget.id budget)) (budgets w)
                            <> Some (k, existing)) ->
          k <> idAt env (ticks w) ->
          budgets w' !! k = budgets w !! k)
       /\ (forall k e, expenses w !! k = Some e ->
             exists e', expenses w' !! k = Some e'
               /\ Expense.doc_cost e' = Expense.doc_cost e
               /\ Expense.doc_description e' = Expense.doc_description e
               /\ Expense.doc_date e' = Expense.doc_date e
               /\ (Expense.doc_budget e' = Expense.doc_budget e
                   \/ Expense.doc_budget e' = Budget.name budget))
       /\ (forall k, expenses w !! k = None -> expenses w' !! k = None)
       /\ (forall e, r = Throw e -> budgets w' = budgets w /\ expenses w' = expenses w)).
  { intros (Hb & Hrest). split; [exact Hb |]. split; [| exact Hrest].
    intros Hne k H1 H2. apply Hb; [| exact H2].
    intros existing Hf. apply findOne_idIs_found in Hf as [_ Hk]. exact (H1 (Hk Hne)). }
  destruct (saveBudget_guards budget w _ Hsave) as [(e & [= -> ->] & _) | (H1 & H2 & H3)].
  { apply (Hsame _ _ eq_refl); reflexivity. }
  rewrite saveBudget_unfold in Hsave by assumption. cbv zeta in Hsave.
  rewrite !normaliseMonth_id, !normaliseMonth_name, !normaliseMonth_value in Hsave.
  destruct (findOne (duplicateOf _) (budgets w)).
  { injection Hsave as <- <-. apply (Hsame _ _ eq_refl); reflexivity. }
  destruct (String.eqb (Budget.id budget) "newBudget").
  - destruct (putBudget _ (budgets w)) as [m|] eqn:Hput; injection Hsave as <- <-;
      [| apply (Hsame _ _ eq_refl); reflexivity].
    apply put_Some in Hput as [r' ->]. simpl.
    split; [intros k _ Hne; apply lookup_insert_ne; congruence |].
    split; [intros k e Hk; exists e; auto 6 |].
    split; [auto | discriminate].
  - destruct (findOne (idIs (Budget.id budget)) (budgets w)) as [[k0 existing]|] eqn:Hex.
    2:{ injection Hsave as <- <-. apply (Hsame _ _ eq_refl); reflexivity. }
    destruct (negb _); injection Hsave as <- <-; simpl.
    + split; [intros k Hne _; apply lookup_alter_ne; intros ->; exact (Hne existing eq_refl) |].
      split.
      { intros k e Hk. eexists. split; [apply cascade_lookup; exact Hk |].
        destruct (attributedTo _ _ (k, e)); simpl; auto 6. }
      split; [| discriminate].
      intros k Hk. rewrite foldl_alter_lookup by apply find_NoDup_keys.
      rewrite Hk. destruct (decide _); reflexivity.
    + split; [intros k Hne _; apply lookup_alter_ne; intros ->; exact (Hne existing eq_refl) |].
      split; [intros k e Hk; exists e; auto 6 |].
      split; [auto | discriminate].
Qed.


(** *** The budget of a saved expense, and what [deleteBudget] leaves alone *)

Lemma uniqueNames_delete (m : gmap string Budget.doc) k :
  uniqueNames m -> uniqueNames (delete k m).
Proof.
  intros Hu k1 d1 H1 k2 d2 H2. apply lookup_delete_Some in H1 as [_ H1], H2 as [_ H2].
  exact (Hu k1 d1 H1 k2 d2 H2).
Qed.

(** An expense that [saveExpense] has stored has a budget of its name in
    the month its date starts with, whenever those first seven characters
    are a valid month: the budget was there, or was created. The expense is
    stored under the id generated last when it is new, and else in the
    place of the expense that [findOne] yields for its id: the one stored
    under that id, unless the id is empty. *)
Theorem saveExpense_budget_exists (w w' : World) (expense : Expense.t) :
  saveExpense env expense w = (Ok tt, w') ->
  exists k d,
    expenses w' !! k = Some d
    /\ (if String.eqb (Expense.id expense) "newExpense"
        then k = idAt env (pred (ticks w'))
        else (exists old, findOne (idIs (Expense.id expense)) (expenses w) = Some (k, old))
             /\ (Expense.id expense <> "" -> k = Expense.id expense))
    /\ Expense.doc_description d = Expense.description expense
    /\ (moment_isValid env (String.substring 0 7 (Expense.doc_date d)) "YYYY-MM" = true ->
        exists kb b, budgets w' !! kb = Some b
          /\ Budget.doc_month b = String.substring 0 7 (Expense.doc_date d)
          /\ Budget.doc_name b = Expense.doc_budget d).
Proof.
  intros Hsave.
  destruct (saveExpense_written _ _ _ Hsave)
    as (name & k & r & w2 & _ & Hens & _ & Hb & Hexp & Hkey).
  cbv zeta in Hens, Hexp.
  set (resolved := Expense.set_budget name (normaliseDate env expense)) in *.
  exists k, (expenseDoc resolved r). split; [| split; [| split]].
  - rewrite Hexp. apply lookup_insert_eq.
  - destruct (String.eqb (Expense.id expense) "newExpense"); [exact Hkey |].
    split; [exact Hkey |]. destruct Hkey as [old Hold].
    apply (findOne_idIs_found _ _ _ _ Hold).
  - simpl. apply normaliseDate_description.
  - intros Hvalid. rewrite Hb. cbn [expenseDoc Expense.doc_date Expense.doc_budget] in *.
    unfold ensureBudget, bind, findOneBudget in Hens.
    destruct (findOne _ (budgets w)) as [[kb b]|] eqn:Hf.
    + injection Hens as <-. apply findOne_Some in Hf as [Hk Hs]. simpl in Hs.
      apply andb_true_iff in Hs as [Hm Hn]. apply String.eqb_eq in Hm, Hn.
      exists kb, b. auto.
    + apply saveBudget_new_Ok in Hens as (_ & r' & -> & _); [| reflexivity].
      eexists. eexists. split; [apply lookup_insert_eq |].
      cbn [budgetDoc Budget.doc_month Budget.doc_name].
      rewrite normaliseMonth_month, normaliseMonth_name.
      cbn [defaultBudget Budget.month Budget.name]. rewrite Hvalid. auto.
Qed.

(** Whatever id [deleteBudget] is given and whether it returns or throws:
    the expenses are as they were, and so is every budget other than the
    one that [findOne] yields for the id, which is the budget stored under
    the id unless the id is empty; budgets whose names were different
    within each month still are. When it returns, the budget that [findOne]
    yielded is no longer in the store; when it throws, on the null document
    or on the expenses of the budget, the store is as it was. *)
Theorem deleteBudget_frame (w : World) (k : string) :
  expenses (deleteBudget k w).2 = expenses w
  /\ (forall k',
        (forall existing, findOne (idIs k) (budgets w) <> Some (k', existing)) ->
        budgets (deleteBudget k w).2 !! k' = budgets w !! k')
  /\ (k <> "" -> forall k', k' <> k -> budgets (deleteBudget k w).2 !! k' = budgets w !! k')
  /\ (uniqueNames (budgets w) -> uniqueNames (budgets (deleteBudget k w).2))
  /\ ((deleteBudget k w).1 = Ok tt ->
      exists k0 existing,
        findOne (idIs k) (budgets w) = Some (k0, existing)
        /\ (k <> "" -> k0 = k)
        /\ budgets (deleteBudget k w).2 = delete k0 (budgets w))
  /\ (forall e, (deleteBudget k w).1 = Throw e ->
        (deleteBudget k w).2 = w /\ (e = NullDocument \/ e = BudgetHasExpenses)).
Proof.
  cut (expenses (deleteBudget k w).2 = expenses w
       /\ (forall k',
             (forall existing, findOne (idIs k) (budgets w) <> Some (k', existing)) ->
             budgets (deleteBudget k w).2 !! k' = budgets w !! k')
       /\ (uniqueNames (budgets w) -> uniqueNames (budgets (deleteBudget k w).2))
       /\ ((deleteBudget k w).1 = Ok tt ->
           exists k0 existing,
             findOne (idIs k) (budgets w) = Some (k0, existing)
             /\ (k <> "" -> k0 = k)
             /\ budgets (deleteBudget k w).2 = delete k0 (budgets w))
       /\ (forall e, (deleteBudget k w).1 = Throw e ->
             (deleteBudget k w).2 = w /\ (e = NullDocument \/ e = BudgetHasExpenses))).
  { intros (He & Hb & Hrest). split; [exact He |]. split; [exact Hb |]. split; [| exact Hrest].
    intros Hne k' Hk'. apply Hb. intros existing Hf.
    apply findOne_idIs_found in Hf as [_ Hk]. exact (Hk' (Hk Hne)). }
  unfold deleteBudget, bind, findOneBudget, findExpenses, findBudgets.
  destruct (findOne (idIs k) (budgets w)) as [[k0 b]|] eqn:Hf.
  - destruct (Nat.ltb 0 _); simpl; [destruct (Nat.eqb _ 1); simpl |].
    + split; [reflexivity |]. split; [reflexivity |]. split; [auto |].
      split; [discriminate |]. intros e [= <-]. auto.
    + split; [reflexivity |].
      split; [intros k' Hne; apply lookup_delete_ne; intros ->; exact (Hne b eq_refl) |].
      split; [apply uniqueNames_delete |].
      split; [| discriminate]. intros _. exists k0, b.
      split; [reflexivity |]. split; [| reflexivity].
      apply (findOne_idIs_found _ _ _ _ Hf).
    + split; [reflexivity |].
      split; [intros k' Hne; apply lookup_delete_ne; intros ->; exact (Hne b eq_refl) |].
      split; [apply uniqueNames_delete |].
      split; [| discriminate]. intros _. exists k0, b.
      split; [reflexivity |]. split; [| reflexivity].
      apply (findOne_idIs_found _ _ _ _ Hf).
  - simpl. split; [reflexivity |]. split; [reflexivity |]. split; [auto |].
    split; [discriminate |]. intros e [= <-]. auto.
Qed.


End Properties.


(** ** Properties of the settings *)

Section SettingsProperties.

Lemma settingKey_inj a b : settingKey a = settingKey b -> a = b.
Proof. unfold settingKey. intros H. apply (String.app_inj "setting_") in H. exact H. Qed.

Lemma orEmpty_Some v : orEmpty (Some v) = v.
Proof.
  unfold orEmpty. destruct (String.eqb v "") eqn:E; [| reflexivity].
  apply String.eqb_eq in E. congruence.
Qed.

(** A setting that has been saved is what [fetchSetting] yields for its
    name, the other settings are what they were, and a setting never saved
    is the empty string. [updateSyncDate] of a connection that is alive
    saves the time of the clock as the setting of the last
    synchronisation and touches no other setting, and [updateSyncDate] of a
    connection that is not alive saves nothing. *)
Theorem settings_round_trip (env : Env) (store : gmap string string) :
  (forall setting,
     fetchSetting (Setting.name setting) (saveSetting setting store) = Setting.value setting
     /\ forall other, other <> Setting.name setting ->
          fetchSetting other (saveSetting setting store) = fetchSetting other store)
  /\ (forall name, fetchSetting name ∅ = "")
  /\ fetchSetting "lastSyncDate" (updateSyncDate env true store)
     = moment_format env "YYYY-MM-DD HH:mm:ss"
  /\ (forall alive other, other <> "lastSyncDate" ->
        fetchSetting other (updateSyncDate env alive store) = fetchSetting other store)
  /\ updateSyncDate env false store = store.
Proof.
  assert (Hsave : forall setting,
    fetchSetting (Setting.name setting) (saveSetting setting store) = Setting.value setting
    /\ forall other, other <> Setting.name setting ->
         fetchSetting other (saveSetting setting store) = fetchSetting other store).
  { intros setting. unfold fetchSetting, saveSetting. split.
    - rewrite lookup_insert_eq. apply orEmpty_Some.
    - intros other Hne. rewrite lookup_insert_ne; [reflexivity |].
      intros H. apply settingKey_inj in H. congruence. }
  split; [exact Hsave |]. split; [reflexivity |]. split; [| split; [| reflexivity]].
  - apply (Hsave (Setting.mk "lastSyncDate" _)).
  - intros [] other Hne; [| reflexivity].
    apply (Hsave (Setting.mk "lastSyncDate" _)). exact Hne.
Qed.

End SettingsProperties.

(** ** Properties of the layout component *)

Section UIProperties.

Variable env : Env.
Variable nextMonth previousMonth : string.

(** The month [loadData] loads is the one whose budgets it would create. *)
Lemma month_test (monthToLoad : option string) (monthInView month : string) :
  (truthy monthToLoad && equals monthToLoad month)
  || (negb (truthy monthToLoad) && String.eqb monthInView month)
  = String.eqb (orElse monthToLoad monthInView) month.
Proof.
  destruct monthToLoad as [v|]; simpl; [| reflexivity].
  destruct (String.eqb v ""); simpl; [reflexivity |]. apply orb_false_r.
Qed.

Lemma copyBudgets_returns originalMonth destinationMonth w :
  copyBudgets env originalMonth destinationMonth w
  = (Ok tt, (copyBudgets env originalMonth destinationMonth w).2).
Proof.
  pose proof (copyBudgets_unfold env originalMonth destinationMonth w) as H.
  cbv zeta in H. rewrite H. reflexivity.
Qed.

(** One run of the body of [loadData]. *)
Lemma loadDataWith_run again options w s st al rt :
  Layout.loadDataWith env nextMonth previousMonth again options (mkApp w s st al rt) =
  let month := orElse (monthToLoad options) (LayoutState.monthInView st) in
  let cleared :=
    LayoutState.set_cleared (fetchSetting "currency" s) (LayoutState.set_isLoading true st) in
  let shown :=
    match fetchBudgets env month w, fetchExpenses env month w with
    | (Ok bs, _), (Ok es, _) =>
        LayoutState.set_isLoading false
          (LayoutState.set_loaded bs es (fetchSetting "lastSyncDate" s) cleared)
    | _, _ => cleared
    end in
  if Nat.eqb (length (budgetsOfMonth w month)) 0 && unset (isComingFromEmptyState options) then
    if String.eqb month nextMonth then
      again (mkLoadOptions (monthToLoad options) None (Some true))
            (mkApp (copyBudgets env (moment_format env "YYYY-MM") nextMonth w).2 s cleared al false)
    else if String.eqb month (moment_format env "YYYY-MM") then
      again (mkLoadOptions (monthToLoad options) None (Some true))
            (mkApp (copyBudgets env previousMonth (moment_format env "YYYY-MM") w).2
                   s cleared al false)
    else (Ok tt, mkApp w s shown al true)
  else (Ok tt, mkApp w s shown al true).
Proof.
  unfold Layout.loadDataWith, UI.bind, UI.call, Layout.clearReloadTimeout, Layout.getSetting,
    Layout.ensureDBConnection, Layout.getState, Layout.showLoading, Layout.setState, UI.ret.
  cbn [db store state alerts reloadTimeout with_db with_state with_reloadTimeout
       fetchBudgets fetchExpenses bind findBudgets findExpenses ret].
  rewrite !month_test.
  rewrite length_sort, length_map. fold (budgetsOfMonth w
    (orElse (monthToLoad options) (LayoutState.monthInView st))).
  cbv zeta.
  destruct (Nat.eqb _ 0 && unset _); [| reflexivity].
  destruct (String.eqb _ nextMonth).
  - rewrite copyBudgets_returns. reflexivity.
  - destruct (String.eqb _ (moment_format env "YYYY-MM")); [| reflexivity].
    rewrite copyBudgets_returns. reflexivity.
Qed.


(** A call with [isComingFromEmptyState] set makes no further call. *)
Lemma loadDataWith_flagged again again' options a :
  isComingFromEmptyState options = Some true ->
  Layout.loadDataWith env nextMonth previousMonth again options a
  = Layout.loadDataWith env nextMonth previousMonth again' options a.
Proof.
  intros Hflag. destruct a as [w s st al rt]. rewrite !loadDataWith_run. cbv zeta.
  rewrite Hflag. simpl. rewrite andb_false_r. reflexivity.
Qed.

(** [loadData] is the function that its body defines. *)
Lemma loadData_unfold options a :
  Layout.loadData env nextMonth previousMonth options a
  = Layout.loadDataWith env nextMonth previousMonth
      (Layout.loadData env nextMonth previousMonth) options a.
Proof.
  unfold Layout.loadData. destruct a as [w s st al rt]. rewrite !loadDataWith_run. cbv zeta.
  destruct (Nat.eqb _ 0 && unset _); [| reflexivity].
  destruct (String.eqb _ nextMonth); [apply loadDataWith_flagged; reflexivity |].
  destruct (String.eqb _ (moment_format env "YYYY-MM")); [| reflexivity].
  apply loadDataWith_flagged; reflexivity.
Qed.

(** The store after [loadData] of a month. *)
Lemma loadData_run options w s st al rt :
  let month := orElse (monthToLoad options) (LayoutState.monthInView st) in
  let w' :=
    if Nat.eqb (length (budgetsOfMonth w month)) 0 && unset (isComingFromEmptyState options) then
      if String.eqb month nextMonth
      then (copyBudgets env (moment_format env "YYYY-MM") nextMonth w).2
      else if String.eqb month (moment_format env "YYYY-MM")
      then (copyBudgets env previousMonth (moment_format env "YYYY-MM") w).2
      else w
    else w in
  Layout.loadData env nextMonth previousMonth options (mkApp w s st al rt)
  = (Ok tt,
     mkApp w' s
       (LayoutState.mk false (LayoutState.isShowingNotification st)
          (LayoutState.notificationMessage st) (LayoutState.monthInView st)
          (fetchSetting "lastSyncDate" s)
          (sort (sortByName env) (map Budget.toJSON (budgetsOfMonth w' month)))
          (rev (sort (sortByDate env)
             (map Expense.toJSON
                (find (fun kd => dateInMonth month (Expense.doc_date kd.2)) (expenses w')))))
          (fetchSetting "currency" s))
       al true).
Proof.
  intros month w'. unfold Layout.loadData. rewrite loadDataWith_run. cbv zeta.
  fold month. subst w'.
  destruct (Nat.eqb _ 0 && unset _); [| reflexivity].
  destruct (String.eqb month nextMonth).
  - rewrite loadDataWith_run. cbv zeta. simpl. rewrite andb_false_r. reflexivity.
  - destruct (String.eqb month (moment_format env "YYYY-MM")); [| reflexivity].
    rewrite loadDataWith_run. cbv zeta. simpl. rewrite andb_false_r. reflexivity.
Qed.

Lemma copyBudgets_keeps originalMonth destinationMonth w :
  expenses (copyBudgets env originalMonth destinationMonth w).2 = expenses w
  /\ forall k d, budgets w !! k = Some d ->
       budgets (copyBudgets env originalMonth destinationMonth w).2 !! k = Some d.
Proof.
  pose proof (copyBudgets_unfold env originalMonth destinationMonth w) as H.
  cbv zeta in H. rewrite H. simpl. split; [reflexivity |].
  intros k d Hk.
  change putBudget
    with (fun t : Budget.t => put Budget.doc_rev (Budget.id t) (Budget._rev t) (budgetDoc t)).
  rewrite bulkPut_unmarked.
  - apply lookup_union_Some_raw. left. exact Hk.
  - apply Forall_forall. intros c Hc. apply list_elem_of_lookup in Hc as [i Hi].
    apply list_lookup_imap_Some in Hi as (b & _ & ->). reflexivity.
Qed.

Lemma budgetsOfMonth_none w month :
  Nat.eqb (length (budgetsOfMonth w month)) 0 = true <->
  forall k d, budgets w !! k = Some d -> Budget.doc_month d <> month.
Proof.
  unfold budgetsOfMonth. split.
  - intros Hlen k d Hk Hm. apply Nat.eqb_eq in Hlen.
    assert (Nat.ltb 0 (length (find (fun kd : string * Budget.doc =>
              String.eqb (Budget.doc_month kd.2) month) (budgets w))) = true) as Hpos.
    { apply (find_nonempty _ _ k d Hk). simpl. apply String.eqb_eq. exact Hm. }
    rewrite Hlen in Hpos. discriminate.
  - intros Hnone. rewrite find_empty; [reflexivity |].
    intros k d Hk. simpl. apply String.eqb_neq. eauto.
Qed.

(** [loadData] returns, whatever its options. Afterwards the component
    shows the month it was asked for (the month in view when none was
    given): its budgets and its expenses are those that [fetchBudgets] and
    [fetchExpenses] yield for that month from the store as it is then; it
    is not loading; its currency and the date of its last synchronisation
    are the settings; a reload is scheduled. The month in view, the
    settings and the dialogs shown are as they were, no stored budget has
    changed or gone, and the expenses are as they were. *)
Theorem loadData_shows_month (options : LoadOptions) (a : App) :
  exists a',
    Layout.loadData env nextMonth previousMonth options a = (Ok tt, a')
    /\ (let month := orElse (monthToLoad options) (LayoutState.monthInView (state a)) in
        fetchBudgets env month (db a') = (Ok (LayoutState.budgets (state a')), db a')
        /\ fetchExpenses env month (db a') = (Ok (LayoutState.expenses (state a')), db a'))
    /\ LayoutState.isLoading (state a') = false
    /\ LayoutState.currency (state a') = fetchSetting "currency" (store a)
    /\ LayoutState.lastSyncDate (state a') = fetchSetting "lastSyncDate" (store a)
    /\ LayoutState.monthInView (state a') = LayoutState.monthInView (state a)
    /\ reloadTimeout a' = true
    /\ store a' = store a
    /\ alerts a' = alerts a
    /\ expenses (db a') = expenses (db a)
    /\ (forall k d, budgets (db a) !! k = Some d -> budgets (db a') !! k = Some d).
Proof.
  destruct a as [w s st al rt]. eexists. split; [apply loadData_run |]. simpl.
  split; [split; reflexivity |].
  repeat (split; [reflexivity |]).
  destruct (Nat.eqb _ 0 && unset _); [| auto].
  destruct (String.eqb _ nextMonth); [apply copyBudgets_keeps |].
  destruct (String.eqb _ (moment_format env "YYYY-MM")); [apply copyBudgets_keeps | auto].
Qed.

(** [loadData] writes to the store in one case only: the month it loads
    has no budget, the call is not the one it makes of itself, and the month
    is the next month or the current one; the budgets of the current month
    are then copied to the next, or those of the previous month to the
    current. In every other case the store is as it was. *)
Theorem loadData_rollover (options : LoadOptions) (a : App) :
  let month := orElse (monthToLoad options) (LayoutState.monthInView (state a)) in
  let currentMonth := moment_format env "YYYY-MM" in
  let after := db (Layout.loadData env nextMonth previousMonth options a).2 in
  ((exists k d, budgets (db a) !! k = Some d /\ Budget.doc_month d = month)
   \/ isComingFromEmptyState options = Some true
   \/ (month <> nextMonth /\ month <> currentMonth) ->
   after = db a)
  /\ ((forall k d, budgets (db a) !! k = Some d -> Budget.doc_month d <> month) ->
      isComingFromEmptyState options <> Some true ->
      (month = nextMonth -> after = (copyBudgets env currentMonth nextMonth (db a)).2)
      /\ (month <> nextMonth -> month = currentMonth ->
          after = (copyBudgets env previousMonth currentMonth (db a)).2)).
Proof.
  intros month currentMonth after. subst after.
  destruct a as [w s st al rt]. rewrite loadData_run. cbv zeta. simpl db. simpl state in month.
  fold month. fold currentMonth. split.
  - intros [(k & d & Hk & Hm) | [Hflag | [Hn Hc]]].
    + destruct (Nat.eqb (length (budgetsOfMonth w month)) 0) eqn:Hlen; [| reflexivity].
      exfalso. exact (proj1 (budgetsOfMonth_none w month) Hlen k d Hk Hm).
    + rewrite Hflag. simpl. rewrite andb_false_r. reflexivity.
    + apply String.eqb_neq in Hn, Hc. rewrite Hn, Hc.
      destruct (Nat.eqb _ 0 && unset _); reflexivity.
  - intros Hnone Hflag.
    rewrite (proj2 (budgetsOfMonth_none w month) Hnone).
    assert (unset (isComingFromEmptyState options) = true) as ->.
    { destruct (isComingFromEmptyState options) as [[]|]; simpl; congruence. }
    simpl. split.
    + intros Hn. apply String.eqb_eq in Hn. rewrite Hn. reflexivity.
    + intros Hn Hc. apply String.eqb_neq in Hn. apply String.eqb_eq in Hc.
      rewrite Hn, Hc. reflexivity.
Qed.

(** [loadData] keeps the names of the budgets of a month different, and
    the token of a budget not yet created out of the ids: the copies it
    makes go to a month that has no budget. *)
Theorem loadData_keeps_names_unique (options : LoadOptions) (a : App) :
  uniqueNames (budgets (db a)) ->
  budgets (db a) !! "newBudget" = None ->
  uniqueNames (budgets (db (Layout.loadData env nextMonth previousMonth options a).2))
  /\ budgets (db (Layout.loadData env nextMonth previousMonth options a).2) !! "newBudget" = None.
Proof.
  intros Hu Hsent. destruct a as [w s st al rt]. rewrite loadData_run. cbv zeta. simpl in *.
  assert (Hcopy : forall originalMonth destinationMonth,
    (forall k d, budgets w !! k = Some d -> Budget.doc_month d <> destinationMonth) ->
    uniqueNames (budgets (copyBudgets env originalMonth destinationMonth w).2)
    /\ budgets (copyBudgets env originalMonth destinationMonth w).2 !! "newBudget" = None).
  { intros originalMonth destinationMonth Hempty.
    pose proof (copyBudgets_unfold env originalMonth destinationMonth w) as Hc.
    cbv zeta in Hc. rewrite Hc. simpl.
    destruct (clones_distinct env w originalMonth destinationMonth Hu) as (Hnd & Hall & _).
    apply (bulkPut_unique destinationMonth); auto.
    intros k d Hk Hm. exfalso. exact (Hempty k d Hk Hm). }
  destruct (Nat.eqb (length (budgetsOfMonth w _)) 0) eqn:Hlen; simpl; [| auto].
  pose proof (proj1 (budgetsOfMonth_none _ _) Hlen) as Hnone.
  destruct (unset _); [| auto].
  destruct (String.eqb _ nextMonth) eqn:Hn.
  - apply String.eqb_eq in Hn. rewrite Hn in Hnone. apply Hcopy. exact Hnone.
  - destruct (String.eqb _ (moment_format env "YYYY-MM")) eqn:Hc; [| auto].
    apply String.eqb_eq in Hc. rewrite Hc in Hnone. apply Hcopy. exact Hnone.
Qed.


Lemma loadData_returns options a :
  Layout.loadData env nextMonth previousMonth options a
  = (Ok tt, (Layout.loadData env nextMonth previousMonth options a).2).
Proof. destruct a as [w s st al rt]. rewrite loadData_run. reflexivity. Qed.

Lemma guarded_reports {A} (c : M A) options a :
  reports c (Layout.loadData env nextMonth previousMonth options)
    (UI.tryCatch
       (UI.bind (Layout.ensureDBConnection None) (fun _ =>
        UI.bind (UI.call c) (fun _ =>
        UI.bind (Layout.loadData env nextMonth previousMonth options) (fun _ =>
        UI.ret true))))
       (Layout.alertAnd false)) a.
Proof.
  unfold reports, UI.tryCatch, UI.bind, UI.call, Layout.ensureDBConnection, UI.ret.
  destruct (c (db a)) as [[x|e] w]; [| reflexivity].
  rewrite loadData_returns. reflexivity.
Qed.

(** The methods of the component that write budgets and expenses never
    throw. Each returns [true], after [loadData], when the function of [DB]
    it calls has returned; when that function throws, it shows one dialog
    titled "Error" with the message of the error and returns [false]: the
    state of the component is then as it was, nothing is reloaded, and the
    store is as the function of [DB] left it. *)
Theorem Layout_writes_report (a : App) :
  (forall budget,
     reports (saveBudget env budget)
       (Layout.loadData env nextMonth previousMonth (mkLoadOptions None None None))
       (Layout.saveBudget env nextMonth previousMonth budget) a)
  /\ (forall expense,
        reports (saveExpense env expense)
          (Layout.loadData env nextMonth previousMonth (mkLoadOptions None None None))
          (Layout.saveExpense env nextMonth previousMonth expense) a)
  /\ (forall budgetId,
        reports (deleteBudget budgetId)
          (Layout.loadData env nextMonth previousMonth (mkLoadOptions None None None))
          (Layout.deleteBudget env nextMonth previousMonth budgetId) a)
  /\ (forall expenseId,
        reports (deleteExpense expenseId)
          (Layout.loadData env nextMonth previousMonth (mkLoadOptions None None None))
          (Layout.deleteExpense env nextMonth previousMonth expenseId) a)
  /\ (forall replaceData budgets expenses,
        reports (importData replaceData budgets expenses)
          (Layout.loadData env nextMonth previousMonth (mkLoadOptions None (Some true) None))
          (Layout.importData env nextMonth previousMonth replaceData budgets expenses) a).
Proof.
  repeat split; intros; apply guarded_reports.
Qed.

(** [changeMonthInView] refuses a month after the next one, in the order
    of strings: it shows a warning and changes nothing else. Any other
    month becomes the month in view, and the component shows its budgets
    and expenses. *)
Theorem changeMonthInView_bounds (newMonth : string) (a : App) :
  (String.ltb nextMonth newMonth = true ->
   Layout.changeMonthInView env nextMonth previousMonth newMonth a
   = (Ok tt,
      with_alerts (alerts a ++ [("Warning", Text "Cannot travel further into the future!")]) a))
  /\ (String.ltb nextMonth newMonth = false ->
      exists a',
        Layout.changeMonthInView env nextMonth previousMonth newMonth a = (Ok tt, a')
        /\ LayoutState.monthInView (state a') = newMonth
        /\ fetchBudgets env newMonth (db a') = (Ok (LayoutState.budgets (state a')), db a')
        /\ fetchExpenses env newMonth (db a') = (Ok (LayoutState.expenses (state a')), db a')
        /\ alerts a' = alerts a).
Proof.
  unfold Layout.changeMonthInView. split; intros Hcmp; rewrite Hcmp; [reflexivity |].
  destruct a as [w s st al rt].
  unfold UI.bind, Layout.setState. cbn [state with_state db store alerts reloadTimeout].
  eexists. split; [apply loadData_run |].
  assert (Hm : orElse (Some newMonth)
                 (LayoutState.monthInView (LayoutState.set_monthInView newMonth st)) = newMonth).
  { simpl. destruct (String.eqb newMonth ""); reflexivity. }
  cbn [monthToLoad state db alerts]. rewrite Hm.
  split; [reflexivity |]. split; [reflexivity |]. split; reflexivity.
Qed.

Lemma copyBudgets_nothing originalMonth destinationMonth w :
  (forall k d, budgets w !! k = Some d -> Budget.doc_month d <> originalMonth) ->
  budgets (copyBudgets env originalMonth destinationMonth w).2 = budgets w
  /\ expenses (copyBudgets env originalMonth destinationMonth w).2 = expenses w.
Proof.
  intros Hnone.
  pose proof (copyBudgets_unfold env originalMonth destinationMonth w) as H.
  cbv zeta in H. rewrite H. simpl. split; [| reflexivity].
  unfold budgetsOfMonth. rewrite find_empty; [reflexivity |].
  intros k d Hk. simpl. apply String.eqb_neq. eauto.
Qed.

(** [deleteAllData] of the component never throws and returns [true]:
    afterwards the store holds no budget and no expense and the component
    shows none. The settings are as they were. *)
Theorem Layout_deleteAllData_empties (a : App) :
  exists a',
    Layout.deleteAllData env nextMonth previousMonth a = (Ok true, a')
    /\ budgets (db a') = ∅
    /\ expenses (db a') = ∅
    /\ LayoutState.budgets (state a') = []
    /\ LayoutState.expenses (state a') = []
    /\ store a' = store a
    /\ alerts a' = alerts a.
Proof.
  unfold Layout.deleteAllData, UI.tryCatch, UI.bind, UI.call, UI.ret.
  rewrite loadData_returns.
  destruct (Layout.loadData env nextMonth previousMonth _ a).2 as [w1 s1 st1 al1 rt1] eqn:Hload.
  assert (Hkeep : s1 = store a /\ al1 = alerts a).
  { destruct a as [w s st al rt]. rewrite loadData_run in Hload. simpl in Hload.
    injection Hload as _ <- _ <- _. auto. }
  destruct Hkeep as [-> ->].
  unfold with_db, deleteAllData, Layout.removeDatabase.
  cbn [db store state alerts reloadTimeout ticks].
  rewrite loadData_run. cbv zeta.
  set (month := orElse _ _).
  set (empty := mkWorld ∅ ∅ (ticks w1)).
  assert (Hcopy : forall o d, budgets (copyBudgets env o d empty).2 = ∅
                              /\ expenses (copyBudgets env o d empty).2 = ∅).
  { intros o d. apply copyBudgets_nothing. intros k x Hk. simpl in Hk.
    rewrite lookup_empty in Hk. discriminate. }
  set (w' := if _ : bool then _ else _).
  assert (Hw' : budgets w' = ∅ /\ expenses w' = ∅).
  { subst w'. destruct (Nat.eqb _ 0 && unset _); [| auto].
    destruct (String.eqb month nextMonth); [apply Hcopy |].
    destruct (String.eqb month (moment_format env "YYYY-MM")); [apply Hcopy | auto]. }
  destruct Hw' as [Hb He].
  eexists. split; [reflexivity |]. cbn [db state store alerts LayoutState.budgets
    LayoutState.expenses].
  split; [exact Hb |]. split; [exact He |].
  unfold budgetsOfMonth, find, documents. rewrite Hb, He, !map_to_list_empty.
  repeat split; reflexivity.
Qed.

(** [saveSetting] of the component never throws and returns [true]: the
    setting is saved, and the currency and the date of the last
    synchronisation that the component shows afterwards are the settings
    as they are then. *)
Theorem Layout_saveSetting_shown (setting : Setting.t) (a : App) :
  exists a',
    Layout.saveSetting env nextMonth previousMonth setting a = (Ok true, a')
    /\ store a' = saveSetting setting (store a)
    /\ fetchSetting (Setting.name setting) (store a') = Setting.value setting
    /\ LayoutState.currency (state a') = fetchSetting "currency" (store a')
    /\ LayoutState.lastSyncDate (state a') = fetchSetting "lastSyncDate" (store a')
    /\ alerts a' = alerts a.
Proof.
  unfold Layout.saveSetting, UI.tryCatch, UI.bind, Layout.ensureDBConnection, UI.ret.
  destruct a as [w s st al rt]. unfold with_store. cbn [db store state alerts reloadTimeout].
  rewrite loadData_run. cbv zeta.
  eexists. split; [reflexivity |]. cbn [store state alerts LayoutState.currency
    LayoutState.lastSyncDate].
  split; [reflexivity |]. split; [| repeat split; reflexivity].
  unfold fetchSetting, saveSetting. rewrite lookup_insert_eq. apply orEmpty_Some.
Qed.

End UIProperties.

(** ** The properties at the sample store *)

Lemma saveBudget_Total_rejected_witness :
  saveBudget Sample.env (Budget.mk "newBudget" "Total" "2024-05" 10%float None) Sample.world
  = (Throw ReservedBudgetName, Sample.world).
Proof.
  apply (saveBudget_Total_rejected Sample.env Sample.world
           (Budget.mk "newBudget" "Total" "2024-05" 10%float None)).
  reflexivity.
Defined.

Lemma deleteBudget_referenced_witness :
  (~ hasTwin Sample.world "b1" Sample.food ->
   deleteBudget "b1" Sample.world = (Throw BudgetHasExpenses, Sample.world))
  /\ (hasTwin Sample.world "b1" Sample.food ->
      deleteBudget "b1" Sample.world
      = (Ok tt, with_budgets (delete "b1" (budgets Sample.world)) Sample.world)
      /\ budgets (deleteBudget "b1" Sample.world).2 !! "b1" = None).
Proof.
  apply (deleteBudget_referenced Sample.world "b1" Sample.food).
  - reflexivity.
  - exists "e1", Sample.lunch. repeat split; reflexivity.
Defined.


Lemma saveBudget_keeps_names_unique_witness :
  let input := Budget.mk "b2" "Books" "2024-05" 40%float None in
  let w' := (saveBudget Sample.env input Sample.world).2 in
  uniqueNames (budgets w') /\ budgets w' !! "newBudget" = None.
Proof.
  cbv zeta.
  apply (proj2 (saveBudget_keeps_names_unique Sample.env Sample.world
                  (Budget.mk "b2" "Books" "2024-05" 40%float None))).
  - apply (bool_decide_unpack _). vm_compute. reflexivity.
  - reflexivity.
  - intros k existing H. vm_compute in H. injection H as <- <-. reflexivity.
  - vm_compute. reflexivity.
Defined.

(** C1 as stated fails in three ways. An update that names another month
    than the one its budget is stored with is checked against the month it
    names and written to the month it is stored with: budget b2 of May is
    renamed to "Food" beside b1. A store that holds two rows of one budget
    still holds them after a save that returns. And a budget stored under
    the token "newBudget" is left out of the check of a new budget. *)
Lemma saveBudget_uniqueness_counterexample :
  (uniqueNames (budgets Sample.world)
   /\ let r := saveBudget Sample.env (Budget.mk "b2" "Food" "2024-06" 40%float None) Sample.world in
      r.1 = Ok tt
      /\ budgets r.2 !! "b1" = Some (Budget.mkDoc "Food" "2024-05" 250%float 1)
      /\ budgets r.2 !! "b2" = Some (Budget.mkDoc "Food" "2024-05" 40%float 2)
      /\ ~ uniqueNames (budgets r.2))
  /\ (let r := saveBudget Sample.env (Budget.mk "newBudget" "Books" "2024-05" 30%float None) Sample.twins in
      r.1 = Ok tt
      /\ budgets r.2 !! "b1" = Some Sample.food
      /\ budgets r.2 !! "b4" = Some Sample.food
      /\ ~ uniqueNames (budgets r.2))
  /\ (uniqueNames (budgets Sample.sentinel)
      /\ let r := saveBudget Sample.env (Budget.mk "newBudget" "Food" "2024-05" 30%float None) Sample.sentinel in
         r.1 = Ok tt
         /\ budgets r.2 !! "newBudget" = Some Sample.food
         /\ budgets r.2 !! "1715950000000:0.7" = Some (Budget.mkDoc "Food" "2024-05" 30%float 1)
         /\ ~ uniqueNames (budgets r.2)).
Proof.
  cbv zeta. repeat apply conj;
    solve [ vm_compute; reflexivity
          | apply (bool_decide_unpack _); vm_compute; reflexivity
          | apply (bool_decide_eq_false_1 _); vm_compute; reflexivity ].
Qed.

Lemma saveBudget_rename_cascade_witness :
  let input := Budget.mk "b1" "Groceries" "2024-05" 250%float None in
  let w' := (saveBudget Sample.env input Sample.world).2 in
  (exists e', expenses w' !! "e1" = Some e'
     /\ Expense.doc_budget e' = "Groceries"
     /\ Expense.doc_cost e' = 12.5%float
     /\ Expense.doc_description e' = "Lunch"
     /\ Expense.doc_date e' = "2024-05-03")
  /\ expenses w' !! "e2" = Some Sample.cinema
  /\ expenses w' !! "e3" = Some Sample.june
  /\ expenses w' !! "e4" = None.
Proof.
  cbv zeta.
  destruct (saveBudget_rename_cascade Sample.env Sample.world
              (saveBudget Sample.env (Budget.mk "b1" "Groceries" "2024-05" 250%float None)
                 Sample.world).2
              (Budget.mk "b1" "Groceries" "2024-05" 250%float None) Sample.food
              ltac:(simpl; discriminate) eq_refl ltac:(simpl; discriminate)
              ltac:(vm_compute; reflexivity))
    as [Hin Hout].
  split; [| split; [| split]].
  - apply (proj1 (Hin "e1" Sample.lunch eq_refl)); reflexivity.
  - vm_compute. reflexivity.
  - apply (proj2 (Hin "e3" Sample.june eq_refl)). reflexivity.
  - apply Hout. reflexivity.
Defined.

Lemma saveExpense_defaults_to_Misc_witness :
  let expense := Expense.mk "newExpense" 4.5%float "Coffee" "" "2024-07-02" None in
  let w' := (saveExpense Sample.env expense Sample.world).2 in
  (exists d, expenses w' !! idAt Sample.env (pred (ticks w')) = Some d
     /\ Expense.doc_budget d = "Misc"
     /\ Expense.doc_description d = "Coffee"
     /\ Expense.doc_cost d = 4.5%float
     /\ Expense.doc_date d = "2024-07-02")
  /\ (((exists k b, budgets Sample.world !! k = Some b
          /\ Budget.doc_month b = "2024-07" /\ Budget.doc_name b = "Misc")
       /\ budgets w' = budgets Sample.world)
      \/ ((forall k b, budgets Sample.world !! k = Some b ->
             ~ (Budget.doc_month b = "2024-07" /\ Budget.doc_name b = "Misc"))
          /\ budgets Sample.world !! idAt Sample.env 0 = None
          /\ budgets w' = <[idAt Sample.env 0 := Budget.mkDoc "Misc" "2024-07" 100%float 1]>
                            (budgets Sample.world)))
  /\ (Sample.isValid "2024-07" "YYYY-MM" = true ->
      exists k b, budgets w' !! k = Some b
        /\ Budget.doc_month b = "2024-07" /\ Budget.doc_name b = "Misc").
Proof.
  cbv zeta.
  apply (saveExpense_defaults_to_Misc Sample.env Sample.world
           (saveExpense Sample.env
              (Expense.mk "newExpense" 4.5%float "Coffee" "" "2024-07-02" None) Sample.world).2
           (Expense.mk "newExpense" 4.5%float "Coffee" "" "2024-07-02" None)).
  - reflexivity.
  - reflexivity.
  - apply (bool_decide_unpack
             (map_Forall (fun _ d => Expense.doc_description d <> "Coffee")
                (expenses Sample.world))).
    vm_compute. reflexivity.
  - vm_compute. reflexivity.
Defined.

(** C4, at a date that moment.js accepts while it rejects its first seven
    characters as a month. With a space before the year the date
    " 2024-03-09" passes the validity check of [saveExpense] (the year is
    looked for past the space), and its first seven characters " 2024-0" do
    not pass that of [saveBudget] (the month found is 0). The expense is
    stored with that date and budget "Misc"; the budget "Misc" is created
    for the current month, May 2024, and no budget exists for " 2024-0",
    the month that the expense is checked against: the budget for that
    month, which [saveExpense] sets out to create, is not there. *)
Theorem saveExpense_Misc_leading_space :
  let expense := Expense.mk "newExpense" 4.5%float "Coffee" "" " 2024-03-09" None in
  let r := saveExpense Sample.env expense Sample.world in
  Sample.isValid " 2024-03-09" "YYYY-MM-DD" = true
  /\ String.substring 0 7 " 2024-03-09" = " 2024-0"
  /\ Sample.isValid " 2024-0" "YYYY-MM" = false
  /\ r.1 = Ok tt
  /\ expenses r.2 !! "1715950000000:0.77"
     = Some (Expense.mkDoc 4.5%float "Coffee" "Misc" " 2024-03-09" 1)
  /\ budgets r.2 !! "1715950000000:0.7" = Some (Budget.mkDoc "Misc" "2024-05" 100%float 1)
  /\ (forall k b, budgets r.2 !! k = Some b -> Budget.doc_month b <> " 2024-0").
Proof.
  cbv zeta. repeat apply conj; try (vm_compute; reflexivity).
  apply (bool_decide_unpack
           (map_Forall (fun _ b => Budget.doc_month b <> " 2024-0")
              (budgets (saveExpense Sample.env
                 (Expense.mk "newExpense" 4.5%float "Coffee" "" " 2024-03-09" None)
                 Sample.world).2))).
  vm_compute. reflexivity.
Qed.

Lemma saveExpense_Total_rejected_witness :
  exists e,
    saveExpense Sample.env (Expense.mk "newExpense" 7%float "Bakery" "" "2024-05-20" None)
      Sample.totals
    = (Throw e, Sample.totals)
    /\ (Nat.eqb (String.length (trim "Bakery")) 0 = false ->
        notPositive 7%float = false ->
        e = ReservedBudgetName).
Proof.
  apply (saveExpense_Total_rejected Sample.env Sample.totals
           (Expense.mk "newExpense" 7%float "Bakery" "" "2024-05-20" None)
           (Expense.mk "newExpense" 7%float "Bakery" "Total" "2024-05-20" None)).
  - reflexivity.
  - vm_compute. reflexivity.
  - reflexivity.
  - apply (bool_decide_unpack
             (map_Forall (fun _ b => ~ (Budget.doc_month b = "2024-05"
                                        /\ Budget.doc_name b = "Total"))
                (budgets Sample.totals))).
    vm_compute. reflexivity.
Defined.

Lemma export_import_roundtrip_witness :
  exists bs es w',
    exportAllData Sample.env Sample.world = (Ok (bs, es), Sample.world)
    /\ importData true bs es (mkWorld ∅ ∅ 0) = (Ok tt, w')
    /\ Budget.fields <$> budgets w' = Budget.fields <$> budgets Sample.world
    /\ Expense.fields <$> expenses w' = Expense.fields <$> expenses Sample.world.
Proof.
  apply (export_import_roundtrip Sample.env Sample.world (mkWorld ∅ ∅ 0)).
  - apply (bool_decide_unpack
             (map_Forall (fun _ d => between "2000-01" "2100-12" (Budget.doc_month d) = true)
                (budgets Sample.world))).
    vm_compute. reflexivity.
  - apply (bool_decide_unpack
             (map_Forall (fun _ d =>
                between "2000-01-01" "2100-12-31" (Expense.doc_date d) = true)
                (expenses Sample.world))).
    vm_compute. reflexivity.
Defined.

(** C5 as stated fails on records outside the bounds of the export: the
    budget and the expense of December 1999, whose month and date moment.js
    accepts, are not in the store after the round trip. *)
Lemma export_import_roundtrip_counterexample :
  Sample.isValid "1999-12" "YYYY-MM" = true
  /\ Sample.isValid "1999-12-24" "YYYY-MM-DD" = true
  /\ budgets Sample.old !! "b0" = Some (Budget.mkDoc "Savings" "1999-12" 10%float 1)
  /\ expenses Sample.old !! "e0" = Some (Expense.mkDoc 3%float "Stamps" "Savings" "1999-12-24" 1)
  /\ (exportAllData Sample.env Sample.old).1
     = (exportAllData Sample.env Sample.world).1
  /\ budgets (Sample.roundtrip Sample.old) !! "b0" = None
  /\ expenses (Sample.roundtrip Sample.old) !! "e0" = None
  /\ Budget.fields <$> budgets (Sample.roundtrip Sample.old)
     <> Budget.fields <$> budgets Sample.old.
Proof.
  repeat apply conj; try (vm_compute; reflexivity).
  intros Heq. apply (f_equal (fun m => m !! "b0")) in Heq.
  vm_compute in Heq. discriminate Heq.
Qed.

Lemma copyBudgets_copies_witness :
  let w' := (copyBudgets Sample.env "2024-05" "2024-06" Sample.world).2 in
  freshIds Sample.env Sample.world 2
  /\ budgets w' !! "b1" = Some Sample.food
  /\ budgets w' !! "b2" = Some Sample.fun_
  /\ budgets w' !! "1715950000000:0.7" = Some (Budget.mkDoc "Food" "2024-06" 250%float 1)
  /\ budgets w' !! "1715950000000:0.77" = Some (Budget.mkDoc "Fun" "2024-06" 40%float 1)
  /\ size (budgets w') = size (budgets Sample.world) + 2.
Proof.
  cbv zeta.
  assert (Hfresh : freshIds Sample.env Sample.world 2).
  { split.
    - intros [|[|i]] Hi; [reflexivity | reflexivity | lia].
    - intros [|[|i]] [|[|j]] Hi Hj Heq; try lia; try reflexivity;
        vm_compute in Heq; discriminate Heq. }
  split; [exact Hfresh |].
  destruct (copyBudgets_copies Sample.env Sample.world "2024-05" "2024-06")
    as (originals & w' & Hfetch & _ & _ & Hcopy & _ & Hold & _ & Hnew).
  rewrite Hcopy. simpl.
  vm_compute in Hfetch. injection Hfetch as <-.
  destruct (Hnew Hfresh) as [Hcopies Hsize].
  split; [apply Hold; reflexivity |]. split; [apply Hold; reflexivity |].
  split; [apply (Hcopies 0 _ eq_refl) |]. split; [apply (Hcopies 1 _ eq_refl) |].
  exact Hsize.
Defined.



(** [exportAllData] on the store with records of December 1999: they are
    left out, the others are returned sorted. *)
Example exportAllData_old :
  (exportAllData Sample.env Sample.old).1
  = Ok ([Budget.mk "b1" "Food" "2024-05" 250%float None;
         Budget.mk "b2" "Fun" "2024-05" 40%float None;
         Budget.mk "b3" "Rent" "2024-06" 900%float None],
        [Expense.mk "e1" 12.5%float "Lunch" "Food" "2024-05-03" None;
         Expense.mk "e2" 9%float "Cinema" "Fun" "2024-05-11" None;
         Expense.mk "e3" 900%float "Flat" "Rent" "2024-06-01" None]).
Proof. vm_compute. reflexivity. Qed.

Lemma deleteBudget_unreferenced_witness :
  deleteBudget "b1" Sample.bare
  = (Ok tt, with_budgets (delete "b1" (budgets Sample.bare)) Sample.bare).
Proof.
  apply (deleteBudget_unreferenced Sample.bare "b1" Sample.food).
  - reflexivity.
  - intros (k & e & Hk & _). simpl in Hk. rewrite lookup_empty in Hk. discriminate Hk.
Defined.

Lemma save_rejects_invalid_amount_witness :
  exists e,
    saveBudget Sample.env (Budget.mk "newBudget" "Books" "2024-05" 0%float None) Sample.world
    = (Throw e, Sample.world)
    /\ ("Books" <> "Total" -> Nat.eqb (String.length (trim "Books")) 0 = false ->
        e = InvalidBudgetValue).
Proof.
  apply (proj1 (save_rejects_invalid_amount Sample.env Sample.world)
           (Budget.mk "newBudget" "Books" "2024-05" 0%float None)).
  reflexivity.
Defined.

(** [deleteBudget] on the sample stores: the budget that an expense refers
    to stays, unless a second row holds it. *)
Example deleteBudget_samples :
  deleteBudget "b1" Sample.world = (Throw BudgetHasExpenses, Sample.world)
  /\ (deleteBudget "b1" Sample.twins).1 = Ok tt
  /\ budgets (deleteBudget "b1" Sample.twins).2 !! "b1" = None
  /\ budgets (deleteBudget "b1" Sample.twins).2 !! "b4" = Some Sample.food.
Proof. repeat apply conj; vm_compute; reflexivity. Qed.

(** [saveBudget] on the sample store: a second "Food" for May 2024 is
    refused, new or renamed; a "Food" for June is written. *)
Example saveBudget_samples :
  saveBudget Sample.env (Budget.mk "newBudget" "Food" "2024-05" 10%float None) Sample.world
  = (Throw DuplicateBudget, Sample.world)
  /\ saveBudget Sample.env (Budget.mk "b2" "Food" "2024-05" 40%float None) Sample.world
     = (Throw DuplicateBudget, Sample.world)
  /\ (let r := saveBudget Sample.env (Budget.mk "newBudget" "Food" "2024-06" 10%float None)
                 Sample.world in
      r.1 = Ok tt
      /\ budgets r.2 !! "1715950000000:0.7" = Some (Budget.mkDoc "Food" "2024-06" 10%float 1)).
Proof. cbv zeta. repeat apply conj; vm_compute; reflexivity. Qed.

(** *** The further properties at the sample store *)

Lemma blank_text_rejected_witness :
  saveBudget Sample.env (Budget.mk "newBudget" "   " "2024-05" 10%float None) Sample.world
  = (Throw InvalidBudgetName, Sample.world)
  /\ saveExpense Sample.env (Expense.mk "newExpense" 3%float "" "Food" "2024-05-02" None)
       Sample.world
     = (Throw InvalidExpenseDescription, Sample.world).
Proof.
  split.
  - apply (proj1 (proj1 (blank_text_rejected Sample.env Sample.world)
                    (Budget.mk "newBudget" "   " "2024-05" 10%float None))).
    reflexivity.
  - apply (proj1 (proj2 (blank_text_rejected Sample.env Sample.world)
                    (Expense.mk "newExpense" 3%float "" "Food" "2024-05-02" None))).
    reflexivity.
Defined.

Lemma unknown_budget_id_rejected_witness :
  deleteBudget "b9" Sample.world = (Throw NullDocument, Sample.world)
  /\ exists e,
       saveBudget Sample.env (Budget.mk "b9" "Books" "2024-05" 10%float None) Sample.world
       = (Throw e, Sample.world)
       /\ e = NullDocument.
Proof.
  split.
  - apply (proj1 (unknown_budget_id_rejected Sample.env Sample.world));
      [reflexivity | discriminate].
  - destruct (proj2 (unknown_budget_id_rejected Sample.env Sample.world)
                (Budget.mk "b9" "Books" "2024-05" 10%float None))
      as (e & He & Hcond).
    + simpl. discriminate.
    + simpl. discriminate.
    + reflexivity.
    + exists e. split; [exact He |]. apply Hcond.
      * simpl. discriminate.
      * reflexivity.
      * reflexivity.
      * apply (bool_decide_unpack
                 (map_Forall (fun k d => named "2024-05" "Books" (k, d) = false)
                    (budgets Sample.world))).
        vm_compute. reflexivity.
Defined.

Lemma saveExpense_keeps_given_budget_witness :
  let expense := Expense.mk "newExpense" 7%float "Lunch" "Fun" "2024-05-20" None in
  let w' := (saveExpense Sample.env expense Sample.world).2 in
  exists k d,
    expenses w' !! k = Some d
    /\ k = idAt Sample.env (pred (ticks w'))
    /\ Expense.doc_budget d = "Fun"
    /\ Expense.doc_description d = "Lunch"
    /\ Expense.doc_cost d = 7%float.
Proof.
  cbv zeta.
  apply (saveExpense_keeps_given_budget Sample.env Sample.world
           (saveExpense Sample.env
              (Expense.mk "newExpense" 7%float "Lunch" "Fun" "2024-05-20" None) Sample.world).2
           (Expense.mk "newExpense" 7%float "Lunch" "Fun" "2024-05-20" None)).
  - right. simpl. split; discriminate.
  - vm_compute. reflexivity.
Defined.

Lemma saveExpense_inherits_budget_witness :
  let expense := Expense.mk "newExpense" 7%float "Lunch" "" "2024-05-20" None in
  let w' := (saveExpense Sample.env expense Sample.world).2 in
  exists d,
    expenses w' !! idAt Sample.env (pred (ticks w')) = Some d
    /\ Expense.doc_budget d = "Food"
    /\ Expense.doc_description d = "Lunch"
    /\ Expense.doc_cost d = 7%float.
Proof.
  cbv zeta.
  apply (saveExpense_inherits_budget Sample.env Sample.world
           (saveExpense Sample.env
              (Expense.mk "newExpense" 7%float "Lunch" "" "2024-05-20" None) Sample.world).2
           (Expense.mk "newExpense" 7%float "Lunch" "" "2024-05-20" None) "Food").
  - reflexivity.
  - left. reflexivity.
  - exists "e1", Sample.lunch. split; reflexivity.
  - apply (bool_decide_unpack
             (map_Forall (fun _ d => Expense.doc_description d = "Lunch" ->
                                     Expense.doc_budget d = "Food")
                (expenses Sample.world))).
    vm_compute. reflexivity.
  - discriminate.
  - vm_compute. reflexivity.
Defined.

Lemma saveExpense_keeps_names_unique_witness :
  let expense := Expense.mk "newExpense" 4.5%float "Coffee" "" "2024-07-02" None in
  let w' := (saveExpense Sample.env expense Sample.world).2 in
  uniqueNames (budgets w') /\ budgets w' !! "newBudget" = None.
Proof.
  cbv zeta.
  apply (saveExpense_keeps_names_unique Sample.env Sample.world
           (Expense.mk "newExpense" 4.5%float "Coffee" "" "2024-07-02" None)).
  - apply (bool_decide_unpack _). vm_compute. reflexivity.
  - reflexivity.
Defined.

Lemma saveExpense_unknown_id_keeps_budget_witness :
  saveExpense Sample.env (Expense.mk "e9" 3%float "Tea" "Drinks" "2024-05-20" None) Sample.world
  = (Throw NullDocument,
     mkWorld (<["1715950000000:0.7" := Budget.mkDoc "Drinks" "2024-05" 100%float 1]>
                (budgets Sample.world))
             (expenses Sample.world) 1).
Proof.
  apply (proj2 (saveExpense_unknown_id_keeps_budget Sample.env Sample.world
                  (Expense.mk "e9" 3%float "Tea" "Drinks" "2024-05-20" None)
                  ltac:(simpl; discriminate) ltac:(simpl; discriminate)
                  eq_refl eq_refl eq_refl)).
  - simpl. discriminate.
  - reflexivity.
  - reflexivity.
  - apply (bool_decide_unpack
             (map_Forall (fun k d => named "2024-05" "Drinks" (k, d) = false)
                (budgets Sample.world))).
    vm_compute. reflexivity.
  - reflexivity.
Defined.

Lemma saveBudget_then_deleteBudget_witness :
  let budget := Budget.mk "newBudget" "Books" "2024-05" 30%float None in
  let w' := (saveBudget Sample.env budget Sample.world).2 in
  deleteBudget "1715950000000:0.7" w'
  = (Ok tt, mkWorld (budgets Sample.world) (expenses Sample.world) 1).
Proof.
  cbv zeta.
  apply (proj1 (saveBudget_then_deleteBudget Sample.env Sample.world
                  (saveBudget Sample.env (Budget.mk "newBudget" "Books" "2024-05" 30%float None)
                     Sample.world).2
                  (Budget.mk "newBudget" "Books" "2024-05" 30%float None)
                  eq_refl eq_refl eq_refl ltac:(vm_compute; reflexivity))).
  apply (bool_decide_unpack
           (map_Forall (fun k e => attributedTo "2024-05" "Books" (k, e) = false)
              (expenses Sample.world))).
  vm_compute. reflexivity.
Defined.

Lemma saveExpense_then_deleteExpense_witness :
  let expense := Expense.mk "newExpense" 2.5%float "Coffee" "Food" "2024-05-21" None in
  let w' := (saveExpense Sample.env expense Sample.world).2 in
  exists w'',
    deleteExpense (idAt Sample.env (pred (ticks w'))) w' = (Ok tt, w'')
    /\ expenses w'' = expenses Sample.world
    /\ budgets w'' = budgets w'.
Proof.
  cbv zeta.
  apply (saveExpense_then_deleteExpense Sample.env Sample.world
           (saveExpense Sample.env
              (Expense.mk "newExpense" 2.5%float "Coffee" "Food" "2024-05-21" None)
              Sample.world).2
           (Expense.mk "newExpense" 2.5%float "Coffee" "Food" "2024-05-21" None)).
  - reflexivity.
  - vm_compute. reflexivity.
  - vm_compute. reflexivity.
Defined.

Lemma copyBudgets_keeps_names_unique_witness :
  uniqueNames (budgets (copyBudgets Sample.env "2024-05" "2024-06" Sample.world).2)
  /\ budgets (copyBudgets Sample.env "2024-05" "2024-06" Sample.world).2 !! "newBudget" = None.
Proof.
  apply (copyBudgets_keeps_names_unique Sample.env Sample.world "2024-05" "2024-06").
  - apply (bool_decide_unpack _). vm_compute. reflexivity.
  - reflexivity.
  - apply (bool_decide_unpack
             (map_Forall (fun _ d => Budget.doc_month d = "2024-06" ->
                map_Forall (fun _ d' => Budget.doc_month d' = "2024-05" ->
                                        Budget.doc_name d <> Budget.doc_name d')
                  (budgets Sample.world))
                (budgets Sample.world))).
    vm_compute. reflexivity.
Defined.

Lemma importData_merge_witness :
  let bs := [Budget.mk "b1" "Other" "2024-05" 1%float None;
             Budget.mk "b7" "Total" "2024-05" (-5)%float None] in
  exists w',
    importData false bs [] Sample.world = (Ok tt, w')
    /\ budgets w' !! "b1" = Some Sample.food
    /\ is_Some (budgets w' !! "b7").
Proof.
  cbv zeta.
  destruct (importData_merge Sample.world
              [Budget.mk "b1" "Other" "2024-05" 1%float None;
               Budget.mk "b7" "Total" "2024-05" (-5)%float None] [])
    as (w' & Himport & Hkeep & _ & _ & _ & Hids & _).
  - repeat constructor.
  - constructor.
  - exists w'. split; [exact Himport |]. split.
    + apply Hkeep. reflexivity.
    + apply (Hids (Budget.mk "b7" "Total" "2024-05" (-5)%float None)).
      right. left.
Defined.

Lemma loadData_rollover_witness :
  db (Layout.loadData Sample.env Sample.nextMonth Sample.previousMonth
        (mkLoadOptions None None None) (Sample.app Sample.spring)).2
  = (copyBudgets Sample.env "2024-04" "2024-05" Sample.spring).2.
Proof.
  apply (proj2 (proj2 (loadData_rollover Sample.env Sample.nextMonth Sample.previousMonth
                         (mkLoadOptions None None None) (Sample.app Sample.spring))
                  ltac:(apply (bool_decide_unpack
                                 (map_Forall (fun _ d => Budget.doc_month d <> "2024-05")
                                    (budgets Sample.spring)));
                        vm_compute; reflexivity)
                  ltac:(discriminate))).
  - simpl. discriminate.
  - reflexivity.
Defined.

Lemma loadData_keeps_names_unique_witness :
  let a' := (Layout.loadData Sample.env Sample.nextMonth Sample.previousMonth
               (mkLoadOptions None None None) (Sample.app Sample.spring)).2 in
  uniqueNames (budgets (db a')) /\ budgets (db a') !! "newBudget" = None.
Proof.
  cbv zeta.
  apply (loadData_keeps_names_unique Sample.env Sample.nextMonth Sample.previousMonth
           (mkLoadOptions None None None) (Sample.app Sample.spring)).
  - apply (bool_decide_unpack _). vm_compute. reflexivity.
  - reflexivity.
Defined.

Lemma changeMonthInView_bounds_witness :
  Layout.changeMonthInView Sample.env Sample.nextMonth Sample.previousMonth "2024-07"
    (Sample.app Sample.world)
  = (Ok tt,
     with_alerts [("Warning", Text "Cannot travel further into the future!")]
       (Sample.app Sample.world)).
Proof.
  apply (proj1 (changeMonthInView_bounds Sample.env Sample.nextMonth Sample.previousMonth
                  "2024-07" (Sample.app Sample.world))).
  reflexivity.
Defined.

(** The component on the store of April, mounted in May: the budgets of
    April are copied to May and shown, the expense of April is not. *)
Example loadData_spring :
  let a' := (Layout.componentDidMount Sample.env Sample.nextMonth Sample.previousMonth
               (Sample.app Sample.spring)).2 in
  map Budget.name (LayoutState.budgets (state a')) = ["Food"; "Fun"]
  /\ map Budget.month (LayoutState.budgets (state a')) = ["2024-05"; "2024-05"]
  /\ LayoutState.expenses (state a') = []
  /\ LayoutState.currency (state a') = "EUR"
  /\ size (budgets (db a')) = 4.
Proof. cbv zeta. repeat split; vm_compute; reflexivity. Qed.

Lemma saveExpense_budget_exists_witness :
  let expense := Expense.mk "newExpense" 4.5%float "Coffee" "Treats" "2024-07-02" None in
  let w' := (saveExpense Sample.env expense Sample.world).2 in
  exists k d,
    expenses w' !! k = Some d
    /\ k = idAt Sample.env (pred (ticks w'))
    /\ Expense.doc_description d = "Coffee"
    /\ (Sample.isValid (String.substring 0 7 (Expense.doc_date d)) "YYYY-MM" = true ->
        exists k b, budgets w' !! k = Some b
          /\ Budget.doc_month b = String.substring 0 7 (Expense.doc_date d)
          /\ Budget.doc_name b = Expense.doc_budget d).
Proof.
  cbv zeta.
  apply (saveExpense_budget_exists Sample.env Sample.world
           (saveExpense Sample.env
              (Expense.mk "newExpense" 4.5%float "Coffee" "Treats" "2024-07-02" None)
              Sample.world).2
           (Expense.mk "newExpense" 4.5%float "Coffee" "Treats" "2024-07-02" None)).
  vm_compute. reflexivity.
Defined.

(** The budget "Treats" of July 2024 is created for that expense. *)
Example saveExpense_creates_budget :
  let expense := Expense.mk "newExpense" 4.5%float "Coffee" "Treats" "2024-07-02" None in
  let w' := (saveExpense Sample.env expense Sample.world).2 in
  budgets w' !! "1715950000000:0.7" = Some (Budget.mkDoc "Treats" "2024-07" 100%float 1)
  /\ expenses w' !! "1715950000000:0.77"
     = Some (Expense.mkDoc 4.5%float "Coffee" "Treats" "2024-07-02" 1).
Proof. cbv zeta. split; vm_compute; reflexivity. Qed.

(** *** Dates whose day is written with one digit *)

(** C2, at an expense whose day is written with one digit. The date
    "2024-05-4" passes the validity check of [saveExpense], so that the
    expense is stored as it is given, for the budget "Food" of May 2024:
    its first seven characters are the month of the budget and its budget
    field is the budget's name, and no second row holds that budget. The
    range query of [deleteBudget] compares whole strings and ends at
    "2024-05-31", which comes before "2024-05-4": it does not yield the
    expense, and [deleteBudget] returns and removes the budget instead of
    throwing. *)
Theorem deleteBudget_short_date :
  let expense := Expense.mk "newExpense" 6%float "Snack" "Food" "2024-05-4" None in
  let stored := Expense.mkDoc 6%float "Snack" "Food" "2024-05-4" 1 in
  let w := (saveExpense Sample.env expense Sample.bare).2 in
  moment_isValid Sample.env "2024-05-4" "YYYY-MM-DD" = true
  /\ saveExpense Sample.env expense Sample.bare
     = (Ok tt, mkWorld (budgets Sample.bare) (<["1715950000000:0.7" := stored]> ∅) 1)
  /\ budgets w !! "b1" = Some Sample.food
  /\ specBudgetFor Sample.food stored
  /\ specReferenced w Sample.food
  /\ ~ hasTwin w "b1" Sample.food
  /\ dateInMonth "2024-05" "2024-05-4" = false
  /\ deleteBudget "b1" w = (Ok tt, with_budgets (delete "b1" (budgets w)) w)
  /\ budgets (deleteBudget "b1" w).2 !! "b1" = None.
Proof.
  cbv zeta.
  split; [vm_compute; reflexivity |].
  split; [vm_compute; reflexivity |].
  split; [vm_compute; reflexivity |].
  split; [split; vm_compute; reflexivity |].
  split.
  { exists "1715950000000:0.7", (Expense.mkDoc 6%float "Snack" "Food" "2024-05-4" 1).
    split; [vm_compute; reflexivity | split; vm_compute; reflexivity]. }
  split.
  { intros (k' & b' & Hne & Hk' & Hm & Hn).
    assert (Hall : map_Forall (fun k b => k <> "b1" ->
                     ~ (Budget.doc_month b = "2024-05" /\ Budget.doc_name b = "Food"))
                     (budgets (saveExpense Sample.env
                        (Expense.mk "newExpense" 6%float "Snack" "Food" "2024-05-4" None)
                        Sample.bare).2))
      by (apply (bool_decide_unpack _); vm_compute; reflexivity).
    exact (Hall k' b' Hk' Hne (conj Hm Hn)). }
  split; [vm_compute; reflexivity |].
  split; vm_compute; reflexivity.
Qed.

(** C3, at the same expense, saved to the sample store. The budget "Food"
    of May 2024 is renamed to "Groceries" by an update that returns: the
    expense of 3 May, "2024-05-03", now carries the new name and the
    expense of June is as it was, but the expense dated "2024-05-4", whose
    first seven characters are the month of the budget and which carried
    the old name, still carries it: the range query of the cascade does not
    yield it. No budget of its name is left for its month. *)
Theorem saveBudget_rename_short_date :
  let expense := Expense.mk "newExpense" 6%float "Snack" "Food" "2024-05-4" None in
  let stored := Expense.mkDoc 6%float "Snack" "Food" "2024-05-4" 1 in
  let w := (saveExpense Sample.env expense Sample.world).2 in
  let r := saveBudget Sample.env (Budget.mk "b1" "Groceries" "2024-05" 250%float None) w in
  (saveExpense Sample.env expense Sample.world).1 = Ok tt
  /\ budgets w !! "b1" = Some Sample.food
  /\ expenses w !! "e1" = Some Sample.lunch
  /\ expenses w !! "1715950000000:0.7" = Some stored
  /\ specBudgetFor Sample.food stored
  /\ r.1 = Ok tt
  /\ budgets r.2 !! "b1" = Some (Budget.mkDoc "Groceries" "2024-05" 250%float 2)
  /\ expenses r.2 !! "e1" = Some (Expense.mkDoc 12.5%float "Lunch" "Groceries" "2024-05-03" 2)
  /\ expenses r.2 !! "e3" = Some Sample.june
  /\ expenses r.2 !! "1715950000000:0.7" = Some stored
  /\ (forall k b, budgets r.2 !! k = Some b -> ~ specBudgetFor b stored).
Proof.
  cbv zeta. repeat apply conj; try (vm_compute; reflexivity).
  apply (bool_decide_unpack
           (map_Forall (fun _ b =>
              ~ specBudgetFor b (Expense.mkDoc 6%float "Snack" "Food" "2024-05-4" 1))
              (budgets (saveBudget Sample.env
                 (Budget.mk "b1" "Groceries" "2024-05" 250%float None)
                 (saveExpense Sample.env
                    (Expense.mk "newExpense" 6%float "Snack" "Food" "2024-05-4" None)
                    Sample.world).2).2))).
  vm_compute. reflexivity.
Qed.

(** *** The empty id *)

(** For the empty id the store yields its first document. [saveBudget] of
    a budget with the empty id writes the name and the value to the budget
    of the lowest id, here b1, which comes to stand beside b2 with its
    name; [saveExpense] overwrites the first expense; [deleteExpense]
    removes it; and [deleteBudget] removes the first budget when no expense
    is attributed to it and throws on its expenses when one is. *)
Example empty_id_samples :
  findOne (idIs "") (budgets Sample.world) = Some ("b1", Sample.food)
  /\ findOne (idIs "") (expenses Sample.world) = Some ("e1", Sample.lunch)
  /\ (let r := saveBudget Sample.env (Budget.mk "" "Fun" "2024-06" 40%float None) Sample.world in
      r.1 = Ok tt
      /\ budgets r.2 !! "b1" = Some (Budget.mkDoc "Fun" "2024-05" 40%float 2)
      /\ budgets r.2 !! "b2" = Some Sample.fun_
      /\ budgets r.2 !! "" = None
      /\ ~ uniqueNames (budgets r.2))
  /\ (let r := saveExpense Sample.env (Expense.mk "" 1%float "Tea" "Fun" "2024-05-20" None)
                 Sample.world in
      r.1 = Ok tt
      /\ expenses r.2 !! "e1" = Some (Expense.mkDoc 1%float "Tea" "Fun" "2024-05-20" 2)
      /\ expenses r.2 !! "" = None)
  /\ deleteExpense "" Sample.world
     = (Ok tt, with_expenses (delete "e1" (expenses Sample.world)) Sample.world)
  /\ deleteBudget "" Sample.bare
     = (Ok tt, with_budgets (delete "b1" (budgets Sample.bare)) Sample.bare)
  /\ deleteBudget "" Sample.world = (Throw BudgetHasExpenses, Sample.world).
Proof.
  cbv zeta. repeat apply conj;
    solve [ vm_compute; reflexivity
          | apply (bool_decide_eq_false_1 _); vm_compute; reflexivity ].
Qed.

(** The documents of the sample store, in the order the store yields them. *)
Example documents_sample :
  (documents (expenses Sample.world)).*1 = ["e1"; "e2"; "e3"]
  /\ (documents (budgets Sample.world)).*1 = ["b1"; "b2"; "b3"].
Proof. split; vm_compute; reflexivity. Qed.
